(** * webcrawlerAI: registry, fact aggregation, live report and task lifecycle

    A shallow embedding of
      - [src/webui/webui_manager.py] (class [WebuiManager]),
      - [src/webui/components/vayner_client_research_tab.py]
        ([generate_live_report], [step_callback], [done_callback],
        [handle_submit], [handle_stop], [handle_clear]),
      - [src/webui/interface.py] and [src/utils/llm_provider.py],
    followed by the properties of the design document that concern them.

    Conventions of the embedding.
      - A Python [str] is the list of its characters, a character is its
        code point: [str := list N]. A literal of this file is read as UTF-8,
        so it denotes the text a Python literal with the same characters
        denotes. [str.lower], [str.strip], [str.splitlines], [len], and [\s],
        [\w] and [re.IGNORECASE] of the [re] module follow the Unicode
        database of the interpreter (module [Unicode]).
      - A Python object used only through its identity (a gradio component,
        an asyncio task) is a number.
      - A Python [dict] keyed by objects is a [gmap]; a list is a [list].
      - Code that can raise returns a value of a sum type; a mutable object
        that a [try] block has already changed keeps the change. *)

From Stdlib Require Import String List Bool Arith NArith Lia.
From Stdlib.Strings Require Byte.
From stdpp Require Import gmap strings list fin_maps.

(** ** Texts *)

(** A Python [str]. *)
Definition str : Type := list N.

(** The literals: the bytes between the quotes are decoded as UTF-8. A byte
    that begins no well-formed sequence stands for the character with its
    number. *)
Module Literal.

Inductive text : Set :=
  | Empty
  | Char (c : N) (rest : text).

Definition continuation (b : Byte.byte) : option N :=
  let n := Byte.to_N b in
  if ((128 <=? n) && (n <? 192))%N then Some (n - 128)%N else None.

Fixpoint decode (bytes : list Byte.byte) : text :=
  match bytes with
  | [] => Empty
  | b0 :: bytes1 =>
      let n0 := Byte.to_N b0 in
      let single := Char n0 (decode bytes1) in
      if (n0 <? 192)%N then single
      else
        match bytes1 with
        | b1 :: bytes2 =>
            match continuation b1 with
            | Some c1 =>
                if (n0 <? 224)%N then Char ((n0 - 192) * 64 + c1)%N (decode bytes2)
                else
                  match bytes2 with
                  | b2 :: bytes3 =>
                      match continuation b2 with
                      | Some c2 =>
                          if (n0 <? 240)%N
                          then Char (((n0 - 224) * 64 + c1) * 64 + c2)%N (decode bytes3)
                          else
                            match bytes3 with
                            | b3 :: bytes4 =>
                                match continuation b3 with
                                | Some c3 =>
                                    Char ((((n0 - 240) * 64 + c1) * 64 + c2) * 64 + c3)%N
                                      (decode bytes4)
                                | None => single
                                end
                            | [] => single
                            end
                      | None => single
                      end
                  | [] => single
                  end
            | None => single
            end
        | [] => single
        end
  end.

Definition byte_of (n : N) : Byte.byte :=
  match Byte.of_N n with
  | Some b => b
  | None => Byte.x3f
  end.

Definition encode_char (c : N) : list Byte.byte :=
  if (c <? 128)%N then [byte_of c]
  else if (c <? 2048)%N then [byte_of (192 + c / 64); byte_of (128 + c mod 64)]%N
  else if (c <? 65536)%N
  then [byte_of (224 + c / 4096); byte_of (128 + (c / 64) mod 64); byte_of (128 + c mod 64)]%N
  else [byte_of (240 + c / 262144); byte_of (128 + (c / 4096) mod 64);
        byte_of (128 + (c / 64) mod 64); byte_of (128 + c mod 64)]%N.

Fixpoint encode (t : text) : list Byte.byte :=
  match t with
  | Empty => []
  | Char c rest => encode_char c ++ encode rest
  end.

End Literal.

Declare Scope str_scope.
Delimit Scope str_scope with str.
Bind Scope str_scope with str.
#[warnings="-via-type-remapping,-via-type-mismatch"]
String Notation str Literal.decode Literal.encode
  (via Literal.text mapping [[nil] => Literal.Empty, [cons] => Literal.Char]) : str_scope.

(** Concatenation of texts. *)
Notation "a +:+ b" := (@app N a b) : str_scope.

Local Open Scope str_scope.
Local Open Scope list_scope.
Local Open Scope nat_scope.

(** ** The characters

    A character is its code point. The tables are those of the Unicode
    database of CPython 3.11 (Unicode 14.0), as the methods of [str] and the
    [re] module read them. *)

Module Unicode.

Definition in_ranges (ranges : list (N * N)) (c : N) : bool :=
  existsb (fun r => (fst r <=? c)%N && (c <=? snd r)%N) ranges.

(** The characters [c] with [c.isspace()]; they are what [str.strip()]
    removes and what [\s] matches. *)
Definition whitespace : list N :=
  [ 9; 10; 11; 12; 13; 28; 29; 30; 31; 32; 133; 160;
    5760; 8192; 8193; 8194; 8195; 8196; 8197; 8198; 8199; 8200; 8201; 8202;
    8232; 8233; 8239; 8287; 12288 ]%N.

Definition isspace (c : N) : bool := existsb (N.eqb c) whitespace.

(** The line boundaries of [str.splitlines]. *)
Definition linebreaks : list N :=
  [ 10; 11; 12; 13; 28; 29; 30; 133; 8232; 8233 ]%N.

Definition is_linebreak (c : N) : bool := existsb (N.eqb c) linebreaks.

(** The ranges of the characters [c] with [c.isalnum()]. *)
Definition alnum_ranges : list (N * N) :=
  [ (48, 57); (65, 90); (97, 122); (170, 170); (178, 179); (181, 181);
    (185, 186); (188, 190); (192, 214); (216, 246); (248, 705); (710, 721);
    (736, 740); (748, 748); (750, 750); (880, 884); (886, 887); (890, 893);
    (895, 895); (902, 902); (904, 906); (908, 908); (910, 929); (931, 1013);
    (1015, 1153); (1162, 1327); (1329, 1366); (1369, 1369); (1376, 1416); (1488, 1514);
    (1519, 1522); (1568, 1610); (1632, 1641); (1646, 1647); (1649, 1747); (1749, 1749);
    (1765, 1766); (1774, 1788); (1791, 1791); (1808, 1808); (1810, 1839); (1869, 1957);
    (1969, 1969); (1984, 2026); (2036, 2037); (2042, 2042); (2048, 2069); (2074, 2074);
    (2084, 2084); (2088, 2088); (2112, 2136); (2144, 2154); (2160, 2183); (2185, 2190);
    (2208, 2249); (2308, 2361); (2365, 2365); (2384, 2384); (2392, 2401); (2406, 2415);
    (2417, 2432); (2437, 2444); (2447, 2448); (2451, 2472); (2474, 2480); (2482, 2482);
    (2486, 2489); (2493, 2493); (2510, 2510); (2524, 2525); (2527, 2529); (2534, 2545);
    (2548, 2553); (2556, 2556); (2565, 2570); (2575, 2576); (2579, 2600); (2602, 2608);
    (2610, 2611); (2613, 2614); (2616, 2617); (2649, 2652); (2654, 2654); (2662, 2671);
    (2674, 2676); (2693, 2701); (2703, 2705); (2707, 2728); (2730, 2736); (2738, 2739);
    (2741, 2745); (2749, 2749); (2768, 2768); (2784, 2785); (2790, 2799); (2809, 2809);
    (2821, 2828); (2831, 2832); (2835, 2856); (2858, 2864); (2866, 2867); (2869, 2873);
    (2877, 2877); (2908, 2909); (2911, 2913); (2918, 2927); (2929, 2935); (2947, 2947);
    (2949, 2954); (2958, 2960); (2962, 2965); (2969, 2970); (2972, 2972); (2974, 2975);
    (2979, 2980); (2984, 2986); (2990, 3001); (3024, 3024); (3046, 3058); (3077, 3084);
    (3086, 3088); (3090, 3112); (3114, 3129); (3133, 3133); (3160, 3162); (3165, 3165);
    (3168, 3169); (3174, 3183); (3192, 3198); (3200, 3200); (3205, 3212); (3214, 3216);
    (3218, 3240); (3242, 3251); (3253, 3257); (3261, 3261); (3293, 3294); (3296, 3297);
    (3302, 3311); (3313, 3314); (3332, 3340); (3342, 3344); (3346, 3386); (3389, 3389);
    (3406, 3406); (3412, 3414); (3416, 3425); (3430, 3448); (3450, 3455); (3461, 3478);
    (3482, 3505); (3507, 3515); (3517, 3517); (3520, 3526); (3558, 3567); (3585, 3632);
    (3634, 3635); (3648, 3654); (3664, 3673); (3713, 3714); (3716, 3716); (3718, 3722);
    (3724, 3747); (3749, 3749); (3751, 3760); (3762, 3763); (3773, 3773); (3776, 3780);
    (3782, 3782); (3792, 3801); (3804, 3807); (3840, 3840); (3872, 3891); (3904, 3911);
    (3913, 3948); (3976, 3980); (4096, 4138); (4159, 4169); (4176, 4181); (4186, 4189);
    (4193, 4193); (4197, 4198); (4206, 4208); (4213, 4225); (4238, 4238); (4240, 4249);
    (4256, 4293); (4295, 4295); (4301, 4301); (4304, 4346); (4348, 4680); (4682, 4685);
    (4688, 4694); (4696, 4696); (4698, 4701); (4704, 4744); (4746, 4749); (4752, 4784);
    (4786, 4789); (4792, 4798); (4800, 4800); (4802, 4805); (4808, 4822); (4824, 4880);
    (4882, 4885); (4888, 4954); (4969, 4988); (4992, 5007); (5024, 5109); (5112, 5117);
    (5121, 5740); (5743, 5759); (5761, 5786); (5792, 5866); (5870, 5880); (5888, 5905);
    (5919, 5937); (5952, 5969); (5984, 5996); (5998, 6000); (6016, 6067); (6103, 6103);
    (6108, 6108); (6112, 6121); (6128, 6137); (6160, 6169); (6176, 6264); (6272, 6276);
    (6279, 6312); (6314, 6314); (6320, 6389); (6400, 6430); (6470, 6509); (6512, 6516);
    (6528, 6571); (6576, 6601); (6608, 6618); (6656, 6678); (6688, 6740); (6784, 6793);
    (6800, 6809); (6823, 6823); (6917, 6963); (6981, 6988); (6992, 7001); (7043, 7072);
    (7086, 7141); (7168, 7203); (7232, 7241); (7245, 7293); (7296, 7304); (7312, 7354);
    (7357, 7359); (7401, 7404); (7406, 7411); (7413, 7414); (7418, 7418); (7424, 7615);
    (7680, 7957); (7960, 7965); (7968, 8005); (8008, 8013); (8016, 8023); (8025, 8025);
    (8027, 8027); (8029, 8029); (8031, 8061); (8064, 8116); (8118, 8124); (8126, 8126);
    (8130, 8132); (8134, 8140); (8144, 8147); (8150, 8155); (8160, 8172); (8178, 8180);
    (8182, 8188); (8304, 8305); (8308, 8313); (8319, 8329); (8336, 8348); (8450, 8450);
    (8455, 8455); (8458, 8467); (8469, 8469); (8473, 8477); (8484, 8484); (8486, 8486);
    (8488, 8488); (8490, 8493); (8495, 8505); (8508, 8511); (8517, 8521); (8526, 8526);
    (8528, 8585); (9312, 9371); (9450, 9471); (10102, 10131); (11264, 11492); (11499, 11502);
    (11506, 11507); (11517, 11517); (11520, 11557); (11559, 11559); (11565, 11565); (11568, 11623);
    (11631, 11631); (11648, 11670); (11680, 11686); (11688, 11694); (11696, 11702); (11704, 11710);
    (11712, 11718); (11720, 11726); (11728, 11734); (11736, 11742); (11823, 11823); (12293, 12295);
    (12321, 12329); (12337, 12341); (12344, 12348); (12353, 12438); (12445, 12447); (12449, 12538);
    (12540, 12543); (12549, 12591); (12593, 12686); (12690, 12693); (12704, 12735); (12784, 12799);
    (12832, 12841); (12872, 12879); (12881, 12895); (12928, 12937); (12977, 12991); (13312, 19903);
    (19968, 42124); (42192, 42237); (42240, 42508); (42512, 42539); (42560, 42606); (42623, 42653);
    (42656, 42735); (42775, 42783); (42786, 42888); (42891, 42954); (42960, 42961); (42963, 42963);
    (42965, 42969); (42994, 43009); (43011, 43013); (43015, 43018); (43020, 43042); (43056, 43061);
    (43072, 43123); (43138, 43187); (43216, 43225); (43250, 43255); (43259, 43259); (43261, 43262);
    (43264, 43301); (43312, 43334); (43360, 43388); (43396, 43442); (43471, 43481); (43488, 43492);
    (43494, 43518); (43520, 43560); (43584, 43586); (43588, 43595); (43600, 43609); (43616, 43638);
    (43642, 43642); (43646, 43695); (43697, 43697); (43701, 43702); (43705, 43709); (43712, 43712);
    (43714, 43714); (43739, 43741); (43744, 43754); (43762, 43764); (43777, 43782); (43785, 43790);
    (43793, 43798); (43808, 43814); (43816, 43822); (43824, 43866); (43868, 43881); (43888, 44002);
    (44016, 44025); (44032, 55203); (55216, 55238); (55243, 55291); (63744, 64109); (64112, 64217);
    (64256, 64262); (64275, 64279); (64285, 64285); (64287, 64296); (64298, 64310); (64312, 64316);
    (64318, 64318); (64320, 64321); (64323, 64324); (64326, 64433); (64467, 64829); (64848, 64911);
    (64914, 64967); (65008, 65019); (65136, 65140); (65142, 65276); (65296, 65305); (65313, 65338);
    (65345, 65370); (65382, 65470); (65474, 65479); (65482, 65487); (65490, 65495); (65498, 65500);
    (65536, 65547); (65549, 65574); (65576, 65594); (65596, 65597); (65599, 65613); (65616, 65629);
    (65664, 65786); (65799, 65843); (65856, 65912); (65930, 65931); (66176, 66204); (66208, 66256);
    (66273, 66299); (66304, 66339); (66349, 66378); (66384, 66421); (66432, 66461); (66464, 66499);
    (66504, 66511); (66513, 66517); (66560, 66717); (66720, 66729); (66736, 66771); (66776, 66811);
    (66816, 66855); (66864, 66915); (66928, 66938); (66940, 66954); (66956, 66962); (66964, 66965);
    (66967, 66977); (66979, 66993); (66995, 67001); (67003, 67004); (67072, 67382); (67392, 67413);
    (67424, 67431); (67456, 67461); (67463, 67504); (67506, 67514); (67584, 67589); (67592, 67592);
    (67594, 67637); (67639, 67640); (67644, 67644); (67647, 67669); (67672, 67702); (67705, 67742);
    (67751, 67759); (67808, 67826); (67828, 67829); (67835, 67867); (67872, 67897); (67968, 68023);
    (68028, 68047); (68050, 68096); (68112, 68115); (68117, 68119); (68121, 68149); (68160, 68168);
    (68192, 68222); (68224, 68255); (68288, 68295); (68297, 68324); (68331, 68335); (68352, 68405);
    (68416, 68437); (68440, 68466); (68472, 68497); (68521, 68527); (68608, 68680); (68736, 68786);
    (68800, 68850); (68858, 68899); (68912, 68921); (69216, 69246); (69248, 69289); (69296, 69297);
    (69376, 69415); (69424, 69445); (69457, 69460); (69488, 69505); (69552, 69579); (69600, 69622);
    (69635, 69687); (69714, 69743); (69745, 69746); (69749, 69749); (69763, 69807); (69840, 69864);
    (69872, 69881); (69891, 69926); (69942, 69951); (69956, 69956); (69959, 69959); (69968, 70002);
    (70006, 70006); (70019, 70066); (70081, 70084); (70096, 70106); (70108, 70108); (70113, 70132);
    (70144, 70161); (70163, 70187); (70272, 70278); (70280, 70280); (70282, 70285); (70287, 70301);
    (70303, 70312); (70320, 70366); (70384, 70393); (70405, 70412); (70415, 70416); (70419, 70440);
    (70442, 70448); (70450, 70451); (70453, 70457); (70461, 70461); (70480, 70480); (70493, 70497);
    (70656, 70708); (70727, 70730); (70736, 70745); (70751, 70753); (70784, 70831); (70852, 70853);
    (70855, 70855); (70864, 70873); (71040, 71086); (71128, 71131); (71168, 71215); (71236, 71236);
    (71248, 71257); (71296, 71338); (71352, 71352); (71360, 71369); (71424, 71450); (71472, 71483);
    (71488, 71494); (71680, 71723); (71840, 71922); (71935, 71942); (71945, 71945); (71948, 71955);
    (71957, 71958); (71960, 71983); (71999, 71999); (72001, 72001); (72016, 72025); (72096, 72103);
    (72106, 72144); (72161, 72161); (72163, 72163); (72192, 72192); (72203, 72242); (72250, 72250);
    (72272, 72272); (72284, 72329); (72349, 72349); (72368, 72440); (72704, 72712); (72714, 72750);
    (72768, 72768); (72784, 72812); (72818, 72847); (72960, 72966); (72968, 72969); (72971, 73008);
    (73030, 73030); (73040, 73049); (73056, 73061); (73063, 73064); (73066, 73097); (73112, 73112);
    (73120, 73129); (73440, 73458); (73648, 73648); (73664, 73684); (73728, 74649); (74752, 74862);
    (74880, 75075); (77712, 77808); (77824, 78894); (82944, 83526); (92160, 92728); (92736, 92766);
    (92768, 92777); (92784, 92862); (92864, 92873); (92880, 92909); (92928, 92975); (92992, 92995);
    (93008, 93017); (93019, 93025); (93027, 93047); (93053, 93071); (93760, 93846); (93952, 94026);
    (94032, 94032); (94099, 94111); (94176, 94177); (94179, 94179); (94208, 100343); (100352, 101589);
    (101632, 101640); (110576, 110579); (110581, 110587); (110589, 110590); (110592, 110882); (110928, 110930);
    (110948, 110951); (110960, 111355); (113664, 113770); (113776, 113788); (113792, 113800); (113808, 113817);
    (119520, 119539); (119648, 119672); (119808, 119892); (119894, 119964); (119966, 119967); (119970, 119970);
    (119973, 119974); (119977, 119980); (119982, 119993); (119995, 119995); (119997, 120003); (120005, 120069);
    (120071, 120074); (120077, 120084); (120086, 120092); (120094, 120121); (120123, 120126); (120128, 120132);
    (120134, 120134); (120138, 120144); (120146, 120485); (120488, 120512); (120514, 120538); (120540, 120570);
    (120572, 120596); (120598, 120628); (120630, 120654); (120656, 120686); (120688, 120712); (120714, 120744);
    (120746, 120770); (120772, 120779); (120782, 120831); (122624, 122654); (123136, 123180); (123191, 123197);
    (123200, 123209); (123214, 123214); (123536, 123565); (123584, 123627); (123632, 123641); (124896, 124902);
    (124904, 124907); (124909, 124910); (124912, 124926); (124928, 125124); (125127, 125135); (125184, 125251);
    (125259, 125259); (125264, 125273); (126065, 126123); (126125, 126127); (126129, 126132); (126209, 126253);
    (126255, 126269); (126464, 126467); (126469, 126495); (126497, 126498); (126500, 126500); (126503, 126503);
    (126505, 126514); (126516, 126519); (126521, 126521); (126523, 126523); (126530, 126530); (126535, 126535);
    (126537, 126537); (126539, 126539); (126541, 126543); (126545, 126546); (126548, 126548); (126551, 126551);
    (126553, 126553); (126555, 126555); (126557, 126557); (126559, 126559); (126561, 126562); (126564, 126564);
    (126567, 126570); (126572, 126578); (126580, 126583); (126585, 126588); (126590, 126590); (126592, 126601);
    (126603, 126619); (126625, 126627); (126629, 126633); (126635, 126651); (127232, 127244); (130032, 130041);
    (131072, 173791); (173824, 177976); (177984, 178205); (178208, 183969); (183984, 191456); (194560, 195101);
    (196608, 201546) ]%N.

Definition isalnum (c : N) : bool := in_ranges alnum_ranges c.

(** The lower-case mapping of single characters. An entry
    [(first, last, step, target)] maps the characters [first], [first + step],
    ... up to [last] to [target], [target + step], ... *)
Definition lower_runs : list (N * N * N * N) :=
  [ (65, 90, 1, 97); (192, 214, 1, 224); (216, 222, 1, 248); (256, 302, 2, 257);
    (304, 304, 1, 105); (306, 310, 2, 307); (313, 327, 2, 314); (330, 374, 2, 331);
    (376, 376, 1, 255); (377, 381, 2, 378); (385, 385, 1, 595); (386, 388, 2, 387);
    (390, 390, 1, 596); (391, 391, 1, 392); (393, 394, 1, 598); (395, 395, 1, 396);
    (398, 398, 1, 477); (399, 399, 1, 601); (400, 400, 1, 603); (401, 401, 1, 402);
    (403, 403, 1, 608); (404, 404, 1, 611); (406, 406, 1, 617); (407, 407, 1, 616);
    (408, 408, 1, 409); (412, 412, 1, 623); (413, 413, 1, 626); (415, 415, 1, 629);
    (416, 420, 2, 417); (422, 422, 1, 640); (423, 423, 1, 424); (425, 425, 1, 643);
    (428, 428, 1, 429); (430, 430, 1, 648); (431, 431, 1, 432); (433, 434, 1, 650);
    (435, 437, 2, 436); (439, 439, 1, 658); (440, 440, 1, 441); (444, 444, 1, 445);
    (452, 452, 1, 454); (453, 453, 1, 454); (455, 455, 1, 457); (456, 456, 1, 457);
    (458, 458, 1, 460); (459, 475, 2, 460); (478, 494, 2, 479); (497, 497, 1, 499);
    (498, 500, 2, 499); (502, 502, 1, 405); (503, 503, 1, 447); (504, 542, 2, 505);
    (544, 544, 1, 414); (546, 562, 2, 547); (570, 570, 1, 11365); (571, 571, 1, 572);
    (573, 573, 1, 410); (574, 574, 1, 11366); (577, 577, 1, 578); (579, 579, 1, 384);
    (580, 580, 1, 649); (581, 581, 1, 652); (582, 590, 2, 583); (880, 882, 2, 881);
    (886, 886, 1, 887); (895, 895, 1, 1011); (902, 902, 1, 940); (904, 906, 1, 941);
    (908, 908, 1, 972); (910, 911, 1, 973); (913, 929, 1, 945); (931, 939, 1, 963);
    (975, 975, 1, 983); (984, 1006, 2, 985); (1012, 1012, 1, 952); (1015, 1015, 1, 1016);
    (1017, 1017, 1, 1010); (1018, 1018, 1, 1019); (1021, 1023, 1, 891); (1024, 1039, 1, 1104);
    (1040, 1071, 1, 1072); (1120, 1152, 2, 1121); (1162, 1214, 2, 1163); (1216, 1216, 1, 1231);
    (1217, 1229, 2, 1218); (1232, 1326, 2, 1233); (1329, 1366, 1, 1377); (4256, 4293, 1, 11520);
    (4295, 4295, 1, 11559); (4301, 4301, 1, 11565); (5024, 5103, 1, 43888); (5104, 5109, 1, 5112);
    (7312, 7354, 1, 4304); (7357, 7359, 1, 4349); (7680, 7828, 2, 7681); (7838, 7838, 1, 223);
    (7840, 7934, 2, 7841); (7944, 7951, 1, 7936); (7960, 7965, 1, 7952); (7976, 7983, 1, 7968);
    (7992, 7999, 1, 7984); (8008, 8013, 1, 8000); (8025, 8031, 2, 8017); (8040, 8047, 1, 8032);
    (8072, 8079, 1, 8064); (8088, 8095, 1, 8080); (8104, 8111, 1, 8096); (8120, 8121, 1, 8112);
    (8122, 8123, 1, 8048); (8124, 8124, 1, 8115); (8136, 8139, 1, 8050); (8140, 8140, 1, 8131);
    (8152, 8153, 1, 8144); (8154, 8155, 1, 8054); (8168, 8169, 1, 8160); (8170, 8171, 1, 8058);
    (8172, 8172, 1, 8165); (8184, 8185, 1, 8056); (8186, 8187, 1, 8060); (8188, 8188, 1, 8179);
    (8486, 8486, 1, 969); (8490, 8490, 1, 107); (8491, 8491, 1, 229); (8498, 8498, 1, 8526);
    (8544, 8559, 1, 8560); (8579, 8579, 1, 8580); (9398, 9423, 1, 9424); (11264, 11311, 1, 11312);
    (11360, 11360, 1, 11361); (11362, 11362, 1, 619); (11363, 11363, 1, 7549); (11364, 11364, 1, 637);
    (11367, 11371, 2, 11368); (11373, 11373, 1, 593); (11374, 11374, 1, 625); (11375, 11375, 1, 592);
    (11376, 11376, 1, 594); (11378, 11378, 1, 11379); (11381, 11381, 1, 11382); (11390, 11391, 1, 575);
    (11392, 11490, 2, 11393); (11499, 11501, 2, 11500); (11506, 11506, 1, 11507); (42560, 42604, 2, 42561);
    (42624, 42650, 2, 42625); (42786, 42798, 2, 42787); (42802, 42862, 2, 42803); (42873, 42875, 2, 42874);
    (42877, 42877, 1, 7545); (42878, 42886, 2, 42879); (42891, 42891, 1, 42892); (42893, 42893, 1, 613);
    (42896, 42898, 2, 42897); (42902, 42920, 2, 42903); (42922, 42922, 1, 614); (42923, 42923, 1, 604);
    (42924, 42924, 1, 609); (42925, 42925, 1, 620); (42926, 42926, 1, 618); (42928, 42928, 1, 670);
    (42929, 42929, 1, 647); (42930, 42930, 1, 669); (42931, 42931, 1, 43859); (42932, 42946, 2, 42933);
    (42948, 42948, 1, 42900); (42949, 42949, 1, 642); (42950, 42950, 1, 7566); (42951, 42953, 2, 42952);
    (42960, 42960, 1, 42961); (42966, 42968, 2, 42967); (42997, 42997, 1, 42998); (65313, 65338, 1, 65345);
    (66560, 66599, 1, 66600); (66736, 66771, 1, 66776); (66928, 66938, 1, 66967); (66940, 66954, 1, 66979);
    (66956, 66962, 1, 66995); (66964, 66965, 1, 67003); (68736, 68786, 1, 68800); (71840, 71871, 1, 71872);
    (93760, 93791, 1, 93792); (125184, 125217, 1, 125218) ]%N.

Fixpoint lower_in (runs : list (N * N * N * N)) (c : N) : N :=
  match runs with
  | [] => c
  | (first, last, step, target) :: runs' =>
      if ((first <=? c) && (c <=? last) && ((c - first) mod step =? 0))%N
      then (target + (c - first))%N
      else lower_in runs' c
  end.

(** The lower case of one character as the [re] module takes it. *)
Definition tolower (c : N) : N := lower_in lower_runs c.

(** [c.lower()] for a character other than the capital sigma: the one
    character with a lower case of two characters is U+0130. *)
Definition lower_full (c : N) : list N :=
  if (c =? 304)%N then [105; 775]%N else [tolower c].

(** The characters [str.lower] skips when it looks for the letters around
    a capital sigma (Case_Ignorable). *)
Definition case_ignorable_ranges : list (N * N) :=
  [ (39, 39); (46, 46); (58, 58); (94, 94); (96, 96); (168, 168);
    (173, 173); (175, 175); (180, 180); (183, 184); (688, 879); (884, 885);
    (890, 890); (900, 901); (903, 903); (1155, 1161); (1369, 1369); (1375, 1375);
    (1425, 1469); (1471, 1471); (1473, 1474); (1476, 1477); (1479, 1479); (1524, 1524);
    (1536, 1541); (1552, 1562); (1564, 1564); (1600, 1600); (1611, 1631); (1648, 1648);
    (1750, 1757); (1759, 1768); (1770, 1773); (1807, 1807); (1809, 1809); (1840, 1866);
    (1958, 1968); (2027, 2037); (2042, 2042); (2045, 2045); (2070, 2093); (2137, 2139);
    (2184, 2184); (2192, 2193); (2200, 2207); (2249, 2306); (2362, 2362); (2364, 2364);
    (2369, 2376); (2381, 2381); (2385, 2391); (2402, 2403); (2417, 2417); (2433, 2433);
    (2492, 2492); (2497, 2500); (2509, 2509); (2530, 2531); (2558, 2558); (2561, 2562);
    (2620, 2620); (2625, 2626); (2631, 2632); (2635, 2637); (2641, 2641); (2672, 2673);
    (2677, 2677); (2689, 2690); (2748, 2748); (2753, 2757); (2759, 2760); (2765, 2765);
    (2786, 2787); (2810, 2815); (2817, 2817); (2876, 2876); (2879, 2879); (2881, 2884);
    (2893, 2893); (2901, 2902); (2914, 2915); (2946, 2946); (3008, 3008); (3021, 3021);
    (3072, 3072); (3076, 3076); (3132, 3132); (3134, 3136); (3142, 3144); (3146, 3149);
    (3157, 3158); (3170, 3171); (3201, 3201); (3260, 3260); (3263, 3263); (3270, 3270);
    (3276, 3277); (3298, 3299); (3328, 3329); (3387, 3388); (3393, 3396); (3405, 3405);
    (3426, 3427); (3457, 3457); (3530, 3530); (3538, 3540); (3542, 3542); (3633, 3633);
    (3636, 3642); (3654, 3662); (3761, 3761); (3764, 3772); (3782, 3782); (3784, 3789);
    (3864, 3865); (3893, 3893); (3895, 3895); (3897, 3897); (3953, 3966); (3968, 3972);
    (3974, 3975); (3981, 3991); (3993, 4028); (4038, 4038); (4141, 4144); (4146, 4151);
    (4153, 4154); (4157, 4158); (4184, 4185); (4190, 4192); (4209, 4212); (4226, 4226);
    (4229, 4230); (4237, 4237); (4253, 4253); (4348, 4348); (4957, 4959); (5906, 5908);
    (5938, 5939); (5970, 5971); (6002, 6003); (6068, 6069); (6071, 6077); (6086, 6086);
    (6089, 6099); (6103, 6103); (6109, 6109); (6155, 6159); (6211, 6211); (6277, 6278);
    (6313, 6313); (6432, 6434); (6439, 6440); (6450, 6450); (6457, 6459); (6679, 6680);
    (6683, 6683); (6742, 6742); (6744, 6750); (6752, 6752); (6754, 6754); (6757, 6764);
    (6771, 6780); (6783, 6783); (6823, 6823); (6832, 6862); (6912, 6915); (6964, 6964);
    (6966, 6970); (6972, 6972); (6978, 6978); (7019, 7027); (7040, 7041); (7074, 7077);
    (7080, 7081); (7083, 7085); (7142, 7142); (7144, 7145); (7149, 7149); (7151, 7153);
    (7212, 7219); (7222, 7223); (7288, 7293); (7376, 7378); (7380, 7392); (7394, 7400);
    (7405, 7405); (7412, 7412); (7416, 7417); (7468, 7530); (7544, 7544); (7579, 7679);
    (8125, 8125); (8127, 8129); (8141, 8143); (8157, 8159); (8173, 8175); (8189, 8190);
    (8203, 8207); (8216, 8217); (8228, 8228); (8231, 8231); (8234, 8238); (8288, 8292);
    (8294, 8303); (8305, 8305); (8319, 8319); (8336, 8348); (8400, 8432); (11388, 11389);
    (11503, 11505); (11631, 11631); (11647, 11647); (11744, 11775); (11823, 11823); (12293, 12293);
    (12330, 12333); (12337, 12341); (12347, 12347); (12441, 12446); (12540, 12542); (40981, 40981);
    (42232, 42237); (42508, 42508); (42607, 42610); (42612, 42621); (42623, 42623); (42652, 42655);
    (42736, 42737); (42752, 42785); (42864, 42864); (42888, 42890); (42994, 42996); (43000, 43001);
    (43010, 43010); (43014, 43014); (43019, 43019); (43045, 43046); (43052, 43052); (43204, 43205);
    (43232, 43249); (43263, 43263); (43302, 43309); (43335, 43345); (43392, 43394); (43443, 43443);
    (43446, 43449); (43452, 43453); (43471, 43471); (43493, 43494); (43561, 43566); (43569, 43570);
    (43573, 43574); (43587, 43587); (43596, 43596); (43632, 43632); (43644, 43644); (43696, 43696);
    (43698, 43700); (43703, 43704); (43710, 43711); (43713, 43713); (43741, 43741); (43756, 43757);
    (43763, 43764); (43766, 43766); (43867, 43871); (43881, 43883); (44005, 44005); (44008, 44008);
    (44013, 44013); (64286, 64286); (64434, 64450); (65024, 65039); (65043, 65043); (65056, 65071);
    (65106, 65106); (65109, 65109); (65279, 65279); (65287, 65287); (65294, 65294); (65306, 65306);
    (65342, 65342); (65344, 65344); (65392, 65392); (65438, 65439); (65507, 65507); (65529, 65531);
    (66045, 66045); (66272, 66272); (66422, 66426); (67456, 67461); (67463, 67504); (67506, 67514);
    (68097, 68099); (68101, 68102); (68108, 68111); (68152, 68154); (68159, 68159); (68325, 68326);
    (68900, 68903); (69291, 69292); (69446, 69456); (69506, 69509); (69633, 69633); (69688, 69702);
    (69744, 69744); (69747, 69748); (69759, 69761); (69811, 69814); (69817, 69818); (69821, 69821);
    (69826, 69826); (69837, 69837); (69888, 69890); (69927, 69931); (69933, 69940); (70003, 70003);
    (70016, 70017); (70070, 70078); (70089, 70092); (70095, 70095); (70191, 70193); (70196, 70196);
    (70198, 70199); (70206, 70206); (70367, 70367); (70371, 70378); (70400, 70401); (70459, 70460);
    (70464, 70464); (70502, 70508); (70512, 70516); (70712, 70719); (70722, 70724); (70726, 70726);
    (70750, 70750); (70835, 70840); (70842, 70842); (70847, 70848); (70850, 70851); (71090, 71093);
    (71100, 71101); (71103, 71104); (71132, 71133); (71219, 71226); (71229, 71229); (71231, 71232);
    (71339, 71339); (71341, 71341); (71344, 71349); (71351, 71351); (71453, 71455); (71458, 71461);
    (71463, 71467); (71727, 71735); (71737, 71738); (71995, 71996); (71998, 71998); (72003, 72003);
    (72148, 72151); (72154, 72155); (72160, 72160); (72193, 72202); (72243, 72248); (72251, 72254);
    (72263, 72263); (72273, 72278); (72281, 72283); (72330, 72342); (72344, 72345); (72752, 72758);
    (72760, 72765); (72767, 72767); (72850, 72871); (72874, 72880); (72882, 72883); (72885, 72886);
    (73009, 73014); (73018, 73018); (73020, 73021); (73023, 73029); (73031, 73031); (73104, 73105);
    (73109, 73109); (73111, 73111); (73459, 73460); (78896, 78904); (92912, 92916); (92976, 92982);
    (92992, 92995); (94031, 94031); (94095, 94111); (94176, 94177); (94179, 94180); (110576, 110579);
    (110581, 110587); (110589, 110590); (113821, 113822); (113824, 113827); (118528, 118573); (118576, 118598);
    (119143, 119145); (119155, 119170); (119173, 119179); (119210, 119213); (119362, 119364); (121344, 121398);
    (121403, 121452); (121461, 121461); (121476, 121476); (121499, 121503); (121505, 121519); (122880, 122886);
    (122888, 122904); (122907, 122913); (122915, 122916); (122918, 122922); (123184, 123197); (123566, 123566);
    (123628, 123631); (125136, 125142); (125252, 125259); (127995, 127999); (917505, 917505); (917536, 917631);
    (917760, 917999) ]%N.

Definition case_ignorable (c : N) : bool := in_ranges case_ignorable_ranges c.

(** The cased characters among those that are not skipped. *)
Definition cased_ranges : list (N * N) :=
  [ (65, 90); (97, 122); (170, 170); (181, 181); (186, 186); (192, 214);
    (216, 246); (248, 442); (444, 447); (452, 659); (661, 687); (880, 883);
    (886, 887); (891, 893); (895, 895); (902, 902); (904, 906); (908, 908);
    (910, 929); (931, 1013); (1015, 1153); (1162, 1327); (1329, 1366); (1376, 1416);
    (4256, 4293); (4295, 4295); (4301, 4301); (4304, 4346); (4349, 4351); (5024, 5109);
    (5112, 5117); (7296, 7304); (7312, 7354); (7357, 7359); (7424, 7467); (7531, 7543);
    (7545, 7578); (7680, 7957); (7960, 7965); (7968, 8005); (8008, 8013); (8016, 8023);
    (8025, 8025); (8027, 8027); (8029, 8029); (8031, 8061); (8064, 8116); (8118, 8124);
    (8126, 8126); (8130, 8132); (8134, 8140); (8144, 8147); (8150, 8155); (8160, 8172);
    (8178, 8180); (8182, 8188); (8450, 8450); (8455, 8455); (8458, 8467); (8469, 8469);
    (8473, 8477); (8484, 8484); (8486, 8486); (8488, 8488); (8490, 8493); (8495, 8500);
    (8505, 8505); (8508, 8511); (8517, 8521); (8526, 8526); (8544, 8575); (8579, 8580);
    (9398, 9449); (11264, 11387); (11390, 11492); (11499, 11502); (11506, 11507); (11520, 11557);
    (11559, 11559); (11565, 11565); (42560, 42605); (42624, 42651); (42786, 42863); (42865, 42887);
    (42891, 42894); (42896, 42954); (42960, 42961); (42963, 42963); (42965, 42969); (42997, 42998);
    (43002, 43002); (43824, 43866); (43872, 43880); (43888, 43967); (64256, 64262); (64275, 64279);
    (65313, 65338); (65345, 65370); (66560, 66639); (66736, 66771); (66776, 66811); (66928, 66938);
    (66940, 66954); (66956, 66962); (66964, 66965); (66967, 66977); (66979, 66993); (66995, 67001);
    (67003, 67004); (68736, 68786); (68800, 68850); (71840, 71903); (93760, 93823); (119808, 119892);
    (119894, 119964); (119966, 119967); (119970, 119970); (119973, 119974); (119977, 119980); (119982, 119993);
    (119995, 119995); (119997, 120003); (120005, 120069); (120071, 120074); (120077, 120084); (120086, 120092);
    (120094, 120121); (120123, 120126); (120128, 120132); (120134, 120134); (120138, 120144); (120146, 120485);
    (120488, 120512); (120514, 120538); (120540, 120570); (120572, 120596); (120598, 120628); (120630, 120654);
    (120656, 120686); (120688, 120712); (120714, 120744); (120746, 120770); (120772, 120779); (122624, 122633);
    (122635, 122654); (125184, 125251); (127280, 127305); (127312, 127337); (127344, 127369) ]%N.

Definition cased (c : N) : bool := in_ranges cased_ranges c.

(** The characters that a lower-case character of a pattern also matches
    when case is ignored, besides those with that lower case
    ([re._casefix._EXTRA_CASES]). *)
Definition extra_cases : list (N * list N) :=
  [ (105, [305]); (115, [383]); (181, [956]);
    (305, [105]); (383, [115]); (837, [953; 8126]);
    (912, [8147]); (944, [8163]); (946, [976]);
    (949, [1013]); (952, [977]); (953, [837; 8126]);
    (954, [1008]); (956, [181]); (960, [982]);
    (961, [1009]); (962, [963]); (963, [962]);
    (966, [981]); (976, [946]); (977, [952]);
    (981, [966]); (982, [960]); (1008, [954]);
    (1009, [961]); (1013, [949]); (1074, [7296]);
    (1076, [7297]); (1086, [7298]); (1089, [7299]);
    (1090, [7300; 7301]); (1098, [7302]); (1123, [7303]);
    (7296, [1074]); (7297, [1076]); (7298, [1086]);
    (7299, [1089]); (7300, [1090; 7301]); (7301, [1090; 7300]);
    (7302, [1098]); (7303, [1123]); (7304, [42571]);
    (7777, [7835]); (7835, [7777]); (8126, [837; 953]);
    (8147, [912]); (8163, [944]); (42571, [7304]);
    (64261, [64262]); (64262, [64261]) ]%N.

Fixpoint extra_cases_of (table : list (N * list N)) (c : N) : list N :=
  match table with
  | [] => []
  | (k, others) :: table' => if (k =? c)%N then others else extra_cases_of table' c
  end.

End Unicode.

(** ** Python string primitives *)

Module PyStr.

(** The double quote character, written [`] inside the literals of this file
    and restored by [q]. The Python literals embedded below contain no
    backquote of their own. *)
Definition dquote : N := 34%N.

Definition backquote : N := 96%N.

Fixpoint q (s : str) : str :=
  match s with
  | [] => []
  | c :: s' => (if (c =? backquote)%N then dquote else c) :: q s'
  end.

Definition LF : N := 10%N.

Definition CR : N := 13%N.

(** The characters [|] and [_]. *)
Definition pipe : N := 124%N.

Definition underscore : N := 95%N.

Definition nl : str := [LF].

(** [a == b] on texts. *)
Fixpoint eqb (a b : str) : bool :=
  match a, b with
  | [], [] => true
  | x :: a', y :: b' => (x =? y)%N && eqb a' b'
  | _, _ => false
  end.

(** [c.isspace()] *)
Definition isspace (c : N) : bool := Unicode.isspace c.

(** Line boundaries of [str.splitlines]. *)
Definition is_linebreak (c : N) : bool := Unicode.is_linebreak c.

(** [\w] of the [re] module on a [str]: the alphanumeric characters and the
    underscore. *)
Definition is_word (c : N) : bool := Unicode.isalnum c || (c =? underscore)%N.

(** The first character of [s] that [str.lower] does not skip around a
    capital sigma. *)
Fixpoint first_not_ignorable (s : str) : option N :=
  match s with
  | [] => None
  | c :: s' => if Unicode.case_ignorable c then first_not_ignorable s' else Some c
  end.

(** A capital sigma is final when a cased letter precedes it and none
    follows; [before] is the text before it, last character first. *)
Definition final_sigma (before after : str) : bool :=
  match first_not_ignorable before with
  | Some c =>
      Unicode.cased c
      && match first_not_ignorable after with
         | Some c' => negb (Unicode.cased c')
         | None => true
         end
  | None => false
  end.

Definition capital_sigma : N := 931%N.

Fixpoint lower_from (before s : str) : str :=
  match s with
  | [] => []
  | c :: s' =>
      (if (c =? capital_sigma)%N
       then [if final_sigma before s' then 962%N else 963%N]
       else Unicode.lower_full c)
      ++ lower_from (c :: before) s'
  end.

(** [s.lower()] *)
Definition lower (s : str) : str := lower_from [] s.

(** [s.startswith(p)] *)
Fixpoint startswith (p s : str) : bool :=
  match p, s with
  | [], _ => true
  | a :: p', b :: s' => (a =? b)%N && startswith p' s'
  | _ :: _, [] => false
  end.

(** [sub in s] *)
Fixpoint contains (sub s : str) : bool :=
  startswith sub s ||
  match s with
  | [] => false
  | _ :: s' => contains sub s'
  end.

Fixpoint drop (n : nat) (s : str) : str :=
  match n, s with
  | O, _ => s
  | S n', _ :: s' => drop n' s'
  | S _, [] => []
  end.

Fixpoint take (n : nat) (s : str) : str :=
  match n, s with
  | S n', c :: s' => c :: take n' s'
  | _, _ => []
  end.

Fixpoint rev_onto (s acc : str) : str :=
  match s with
  | [] => acc
  | c :: s' => rev_onto s' (c :: acc)
  end.

Definition rev (s : str) : str := rev_onto s [].

(** [s.lstrip(chars)], the characters given as a predicate. *)
Fixpoint lstrip_by (p : N -> bool) (s : str) : str :=
  match s with
  | [] => []
  | c :: s' => if p c then lstrip_by p s' else s
  end.

Definition strip_by (p : N -> bool) (s : str) : str :=
  rev (lstrip_by p (rev (lstrip_by p s))).

(** [s.strip()] *)
Definition strip (s : str) : str := strip_by isspace s.

(** [s.strip(c)] for one character [c]. *)
Definition strip_char (c : N) (s : str) : str :=
  strip_by (N.eqb c) s.

(** [s.split(c)] for a separator of one character: every occurrence splits,
    empty fields are kept. [cur] is the field read so far, reversed. *)
Fixpoint split_aux (c : N) (s cur : str) : list str :=
  match s with
  | [] => [rev cur]
  | a :: s' =>
      if (a =? c)%N then rev cur :: split_aux c s' []
      else split_aux c s' (a :: cur)
  end.

Definition split (c : N) (s : str) : list str :=
  split_aux c s [].

(** [s.split("\n\n")]: the text is scanned from the left and every
    non-overlapping pair of line feeds splits. [skip] says that the current
    character is the second one of a pair already used. *)
Fixpoint split_blank_aux (s cur : str) (skip : bool) : list str :=
  match s with
  | [] => [rev cur]
  | a :: s' =>
      if skip then split_blank_aux s' cur false
      else if (a =? LF)%N && startswith nl s'
           then rev cur :: split_blank_aux s' [] true
           else split_blank_aux s' (a :: cur) false
  end.

Definition split_blank (s : str) : list str :=
  split_blank_aux s [] false.

(** [s.splitlines()]: a CR LF pair is one boundary and no empty line is
    produced after a final boundary. [after_cr] says that the previous
    character was a CR that ended a line. *)
Fixpoint splitlines_aux (s cur : str) (after_cr : bool) : list str :=
  match s with
  | [] =>
      match cur with [] => [] | _ => [rev cur] end
  | a :: s' =>
      if after_cr && (a =? LF)%N then splitlines_aux s' [] false
      else if is_linebreak a
           then rev cur :: splitlines_aux s' [] (a =? CR)%N
           else splitlines_aux s' (a :: cur) false
  end.

Definition splitlines (s : str) : list str :=
  splitlines_aux s [] false.

(** [s.replace("\n", by_)] *)
Fixpoint replace_lf (by_ s : str) : str :=
  match s with
  | [] => []
  | a :: s' =>
      if (a =? LF)%N then by_ ++ replace_lf by_ s'
      else a :: replace_lf by_ s'
  end.

(** Truth value of a [str]. *)
Definition truthy (s : str) : bool :=
  match s with [] => false | _ => true end.

(** [len(s)] *)
Definition len (s : str) : nat := length s.

End PyStr.


(** ** The fragment of [re] used by the aggregator

    Both patterns of the source are sequences of literals (matched without
    regard to case, [re.IGNORECASE]), of greedy repetitions of a character
    class and of one optional character. A repetition first takes the longest
    run and gives characters back one at a time when the rest of the pattern
    fails, as the backtracking matcher of [re] does. The classes of the two
    patterns hold no cased character, so [re.IGNORECASE] leaves them as they
    are; the literals are ASCII letters and [|]. *)

Module Re.

Inductive atom : Type :=
  | Lit (s : str)                       (* literal text, case-insensitive *)
  | Opt (c : N)                         (* c? *)
  | Star (cls : N -> bool)              (* [cls]* *)
  | Plus (cls : N -> bool)              (* [cls]+ *)
  | Group (cls : N -> bool).            (* ([cls]+), a capturing group *)

Definition pattern := list atom.

(** Length of the longest prefix of [s] made of characters of [cls]. *)
Fixpoint run (cls : N -> bool) (s : str) : nat :=
  match s with
  | c :: s' => if cls c then S (run cls s') else O
  | [] => O
  end.

Definition ascii_letter (c : N) : bool :=
  (((65 <=? c) && (c <=? 90)) || ((97 <=? c) && (c <=? 122)))%N.

(** The character [a] of a pattern against the character [b] of the text,
    case ignored. A letter matches the characters whose lower case is its
    own, and those the table of extra cases adds (the long s for [s]); a
    character without case matches itself. *)
Definition lit_match (a b : N) : bool :=
  if ascii_letter a then
    let lo := Unicode.tolower a in
    (Unicode.tolower b =? lo)%N
    || existsb (N.eqb (Unicode.tolower b)) (Unicode.extra_cases_of Unicode.extra_cases lo)
  else (a =? b)%N.

(** Case-insensitive literal: the rest of [s] after [l], if [s] starts with
    it. *)
Fixpoint eat_lit (l s : str) : option str :=
  match l, s with
  | [], _ => Some s
  | a :: l', b :: s' => if lit_match a b then eat_lit l' s' else None
  | _ :: _, [] => None
  end.

(** Try the continuation after [k] characters, then after [k-1], ... down to
    [lo] characters. *)
Fixpoint give_back {A} (cont : nat -> option A) (lo k : nat) : option A :=
  match cont k with
  | Some r => Some r
  | None =>
      match k with
      | O => None
      | S k' => if lo <=? k' then give_back cont lo k' else None
      end
  end.

Definition repeat_from {A} (cls : N -> bool) (lo : nat) (s : str)
    (cont : nat -> option A) : option A :=
  let n := run cls s in
  if lo <=? n then give_back cont lo n else None.

(** Match [p] at the start of [s]; the result is the list of captured
    groups. *)
Fixpoint match_here (p : pattern) (s : str) : option (list str) :=
  match p with
  | [] => Some []
  | Lit l :: p' =>
      match eat_lit l s with
      | Some rest => match_here p' rest
      | None => None
      end
  | Opt c :: p' =>
      match s with
      | b :: s' =>
          if (b =? c)%N then
            match match_here p' s' with
            | Some r => Some r
            | None => match_here p' s
            end
          else match_here p' s
      | [] => match_here p' s
      end
  | Star cls :: p' =>
      repeat_from cls 0 s (fun k => match_here p' (PyStr.drop k s))
  | Plus cls :: p' =>
      repeat_from cls 1 s (fun k => match_here p' (PyStr.drop k s))
  | Group cls :: p' =>
      repeat_from cls 1 s
        (fun k =>
           match match_here p' (PyStr.drop k s) with
           | Some gs => Some (PyStr.take k s :: gs)
           | None => None
           end)
  end.

(** [re.match(p, s)] *)
Definition re_match (p : pattern) (s : str) : option (list str) :=
  match_here p s.

(** [re.search(p, s)]: the leftmost position at which [p] matches. *)
Fixpoint re_search (p : pattern) (s : str) : option (list str) :=
  match match_here p s with
  | Some r => Some r
  | None =>
      match s with
      | _ :: s' => re_search p s'
      | [] => None
      end
  end.

Definition in_chars (cs : str) (c : N) : bool :=
  PyStr.contains [c] cs.

(** [[:\s]] *)
Definition colon_space (c : N) : bool := in_chars ":" c || PyStr.isspace c.

(** [[,;\s]] *)
Definition sep_space (c : N) : bool := in_chars ",;" c || PyStr.isspace c.

(** [[\w\- ]] *)
Definition word_dash_blank (c : N) : bool := PyStr.is_word c || in_chars "- " c.

(** [[\w\-\.]] *)
Definition word_dash_dot (c : N) : bool := PyStr.is_word c || in_chars "-." c.

(** [keyword[:\s]+([\w\- ]+)[,;\s]+performance[:\s]+([\w\-\.]+)[,;\s]+sov[:\s]+([\w\-\.]+)] *)
Definition row_pattern : pattern :=
  [ Lit "keyword"; Plus colon_space; Group word_dash_blank; Plus sep_space;
    Lit "performance"; Plus colon_space; Group word_dash_dot; Plus sep_space;
    Lit "sov"; Plus colon_space; Group word_dash_dot ].

(** [\|?\s*keyword\s*\|\s*performance\s*\|\s*sov\s*\|?] *)
Definition header_pattern : pattern :=
  [ Opt PyStr.pipe; Star PyStr.isspace; Lit "keyword"; Star PyStr.isspace; Lit "|";
    Star PyStr.isspace; Lit "performance"; Star PyStr.isspace; Lit "|";
    Star PyStr.isspace; Lit "sov"; Star PyStr.isspace; Opt PyStr.pipe ].

End Re.


(** ** Data model *)

(** A gradio component is used through its identity only: it is a key of
    [component_to_id] and of the dictionaries the handlers yield. *)
Abbreviation Component := positive (only parsing).

(** An asyncio task is its position in the list of tasks of the event loop. *)
Abbreviation Task := nat (only parsing).

(** One entry of [vayner_keyword_table_rows]:
    [{"keyword": ..., "performance": ..., "sov": ...}]. *)
Record KeywordRow : Type := mkRow {
  keyword : str;
  performance : str;
  sov : str
}.

(** The values [history.final_result()] can have as far as the code
    distinguishes them: [None], a [str], a [list], a [dict] (its entries in
    insertion order, with str keys and values) and any other object, of
    which only the truth value matters. *)
#[warnings="-register-all"] Inductive py_value : Type :=
  | PyNone
  | PyStr (s : str)
  | PyList (items : list py_value)
  | PyDict (entries : list (str * str))
  | PyOther (truth : bool).

(** [bool(v)] *)
Definition py_truthy (v : py_value) : bool :=
  match v with
  | PyNone => false
  | PyStr s => PyStr.truthy s
  | PyList items => match items with [] => false | _ => true end
  | PyDict entries => match entries with [] => false | _ => true end
  | PyOther truth => truth
  end.

(** [d.get(k)] on the entries of a [dict]. *)
Fixpoint dict_get (k : str) (entries : list (str * str)) : option str :=
  match entries with
  | [] => None
  | (k', v) :: rest => if PyStr.eqb k' k then Some v else dict_get k rest
  end.

(** One message of the chat transcript: [{"role": ..., "content": ...}]. *)
Record message : Type := mkMessage {
  role : str;
  content : str
}.

(** The value carried by a [gr.update]: markup or the chat transcript. *)
Inductive ui_value : Type :=
  | UText (s : str)
  | UChat (msgs : list message).

(** [gr.update(value=..., visible=..., interactive=...)]; an argument that is
    not given is [None]. *)
Record gr_update : Type := mkUpdate {
  u_value : option ui_value;
  u_visible : option bool;
  u_interactive : option bool
}.

(** A dictionary from components to updates, as the handlers yield them and
    as the step callback queues them. A key is what [get_component_by_id]
    returned, so it can be [None]. *)
Abbreviation ui_dict := (gmap (option positive) gr_update) (only parsing).

(** [d.update(other)]: the entries of [other] replace those of [d]. *)
Definition dict_update (d other : ui_dict) : ui_dict := other ∪ d.

(** The parts of the browser agent the handlers touch. *)
Record Agent : Type := mkAgent {
  agent_has_stop : bool;          (* hasattr(agent, 'stop') *)
  agent_stopped : bool;           (* agent.state.stopped *)
  agent_paused : bool             (* agent.state.paused *)
}.

(** State of an asyncio task: running, running with a cancellation requested
    by [task.cancel()] that it has not acted on yet, ended with a result or
    an exception, ended cancelled. [task.done()] holds in the last two. *)
Inductive task_state : Type :=
  | TaskPending
  | TaskCancelling
  | TaskFinished
  | TaskCancelled.

Definition task_done (t : task_state) : bool :=
  match t with
  | TaskPending | TaskCancelling => false
  | TaskFinished | TaskCancelled => true
  end.

(** [task.cancel()]: a task that is not done is asked to cancel, a task that
    is done is left as it is. *)
Definition task_cancel (t : task_state) : task_state :=
  match t with
  | TaskPending | TaskCancelling => TaskCancelling
  | TaskFinished => TaskFinished
  | TaskCancelled => TaskCancelled
  end.

(** [WebuiManager] after [__init__] and [init_vayner_client_research]: every
    attribute the research tab uses exists. *)
Record WebuiManager : Type := mkManager {
  id_to_component : gmap str Component;
  component_to_id : gmap Component str;
  vayner_chat_history : list message;
  vayner_pdf_report : option str;
  vayner_agent : option Agent;
  vayner_current_task : option Task;
  vayner_screenshots : list str;
  vayner_business_info : list str;
  vayner_keyword_data : list str;
  vayner_ranking_data : list str;
  vayner_current_business : str;
  vayner_keyword_table_rows : list KeywordRow;
  update_queue : list ui_dict
}.

Definition set_id_to_component (v : gmap str Component) (m : WebuiManager) : WebuiManager :=
  mkManager v (component_to_id m) (vayner_chat_history m) (vayner_pdf_report m)
    (vayner_agent m) (vayner_current_task m) (vayner_screenshots m)
    (vayner_business_info m) (vayner_keyword_data m) (vayner_ranking_data m)
    (vayner_current_business m) (vayner_keyword_table_rows m) (update_queue m).

Definition set_component_to_id (v : gmap Component str) (m : WebuiManager) : WebuiManager :=
  mkManager (id_to_component m) v (vayner_chat_history m) (vayner_pdf_report m)
    (vayner_agent m) (vayner_current_task m) (vayner_screenshots m)
    (vayner_business_info m) (vayner_keyword_data m) (vayner_ranking_data m)
    (vayner_current_business m) (vayner_keyword_table_rows m) (update_queue m).

Definition set_chat_history (v : list message) (m : WebuiManager) : WebuiManager :=
  mkManager (id_to_component m) (component_to_id m) v (vayner_pdf_report m)
    (vayner_agent m) (vayner_current_task m) (vayner_screenshots m)
    (vayner_business_info m) (vayner_keyword_data m) (vayner_ranking_data m)
    (vayner_current_business m) (vayner_keyword_table_rows m) (update_queue m).

Definition set_pdf_report (v : option str) (m : WebuiManager) : WebuiManager :=
  mkManager (id_to_component m) (component_to_id m) (vayner_chat_history m) v
    (vayner_agent m) (vayner_current_task m) (vayner_screenshots m)
    (vayner_business_info m) (vayner_keyword_data m) (vayner_ranking_data m)
    (vayner_current_business m) (vayner_keyword_table_rows m) (update_queue m).

Definition set_agent (v : option Agent) (m : WebuiManager) : WebuiManager :=
  mkManager (id_to_component m) (component_to_id m) (vayner_chat_history m)
    (vayner_pdf_report m) v (vayner_current_task m) (vayner_screenshots m)
    (vayner_business_info m) (vayner_keyword_data m) (vayner_ranking_data m)
    (vayner_current_business m) (vayner_keyword_table_rows m) (update_queue m).

Definition set_current_task (v : option Task) (m : WebuiManager) : WebuiManager :=
  mkManager (id_to_component m) (component_to_id m) (vayner_chat_history m)
    (vayner_pdf_report m) (vayner_agent m) v (vayner_screenshots m)
    (vayner_business_info m) (vayner_keyword_data m) (vayner_ranking_data m)
    (vayner_current_business m) (vayner_keyword_table_rows m) (update_queue m).

Definition set_screenshots (v : list str) (m : WebuiManager) : WebuiManager :=
  mkManager (id_to_component m) (component_to_id m) (vayner_chat_history m)
    (vayner_pdf_report m) (vayner_agent m) (vayner_current_task m) v
    (vayner_business_info m) (vayner_keyword_data m) (vayner_ranking_data m)
    (vayner_current_business m) (vayner_keyword_table_rows m) (update_queue m).

Definition set_business_info (v : list str) (m : WebuiManager) : WebuiManager :=
  mkManager (id_to_component m) (component_to_id m) (vayner_chat_history m)
    (vayner_pdf_report m) (vayner_agent m) (vayner_current_task m)
    (vayner_screenshots m) v (vayner_keyword_data m) (vayner_ranking_data m)
    (vayner_current_business m) (vayner_keyword_table_rows m) (update_queue m).

Definition set_keyword_data (v : list str) (m : WebuiManager) : WebuiManager :=
  mkManager (id_to_component m) (component_to_id m) (vayner_chat_history m)
    (vayner_pdf_report m) (vayner_agent m) (vayner_current_task m)
    (vayner_screenshots m) (vayner_business_info m) v (vayner_ranking_data m)
    (vayner_current_business m) (vayner_keyword_table_rows m) (update_queue m).

Definition set_ranking_data (v : list str) (m : WebuiManager) : WebuiManager :=
  mkManager (id_to_component m) (component_to_id m) (vayner_chat_history m)
    (vayner_pdf_report m) (vayner_agent m) (vayner_current_task m)
    (vayner_screenshots m) (vayner_business_info m) (vayner_keyword_data m) v
    (vayner_current_business m) (vayner_keyword_table_rows m) (update_queue m).

Definition set_current_business (v : str) (m : WebuiManager) : WebuiManager :=
  mkManager (id_to_component m) (component_to_id m) (vayner_chat_history m)
    (vayner_pdf_report m) (vayner_agent m) (vayner_current_task m)
    (vayner_screenshots m) (vayner_business_info m) (vayner_keyword_data m)
    (vayner_ranking_data m) v (vayner_keyword_table_rows m) (update_queue m).

Definition set_keyword_table_rows (v : list KeywordRow) (m : WebuiManager) : WebuiManager :=
  mkManager (id_to_component m) (component_to_id m) (vayner_chat_history m)
    (vayner_pdf_report m) (vayner_agent m) (vayner_current_task m)
    (vayner_screenshots m) (vayner_business_info m) (vayner_keyword_data m)
    (vayner_ranking_data m) (vayner_current_business m) v (update_queue m).

Definition set_update_queue (v : list ui_dict) (m : WebuiManager) : WebuiManager :=
  mkManager (id_to_component m) (component_to_id m) (vayner_chat_history m)
    (vayner_pdf_report m) (vayner_agent m) (vayner_current_task m)
    (vayner_screenshots m) (vayner_business_info m) (vayner_keyword_data m)
    (vayner_ranking_data m) (vayner_current_business m)
    (vayner_keyword_table_rows m) v.

(** [WebuiManager.__init__] followed by [init_vayner_client_research]. *)
Definition new_manager : WebuiManager :=
  mkManager ∅ ∅ [] None None None [] [] [] [] "Unknown Business" [] [].

(** ** Component registry ([webui_manager.py]) *)

(** [f"{tab_name}.{comp_name}"] *)
Definition compose_id (tab_name comp_name : str) : str :=
  tab_name +:+ "." +:+ comp_name.

(** One turn of the loop of [add_components]. *)
Definition add_component (tab_name : str) (m : WebuiManager)
    (entry : str * Component) : WebuiManager :=
  let comp_id := compose_id tab_name (fst entry) in
  let m1 := set_id_to_component (<[comp_id := snd entry]> (id_to_component m)) m in
  set_component_to_id (<[snd entry := comp_id]> (component_to_id m1)) m1.

(** [add_components(tab_name, components_dict)]; the dictionary is the list of
    its items in iteration order. The method has no [raise]. *)
Definition add_components (tab_name : str)
    (components_dict : list (str * Component)) (m : WebuiManager) : WebuiManager :=
  fold_left (add_component tab_name) components_dict m.

(** [get_component_by_id(comp_id)]: [dict.get], [None] when absent. *)
Definition get_component_by_id (m : WebuiManager) (comp_id : str) : option Component :=
  id_to_component m !! comp_id.

Inductive exn : Type :=
  | KeyError
  | NameError (name : string)
  | ValueError
  | AttributeError
  | CancelledError
  | TimeoutError
  | OtherException.

(** [get_id_by_component(comp)]: subscription, [KeyError] when absent. *)
Definition get_id_by_component (m : WebuiManager) (comp : Component) : exn + str :=
  match component_to_id m !! comp with
  | Some comp_id => inr comp_id
  | None => inl KeyError
  end.

(** A sequence of calls of [add_components], first call first. *)
Definition register_all (calls : list (str * list (str * Component)))
    (m : WebuiManager) : WebuiManager :=
  fold_left (fun m call => add_components (fst call) (snd call) m) calls m.

(** The composed ids and the components a sequence of calls registers, in
    order. *)
Definition registered_ids (calls : list (str * list (str * Component))) : list str :=
  concat (map (fun call => map (fun e => compose_id (fst call) (fst e)) (snd call)) calls).

Definition registered_components (calls : list (str * list (str * Component))) : list Component :=
  concat (map (fun call => map snd (snd call)) calls).

(** ** Live report renderer ([generate_live_report])

    The markup literals of the function. A double quote of the Python source
    is written [`] here and restored by [PyStr.q]. *)

Module Markup.

(** Cover page, up to the business name (line 312). *)
Definition cover_page_open : str :=
  PyStr.q "
    <div style=`width:100%; min-height:400px; background:#000; color:#fff; display:flex; flex-direction:column; align-items:center; justify-content:center; padding:60px 0 40px 0;`>
        <div style=`width:70%; max-width:500px; margin-bottom:30px;`>
            <div style=`text-align:center; margin-bottom:20px;`>
                <svg width=`120` height=`80` viewBox=`0 0 120 80` fill=`none` xmlns=`http://www.w3.org/2000/svg`>
                    <path d=`M60 15C70 15 80 25 90 30C100 35 110 30 115 25C110 40 100 50 80 50C60 50 40 40 30 30C40 35 50 15 60 15Z` fill=`white`/>
                    <path d=`M70 15C65 20 60 18 55 15` stroke=`white` stroke-width=`2`/>
                    <path d=`M75 12C70 17 65 15 60 12` stroke=`white` stroke-width=`2`/>
                </svg>
            </div>
            <div style=`font-size:2.7rem; font-weight:600; letter-spacing:2px; text-align:center; line-height:1.1; text-transform:uppercase; font-family: 'Montserrat', Arial, sans-serif;`>
                ".

(** Cover page, after the business name. *)
Definition cover_page_close : str :=
  PyStr.q "
            </div>
            <div style=`font-size:1.2rem; text-align:center; letter-spacing:1px; margin-top:5px; text-transform:uppercase; font-family: 'Montserrat', Arial, sans-serif;`>
               
            </div>
        </div>
        
        <div style=`font-size:2.5rem; font-weight:600; margin: 30px 0; text-align:center;`>X</div>
        
        <div style=`width:70%; max-width:500px;`>
            <div style=`font-size:2.1rem; font-weight:700; letter-spacing:2px; text-align:center; text-transform:uppercase; font-family: 'Montserrat', Arial, sans-serif;`>
                <div style=`display:inline-block; margin-right:10px; vertical-align:middle;`>‚óÜ</div> VAYNERCOMMERCE
            </div>
        </div>
    </div>
    ".

(** Second page, up to the business name (line 340). *)
Definition second_page_open : str :=
  PyStr.q "
    <div style=`width:100%; min-height:400px; background:#fff; color:#222; display:flex; flex-direction:row; align-items:stretch; padding:0;`>
        <div style=`flex:1; display:flex; flex-direction:column; align-items:center; justify-content:center; padding:40px 20px; border-right:1px solid #eee;`>
            <div style=`width:240px; margin-bottom:20px;`>
                <svg viewBox=`0 0 240 140` width=`240` height=`140` xmlns=`http://www.w3.org/2000/svg`>
                    <path d=`M120 30C140 30 160 50 180 60C200 70 220 60 230 50C220 80 200 100 160 100C120 100 80 80 60 60C80 70 100 30 120 30Z` fill=`#4A8FBA`/>
                    <path d=`M140 30C130 40 120 36 110 30` stroke=`#4A8FBA` stroke-width=`2`/>
                    <path d=`M150 24C140 34 130 30 120 24` stroke=`#4A8FBA` stroke-width=`2`/>
                    <ellipse cx=`140` cy=`70` rx=`100` ry=`15` fill=`#E3B151` opacity=`0.3`/>
                </svg>
            </div>
            <div style=`font-size:2.2rem; font-weight:600; color:#4A8FBA; margin-bottom:10px; font-family: 'Montserrat', Arial, sans-serif; text-transform:uppercase; letter-spacing:1px; text-align:center; line-height:1.1;`>
                ".

(** Second page, after the business name. *)
Definition second_page_close : str :=
  PyStr.q "<br>
                <span style=`font-size:1.1rem; color:#666; text-transform:uppercase; letter-spacing:1px;`>BEHAVIORAL HEALTH</span>
            </div>
            <div style=`font-size:1.1rem; color:#666; margin:20px 0; text-align:center;`>SEO Services</div>
            <div style=`font-size:1rem; color:#444; text-align:center;`>Weeks of <span style=`font-weight:600;`>04/07/25 - 04/21/25</span></div>
            <div style=`margin-top:60px; font-size:0.9rem; color:#bbb; font-family: 'Montserrat', Arial, sans-serif;`>
                <span style=`display:inline-block; margin-right:5px; vertical-align:middle;`>‚óÜ</span> VAYNERCOMMERCE
            </div>
        </div>
        <div style=`flex:1; min-height:400px; background-image:url('https://images.unsplash.com/photo-1577563908411-5077b6dc7624?auto=format&fit=crop&w=700&q=80'); background-size:cover; background-position:center;`>
        </div>
    </div>
    ".

(** Third page: title and opening of the results block (line 366). *)
Definition third_page_open : str :=
  PyStr.q "
    <div style=`width:100%; min-height:600px; background:#000; color:#fff; display:flex; flex-direction:column; align-items:center; justify-content:flex-start; padding:40px 0 40px 0; border-bottom:2px solid #222;`>
        <div style=`font-size:1.8rem; font-weight:600; color:#fff; margin-bottom:10px; font-family: 'Montserrat', Arial, sans-serif;`>Final Research Results</div>
        <div style=`width:90%; max-width:900px; margin-bottom:40px;`>
    ".

(** Notice shown while there is no final result (line 460). *)
Definition result_placeholder : str :=
  PyStr.q "
        <div style=`width:90%; background-color:#111; color:#fff; padding:20px; border-radius:4px; text-align:center; margin:20px 0;`>
            <p style=`color:#bbb; font-style:italic;`>Results will appear here when the task is completed.</p>
        </div>
        ".

(** Title and head of the keyword table (line 468). *)
Definition keyword_table_open : str :=
  PyStr.q "
        <div style=`width:90%; max-width:800px; margin-top:30px;`>
            <div style=`font-size:1.4rem; font-weight:600; color:#fff; margin-bottom:15px; font-family: 'Montserrat', Arial, sans-serif;`>Keyword Performance Summary</div>
            <table style=`width:100%; border-collapse:collapse; background:#000; color:#fff;`>
                <thead>
                    <tr style=`background-color:#222; color:#fff;`>
                        <th style=`padding:10px; border:1px solid #333; text-align:left;`>Keyword</th>
                        <th style=`padding:10px; border:1px solid #333; text-align:left;`>Performance</th>
                        <th style=`padding:10px; border:1px solid #333; text-align:left;`>SOV</th>
                    </tr>
                </thead>
                <tbody>
        ".

(** One row of the keyword table, up to the keyword (line 483). *)
Definition keyword_row_open : str :=
  PyStr.q "<tr style=`background-color:#111; color:#fff;`>
                <td style=`padding:10px; border:1px solid #333;`>".

(** Between two cells of a row of the keyword table. *)
Definition keyword_row_mid : str :=
  PyStr.q "</td>
                <td style=`padding:10px; border:1px solid #333;`>".

(** End of a row of the keyword table. *)
Definition keyword_row_close : str :=
  "</td>
            </tr>".

(** End of the keyword table (line 489). *)
Definition keyword_table_close : str :=
  "
                </tbody>
            </table>
        </div>
        ".

End Markup.

(** [next(i for i, x in enumerate(l) if p(x))], [None] when there is none. *)
Fixpoint find_index {A} (p : A -> bool) (l : list A) : option nat :=
  match l with
  | [] => None
  | x :: l' => if p x then Some 0 else option_map S (find_index p l')
  end.

(** [list(enumerate(l))] *)
Definition enumerate {A} (l : list A) : list (nat * A) :=
  combine (seq 0 (length l)) l.

Section Report.

(** [str(v)] of a value that is not a [str]; the renderer only pastes it into
    the markup. *)
Variable py_repr : py_value -> str.

(** [f"{v}"] *)
Definition py_format (v : py_value) : str :=
  match v with
  | PyStr s => s
  | _ => py_repr v
  end.

(** Lines 376-379: does the result text look like a table? *)
Definition looks_like_table (final_result : str) : bool :=
  let lines := PyStr.split PyStr.LF (PyStr.strip final_result) in
  existsb (fun line => PyStr.contains "|" line) lines
  || existsb (fun line => PyStr.contains "keyword" (PyStr.lower line)
                          && PyStr.contains "performance" (PyStr.lower line)) lines.

(** Line 392: the test that finds the header row. *)
Definition is_header_row (line : str) : bool :=
  (PyStr.contains "keyword" (PyStr.lower line) && PyStr.contains "performance" (PyStr.lower line))
  || (PyStr.contains "keyword" (PyStr.lower line) && PyStr.contains "sov" (PyStr.lower line)).

(** [[cell.strip() for cell in row.strip('|').split('|')]] *)
Definition row_cells (row : str) : list str :=
  map PyStr.strip (PyStr.split PyStr.pipe (PyStr.strip_char PyStr.pipe row)).

(** Lines 384-427. Nothing in the [try] block can raise on a [str], so the
    [except] branch of line 428 is never taken. *)
Definition render_table (html final_result : str) : str :=
  let html := html +:+ PyStr.q "<div style=`width:100%; overflow-x:auto; margin:20px 0; border-radius:4px; box-shadow:0 2px 10px rgba(0,0,0,0.1);`>" in
  let lines := map PyStr.strip
                 (List.filter (fun line => PyStr.truthy (PyStr.strip line))
                    (PyStr.split PyStr.LF final_result)) in
  let html :=
    match find_index is_header_row lines with
    | Some header_row_index =>
        let html := html +:+ PyStr.q "<table style=`width:100%; border-collapse:collapse; font-family:Arial, sans-serif; background:#000; color:#fff;`>" in
        let header := nth header_row_index lines "" in
        let header_cells := row_cells header in
        let html := html +:+ PyStr.q "<thead><tr style=`background-color:#222; color:#fff;`>" in
        let html :=
          fold_left
            (fun html cell =>
               html +:+ PyStr.q "<th style=`padding:12px 15px; text-align:left; border-bottom:2px solid #444;`>"
                    +:+ cell +:+ "</th>")
            header_cells html in
        let html := html +:+ "</tr></thead><tbody>" in
        let data_start :=
          if (header_row_index + 1 <? length lines)
             && PyStr.contains "---" (nth (header_row_index + 1) lines "")
          then header_row_index + 2 else header_row_index + 1 in
        let html :=
          fold_left
            (fun html (ir : nat * str) =>
               let i := fst ir in
               let row := snd ir in
               if PyStr.contains "|" row then
                 let cells := row_cells row in
                 let bg_color := if Nat.even i then "#111" else "#181818" in
                 let html := html +:+ PyStr.q "<tr style=`background-color:" +:+ bg_color
                                  +:+ PyStr.q "; color:#fff;`>" in
                 let html :=
                   fold_left
                     (fun html cell =>
                        html +:+ PyStr.q "<td style=`padding:10px 15px; border-bottom:1px solid #333;`>"
                             +:+ cell +:+ "</td>")
                     cells html in
                 html +:+ "</tr>"
               else html)
            (skipn data_start (enumerate lines)) html in
        html +:+ "</tbody></table>"
    | None =>
        html +:+ PyStr.q "<pre style=`width:100%; background-color:#111; color:#fff; padding:15px; border-radius:4px; white-space:pre-wrap; overflow-x:auto;`>"
             +:+ final_result +:+ "</pre>"
    end in
  html +:+ "</div>".

(** Lines 433-458. *)
Definition render_text (html : str) (final_result : py_value) : str :=
  let html := html +:+ PyStr.q "<div style=`width:100%; background-color:#111; color:#fff; padding:20px; border-radius:4px; border-left:4px solid #4A8FBA; margin:20px 0;`>" in
  let html :=
    match final_result with
    | PyStr s =>
        let paragraphs := PyStr.split_blank s in
        fold_left
          (fun html paragraph =>
             if PyStr.truthy (PyStr.strip paragraph) then
               let paragraph_html := PyStr.replace_lf "<br>" paragraph in
               html +:+ PyStr.q "<p style=`margin-bottom:15px; line-height:1.5;`>"
                    +:+ paragraph_html +:+ "</p>"
             else html)
          paragraphs html
    | PyList items =>
        let html := html +:+ PyStr.q "<ul style=`margin-left:20px; line-height:1.5;`>" in
        let html :=
          fold_left
            (fun html item =>
               html +:+ PyStr.q "<li style=`margin-bottom:8px;`>" +:+ py_format item +:+ "</li>")
            items html in
        html +:+ "</ul>"
    | PyDict entries =>
        let html := html +:+ PyStr.q "<div style=`line-height:1.5;`>" in
        let html :=
          fold_left
            (fun html (kv : str * str) =>
               html +:+ PyStr.q "<div style=`margin-bottom:10px;`><strong>" +:+ fst kv
                    +:+ ":</strong> " +:+ snd kv +:+ "</div>")
            entries html in
        html +:+ "</div>"
    | _ =>
        html +:+ PyStr.q "<p style=`line-height:1.5;`>" +:+ py_repr final_result +:+ "</p>"
    end in
  html +:+ "</div>".

(** Lines 372-464: the results block. *)
Definition render_final_result (html : str) (final_result : py_value) : str :=
  if py_truthy final_result then
    let is_table :=
      match final_result with
      | PyStr s => looks_like_table s
      | _ => false
      end in
    match is_table, final_result with
    | true, PyStr s => render_table html s
    | _, _ => render_text html final_result
    end
  else html +:+ Markup.result_placeholder.

(** Lines 482-487: one turn of the loop over the keyword rows. *)
Definition render_keyword_row (html : str) (row : KeywordRow) : str :=
  html +:+ Markup.keyword_row_open +:+ keyword row
       +:+ Markup.keyword_row_mid +:+ performance row
       +:+ Markup.keyword_row_mid +:+ sov row
       +:+ Markup.keyword_row_close.

(** Lines 466-493: the keyword table, present when there is a row. *)
Definition render_keyword_table (html : str) (keyword_table_rows : list KeywordRow) : str :=
  match keyword_table_rows with
  | [] => html
  | _ =>
      let html := html +:+ Markup.keyword_table_open in
      let html := fold_left render_keyword_row keyword_table_rows html in
      html +:+ Markup.keyword_table_close
  end.

(** [generate_live_report(business_name, business_info, keyword_data,
    ranking_data, screenshots, keyword_table_rows=None, final_result=None)] *)
Definition generate_live_report (business_name : str)
    (business_info keyword_data ranking_data screenshots : list str)
    (keyword_table_rows : option (list KeywordRow))
    (final_result : py_value) : str :=
  let keyword_table_rows :=
    match keyword_table_rows with
    | None => []
    | Some rows => rows
    end in
  let html := Markup.cover_page_open +:+ business_name +:+ Markup.cover_page_close in
  let html := html +:+ Markup.second_page_open +:+ business_name +:+ Markup.second_page_close in
  let html := html +:+ Markup.third_page_open in
  let html := render_final_result html final_result in
  let html := render_keyword_table html keyword_table_rows in
  html +:+ "</div></div>".

End Report.

(** ** Structured fact aggregator ([step_callback], [done_callback]) *)

(** One action of a step, as far as the callback reads it: its [thought] and
    its [result] when that is a [str]. *)
Record action : Type := mkAction {
  a_thought : option str;
  a_result : option str
}.

(** The browser state given to the step callback. *)
Record browser_state : Type := mkBrowserState {
  st_screenshot : option str;
  st_url : option str;
  st_text_content : option str
}.

(** The [history] object given to the completion callback.
    [h_duration_text] is [f"{history.total_duration_seconds():.2f}"] and
    [h_errors_text] is [f"{errors}"]. *)
Record History : Type := mkHistory {
  h_final_result : py_value;
  h_errors : list (option str);
  h_duration_text : str;
  h_errors_text : str
}.

(** [if x not in l: l.append(x)] *)
Definition append_new (x : str) (l : list str) : list str :=
  if existsb (PyStr.eqb x) l then l else l ++ [x].

(** [any(x in text for x in words)] *)
Definition any_in (words : list str) (text : str) : bool :=
  existsb (fun x => PyStr.contains x text) words.

(** Lines 679-684, 845-850, 858-863 and 871-876: a row is appended unless a
    row with the same keyword, compared in lower case, is already there. *)
Definition add_keyword_row (rows : list KeywordRow) (kw perf sv : str) : list KeywordRow :=
  if existsb (fun row => PyStr.eqb (PyStr.lower (keyword row)) (PyStr.lower kw)) rows
  then rows
  else rows ++ [mkRow kw perf sv].

(** Lines 673-684 and 853-863: the row pattern is searched in one text. *)
Definition extract_row (rows : list KeywordRow) (text : str) : list KeywordRow :=
  match Re.re_search Re.row_pattern text with
  | Some [g1; g2; g3] =>
      add_keyword_row rows (PyStr.strip g1) (PyStr.strip g2) (PyStr.strip g3)
  | _ => rows
  end.

(** Lines 669-684: both fields of one action. *)
Definition extract_rows_of_action (rows : list KeywordRow) (a : action) : list KeywordRow :=
  fold_left
    (fun rows field =>
       match field with
       | Some text => if PyStr.truthy text then extract_row rows text else rows
       | None => rows
       end)
    [a_thought a; a_result a] rows.

(** Lines 616-632: the thought of one action is filed in the buckets. *)
Definition collect_thought (m : WebuiManager) (a : action) : WebuiManager :=
  match a_thought a with
  | Some text =>
      if PyStr.truthy text then
        let thought := PyStr.lower text in
        let m :=
          if PyStr.contains "business" thought
             && any_in ["name"; "address"; "info"; "details"; "about"] thought
          then set_business_info (append_new text (vayner_business_info m)) m else m in
        let m :=
          if PyStr.contains "keyword" thought
             && any_in ["performance"; "score"; "data"] thought
          then set_keyword_data (append_new text (vayner_keyword_data m)) m else m in
        if any_in ["ranking"; "rank"; "geography"; "location"] thought
        then set_ranking_data (append_new text (vayner_ranking_data m)) m else m
      else m
  | None => m
  end.

(** Lines 635-649: the result of one action is filed in the buckets. *)
Definition collect_result (m : WebuiManager) (a : action) : WebuiManager :=
  match a_result a with
  | Some text =>
      if PyStr.truthy text then
        let result := PyStr.lower text in
        let m :=
          if PyStr.contains "business" result && (10 <? PyStr.len text)
          then set_business_info (append_new text (vayner_business_info m)) m else m in
        let m :=
          if PyStr.contains "keyword" result && (10 <? PyStr.len text)
          then set_keyword_data (append_new text (vayner_keyword_data m)) m else m in
        if PyStr.contains "rank" result && (10 <? PyStr.len text)
        then set_ranking_data (append_new text (vayner_ranking_data m)) m else m
      else m
  | None => m
  end.

(** Lines 652-655: the page location. *)
Definition collect_url (m : WebuiManager) (state : browser_state) : WebuiManager :=
  match st_url state with
  | Some page_url =>
      if PyStr.truthy page_url
         && PyStr.contains "business" (PyStr.lower page_url)
         && negb (existsb (fun info => PyStr.contains page_url info) (vayner_business_info m))
      then set_business_info (vayner_business_info m ++ ["Page URL: " +:+ page_url]) m
      else m
  | None => m
  end.

(** Lines 658-662: the visible text of the page. *)
Definition collect_text_content (m : WebuiManager) (state : browser_state) : WebuiManager :=
  match st_text_content state with
  | Some text =>
      if PyStr.truthy text
         && PyStr.contains "keyword" (PyStr.lower text) && (20 <? PyStr.len text)
      then set_keyword_data (append_new text (vayner_keyword_data m)) m
      else m
  | None => m
  end.

(** Lines 594-603: a screenshot longer than 100 characters is kept. *)
Definition collect_screenshot (m : WebuiManager) (state : browser_state) : WebuiManager :=
  match st_screenshot state with
  | Some screenshot_data =>
      if PyStr.truthy screenshot_data && (100 <? PyStr.len screenshot_data)
      then set_screenshots (vayner_screenshots m ++ [screenshot_data]) m
      else m
  | None => m
  end.

(** Lines 606-684: everything the [try] block of the step callback does to the
    fact collections, before it turns to the report. *)
Definition aggregate_step (m : WebuiManager) (state : browser_state)
    (actions : list action) : WebuiManager :=
  let m := fold_left (fun m a => collect_result (collect_thought m a) a) actions m in
  let m := collect_url m state in
  let m := collect_text_content m state in
  set_keyword_table_rows
    (fold_left extract_rows_of_action actions (vayner_keyword_table_rows m)) m.

Local Open Scope string_scope.

(** *** Names visible in the body of [step_callback]

    What a name of the body of [step_callback] can denote. The callback asks
    one object for [final_result()], so an object either has that method, with
    its value, or is opaque. *)
Inductive scope_entry : Type :=
  | Opaque
  | HistoryObject (final_result : py_value).

Definition scope := list (string * scope_entry).

Fixpoint scope_lookup (name : string) (sc : scope) : option scope_entry :=
  match sc with
  | [] => None
  | (n, e) :: rest => if String.eqb n name then Some e else scope_lookup name rest
  end.

(** Evaluation of [name.final_result()]. *)
Definition eval_final_result (sc : scope) (name : string) : exn + py_value :=
  match scope_lookup name sc with
  | None => inl (NameError name)
  | Some Opaque => inl AttributeError
  | Some (HistoryObject final_result) => inr final_result
  end.

(** Parameters and local variables of [step_callback]. *)
Definition step_callback_locals : list string :=
  [ "state"; "output"; "step_num"; "screenshot_data"; "e"; "action"; "thought";
    "result"; "page_url"; "field"; "re"; "match"; "keyword"; "performance";
    "sov"; "business_name"; "pdf_report_comp"; "log_html"; "actions_text";
    "has_content"; "action_dump"; "state_dump"; "action_type"; "icon"; "text";
    "details" ].

(** Parameters and local variables of the enclosing [run_vayner_research]. *)
Definition run_vayner_research_locals : list string :=
  [ "webui_manager"; "components"; "business_name"; "run_button_comp";
    "stop_button_comp"; "chatbot_comp"; "browser_view_comp"; "pdf_report_comp";
    "task"; "get_setting"; "llm_provider_name"; "llm_model_name";
    "llm_temperature"; "use_vision"; "llm_base_url"; "llm_api_key";
    "get_browser_setting"; "headless"; "disable_security"; "window_w";
    "window_h"; "save_recording_path"; "save_download_path"; "stream_vw";
    "stream_vh"; "main_llm"; "step_callback"; "done_callback"; "context_config";
    "agent_run_coro"; "agent_task"; "last_chat_len"; "screenshot_b64";
    "html_content"; "e"; "error_message" ].

(** Names bound at the top level of the module. *)
Definition module_globals : list string :=
  [ "asyncio"; "json"; "logging"; "os"; "Any"; "AsyncGenerator"; "Dict"; "List";
    "Optional"; "datetime"; "gr"; "Component"; "BrowserUseAgent";
    "CustomBrowser"; "CustomController"; "llm_provider"; "WebuiManager";
    "BrowserConfig"; "BrowserContext"; "BrowserContextConfig"; "logger";
    "load_dotenv"; "VAYNER_USERNAME"; "VAYNER_PASSWORD";
    "VAYNER_CLIENT_TEMPLATE"; "generate_pdf_report"; "generate_live_report";
    "run_vayner_research"; "handle_submit"; "handle_stop"; "handle_clear";
    "create_vayner_client_research_tab" ].

(** The scope in which the body of [step_callback] runs: its own names, those
    of the enclosing function, those of the module (no builtin is called
    [history]). None of the objects is the agent's history: [history] is the
    parameter of [done_callback] and of [generate_pdf_report] only. *)
Definition step_callback_scope : scope :=
  map (fun name => (name, Opaque))
    (step_callback_locals ++ run_vayner_research_locals ++ module_globals).

Local Open Scope str_scope.
Local Open Scope list_scope.
Local Open Scope nat_scope.

Definition pdf_report_id : str := "vayner_client_research.pdf_report".

Definition run_button_id : str := "vayner_client_research.run_button".

Definition stop_button_id : str := "vayner_client_research.stop_button".

Definition chatbot_id : str := "vayner_client_research.chatbot".

Definition browser_view_id : str := "vayner_client_research.browser_view".

(** The fragment the step callback queues (lines 701-706):
    [{pdf_report_comp: gr.update(value=report, visible=True)}]. *)
Definition report_fragment (pdf_report_comp : Component) (report : str) : ui_dict :=
  {[ Some pdf_report_comp := mkUpdate (Some (UText report)) (Some true) None ]}.

(** [update_queue.append(fragment)] *)
Definition push (fragment : ui_dict) (queue : list ui_dict) : list ui_dict :=
  queue ++ [fragment].

Section Callbacks.

Variable py_repr : py_value -> str.

(** Lines 712-807: the markup of the chat entry of a step. It reads
    [model_dump] of the actions and the clock, and catches its own errors. *)
Variable format_step_log : browser_state -> list action -> Z -> str.

(** Lines 686-706: the report is regenerated and queued. The last argument of
    the call of [generate_live_report] is [history.final_result()], evaluated
    in scope [sc] before the call. *)
Definition refresh_report (sc : scope) (m : WebuiManager) : exn + WebuiManager :=
  let business_name := vayner_current_business m in
  match eval_final_result sc "history" with
  | inl e => inl e
  | inr final_result =>
      let report :=
        generate_live_report py_repr business_name
          (vayner_business_info m) (vayner_keyword_data m)
          (vayner_ranking_data m) (vayner_screenshots m)
          (Some (vayner_keyword_table_rows m)) final_result in
      let m := set_pdf_report (Some report) m in
      match get_component_by_id m pdf_report_id with
      | Some pdf_report_comp =>
          inr (set_update_queue (push (report_fragment pdf_report_comp report) (update_queue m)) m)
      | None => inr m
      end
  end.

(** [step_callback(state, output, step_num)] run in scope [sc]. The result is
    the manager after the call and the error the [except] clause of line 708
    logged, if any. *)
Definition step_callback_in (sc : scope) (m : WebuiManager) (state : browser_state)
    (actions : list action) (step_num : Z) : WebuiManager * option exn :=
  let step_num := (step_num - 1)%Z in
  let m := collect_screenshot m state in
  let m := aggregate_step m state actions in
  let '(m, logged) :=
    match refresh_report sc m with
    | inr m' => (m', None)
    | inl e => (m, Some e)
    end in
  let log_html := format_step_log state actions step_num in
  (set_chat_history (vayner_chat_history m ++ [mkMessage "assistant" log_html]) m, logged).

(** [step_callback] as the source defines it, inside [run_vayner_research]. *)
Definition step_callback (m : WebuiManager) (state : browser_state)
    (actions : list action) (step_num : Z) : WebuiManager * option exn :=
  step_callback_in step_callback_scope m state actions step_num.

(** Lines 838-850: one line of the table of the final result. *)
Definition table_row (rows : list KeywordRow) (row : str) : list KeywordRow :=
  if negb (PyStr.startswith "|" row) then rows
  else
    match map PyStr.strip (PyStr.split PyStr.pipe (PyStr.strip_char PyStr.pipe row)) with
    | kw :: perf :: sv :: _ =>
        if PyStr.truthy kw && PyStr.truthy perf && PyStr.truthy sv
        then add_keyword_row rows kw perf sv
        else rows
    | _ => rows
    end.

(** Line 833: the header test, [re.match] of the header pattern. *)
Definition is_table_header (line : str) : bool :=
  match Re.re_match Re.header_pattern line with
  | Some _ => true
  | None => false
  end.

(** Lines 831-850: the table pass over the lines of the final result. *)
Definition table_pass (rows : list KeywordRow) (lines : list str) : list KeywordRow :=
  match find_index is_table_header lines with
  | Some table_start =>
      if table_start + 2 <? length lines
      then fold_left table_row (skipn (table_start + 2) lines) rows
      else rows
  | None => rows
  end.

(** Line 830: [[line.strip() for line in final_result.splitlines() if line.strip()]] *)
Definition result_lines (final_result : str) : list str :=
  map PyStr.strip
    (List.filter (fun line => PyStr.truthy (PyStr.strip line))
       (PyStr.splitlines final_result)).

(** Lines 865-876: one item of a final result that is a list. *)
Definition list_item_row (rows : list KeywordRow) (item : py_value) : list KeywordRow :=
  match item with
  | PyDict entries =>
      match dict_get "keyword" entries, dict_get "performance" entries,
            dict_get "sov" entries with
      | Some kw, Some perf, Some sv =>
          if PyStr.truthy kw && PyStr.truthy perf && PyStr.truthy sv
          then add_keyword_row rows kw perf sv
          else rows
      | _, _, _ => rows
      end
  | _ => rows
  end.

(** Lines 821-876: the rows the final result adds. *)
Definition final_result_rows (rows : list KeywordRow) (final_result : py_value) : list KeywordRow :=
  if py_truthy final_result then
    match final_result with
    | PyStr s =>
        let lines := result_lines s in
        let rows := table_pass rows lines in
        fold_left extract_row lines rows
    | PyList items => fold_left list_item_row items rows
    | _ => rows
    end
  else rows.

(** Lines 817-882: the text of the closing chat entry. *)
Definition final_summary (history : History) : str :=
  let final_summary := "**Task Completed**" +:+ PyStr.nl in
  let final_summary :=
    final_summary +:+ "- Duration: " +:+ h_duration_text history +:+ " seconds" +:+ PyStr.nl in
  let final_summary :=
    if py_truthy (h_final_result history)
    then final_summary +:+ "- Final Result: " +:+ py_format py_repr (h_final_result history) +:+ PyStr.nl
    else final_summary in
  if existsb (fun e => match e with Some s => PyStr.truthy s | None => false end) (h_errors history)
  then final_summary +:+ "- **Errors:**" +:+ PyStr.nl +:+ "```" +:+ PyStr.nl
         +:+ h_errors_text history +:+ PyStr.nl +:+ "```" +:+ PyStr.nl
  else final_summary +:+ "- Status: Success" +:+ PyStr.nl.

(** [done_callback(history)]. [generate_live_report] does not raise on the
    values of the model, so the [except] clause of line 900 is not taken. *)
Definition done_callback (m : WebuiManager) (history : History) : WebuiManager :=
  let final_result := h_final_result history in
  let m :=
    set_keyword_table_rows
      (final_result_rows (vayner_keyword_table_rows m) final_result) m in
  let m :=
    set_chat_history
      (vayner_chat_history m ++ [mkMessage "assistant" (final_summary history)]) m in
  let business_name := vayner_current_business m in
  set_pdf_report
    (Some (generate_live_report py_repr business_name
             (vayner_business_info m) (vayner_keyword_data m)
             (vayner_ranking_data m) (vayner_screenshots m)
             (Some (vayner_keyword_table_rows m)) final_result)) m.

End Callbacks.

(** ** Task lifecycle ([handle_submit], [run_vayner_research], [handle_stop],
    [handle_clear]) *)

(** Text of the run button while a research runs (line 535). *)
Definition researching_label : str :=
  "‚è≥ Researching...".

(** Text of the run button when a research can be started (lines 986, 994,
    1008, 1090 and 1147). *)
Definition research_client_label : str :=
  "‚ñ∂Ô∏è Research Client".

(** Content of the browser view after a clear (line 1149). *)
Definition browser_view_cleared : str :=
  "<div style='text-align:center;'>Browser View</div>".

(** The manager together with the tasks of the event loop;
    [asyncio.create_task] appends to [loop_tasks]. *)
Record World : Type := mkWorld {
  manager : WebuiManager;
  loop_tasks : list task_state
}.

(** [task.done()] for the task [t] of the loop. *)
Definition done (w : World) (t : Task) : bool :=
  match loop_tasks w !! t with
  | Some st => task_done st
  | None => true
  end.

(** The session has a live task: [vayner_current_task] is a task that is not
    done. *)
Definition running (w : World) : bool :=
  match vayner_current_task (manager w) with
  | Some t => negb (done w t)
  | None => false
  end.


(** What the outside world decides while a research is started: whether
    [os.makedirs] succeeds, whether [llm_provider.get_llm_model] returns a
    model (it raises [ValueError] without an API key), whether controller,
    browser, context and agent are obtained ([Some text] is [str(e)] of the
    exception raised there), and whether a new agent has a [stop] method. *)
Record start_env : Type := mkStartEnv {
  env_makedirs_ok : bool;
  env_llm_error : option exn;
  env_init_error : option str;
  env_agent_has_stop : bool
}.

(** How the start of a research ends. *)
Inductive submit_outcome : Type :=
  | SubmitRejected                 (* blank business name: warning, nothing started *)
  | SubmitRaised (e : exn)         (* an exception left the generator *)
  | SubmitInitFailed               (* caught at line 999, shown in the chat *)
  | SubmitStarted (t : Task).      (* the task was created, polling begins *)

(** Lines 1055-1057: [while queue: pdf_updates = queue.pop(0);
    update.update(pdf_updates)]. The result is the queue left, the fragments
    [pop(0)] returned, in that order, after those of [popped], and the update
    they were merged into. *)
Fixpoint drain (queue popped : list ui_dict) (update : ui_dict)
    : list ui_dict * list ui_dict * ui_dict :=
  match queue with
  | [] => ([], popped, update)
  | pdf_updates :: rest => drain rest (popped ++ [pdf_updates]) (dict_update update pdf_updates)
  end.

(** Lines 1053-1059: one update of [run_vayner_research] passes through
    [handle_submit], which empties the queue into it. *)
Definition relay (m : WebuiManager) (update : ui_dict) : WebuiManager * ui_dict :=
  let '(queue, _, update) := drain (update_queue m) [] update in
  (set_update_queue queue m, update).

Definition relay_all (m : WebuiManager) (updates : list ui_dict) : WebuiManager * list ui_dict :=
  fold_left
    (fun (acc : WebuiManager * list ui_dict) update =>
       let '(m, out) := relay (fst acc) update in
       (m, snd acc ++ [out]))
    updates (m, []).

(** How an [await] of a task ends: the task's result is returned or an
    exception is raised. *)
Inductive wait_outcome : Type :=
  | WaitReturned
  | WaitRaised (e : exn).

(** [await asyncio.wait_for(task, timeout)] on a task that [task.cancel()] was
    just called on. [wait_for] returns or raises only once the task has
    ended: when the time is up it cancels the task again and waits for the
    end of it. So the wait ends together with the task, or it never ends. It
    returns when the task ended with a result, raises [CancelledError] when
    the task ended cancelled in time, [TimeoutError] when it ended cancelled
    after the time was up, and the exception of the task when it ended with
    one. The handler itself is taken not to be cancelled while it waits. *)
Inductive wait_result : Type :=
  | WaitEnds (how : wait_outcome)
  | WaitNeverEnds.

(** The state of the task when the wait has ended that way. *)
Definition task_after_wait (how : wait_outcome) : task_state :=
  match how with
  | WaitReturned => TaskFinished
  | WaitRaised CancelledError => TaskCancelled
  | WaitRaised TimeoutError => TaskCancelled
  | WaitRaised _ => TaskFinished
  end.

(** What the outside world decides while a task is stopped: what
    [agent.stop()] does to the agent ([None] when it raises an [Exception]),
    and how the wait for the cancelled task goes. *)
Record stop_env : Type := mkStopEnv {
  env_agent_stop : Agent -> option Agent;
  env_wait : wait_result
}.

(** What a handler that yields at most once does: it yields an update, an
    exception leaves it, or it waits for ever and yields nothing. *)
Inductive handler_result : Type :=
  | Yielded (update : ui_dict)
  | Raised (e : exn)
  | Blocked.

(** [except Exception], line 1077: every exception of the model except
    [CancelledError], which is a [BaseException]. *)
Definition is_exception (e : exn) : bool :=
  match e with
  | CancelledError => false
  | _ => true
  end.

(** [except (asyncio.CancelledError, asyncio.TimeoutError, Exception)],
    lines 1083 and 1116. *)
Definition swallowed_by_wait (e : exn) : bool :=
  match e with
  | CancelledError => true
  | TimeoutError => true
  | _ => is_exception e
  end.

Definition set_task_state (t : Task) (st : task_state) (w : World) : World :=
  mkWorld (manager w) (<[t := st]> (loop_tasks w)).

(** [task.cancel()] on the task [t] of the loop. *)
Definition cancel_task (t : Task) (w : World) : World :=
  match loop_tasks w !! t with
  | Some st => set_task_state t (task_cancel st) w
  | None => w
  end.

(** The wait for the cancelled task [t] (lines 1081-1084 and 1114-1117): when
    it ends the task has ended and what was raised is swallowed; the result
    says whether the handler goes on, and what left it otherwise. *)
Definition wait_cancelled (env : stop_env) (t : Task) (w : World)
    : World * option handler_result :=
  match env_wait env with
  | WaitNeverEnds => (w, Some Blocked)
  | WaitEnds how =>
      let w := set_task_state t (task_after_wait how) w in
      match how with
      | WaitReturned => (w, None)
      | WaitRaised e => if swallowed_by_wait e then (w, None) else (w, Some (Raised e))
      end
  end.

Section Handlers.

Variable py_repr : py_value -> str.

(** Lines 507-539: the first part of [run_vayner_research], up to its first
    [yield]. *)
Definition announce (m : WebuiManager) (business_name : str) : WebuiManager * ui_dict :=
  let run_button_comp := get_component_by_id m run_button_id in
  let stop_button_comp := get_component_by_id m stop_button_id in
  let chatbot_comp := get_component_by_id m chatbot_id in
  let pdf_report_comp := get_component_by_id m pdf_report_id in
  let m :=
    set_chat_history
      (vayner_chat_history m
         ++ [mkMessage "user" ("Research business: " +:+ business_name)]
         ++ [mkMessage "assistant" ("Starting research for " +:+ business_name +:+ "...")]) m in
  let d : ui_dict :=
    <[pdf_report_comp := mkUpdate None (Some false) None]>
      (<[stop_button_comp := mkUpdate None None (Some true)]>
         (<[run_button_comp := mkUpdate (Some (UText researching_label)) None (Some false)]>
            (<[chatbot_comp := mkUpdate (Some (UChat (vayner_chat_history m))) None None]> ∅))) in
  (m, delete None d).

(** Lines 1000-1011: the [except] clause of [run_vayner_research]. *)
Definition report_failure (m : WebuiManager) (error_text : str) : WebuiManager * ui_dict :=
  let run_button_comp := get_component_by_id m run_button_id in
  let stop_button_comp := get_component_by_id m stop_button_id in
  let chatbot_comp := get_component_by_id m chatbot_id in
  let pdf_report_comp := get_component_by_id m pdf_report_id in
  let error_message :=
    "**Error during research:**" +:+ PyStr.nl +:+ "```" +:+ PyStr.nl
      +:+ error_text +:+ PyStr.nl +:+ "```" in
  let m := set_chat_history (vayner_chat_history m ++ [mkMessage "assistant" error_message]) m in
  let d : ui_dict :=
    <[pdf_report_comp := mkUpdate None (Some false) None]>
      (<[stop_button_comp := mkUpdate None None (Some false)]>
         (<[run_button_comp := mkUpdate (Some (UText research_client_label)) None (Some true)]>
            (<[chatbot_comp := mkUpdate (Some (UChat (vayner_chat_history m))) None None]> ∅))) in
  (m, d).

(** [run_vayner_research(webui_manager, components, business_name)] up to the
    creation of the task (lines 498-957): the yielded updates and how the
    start ended. There is no test of [vayner_current_task] on the way. *)
Definition run_vayner_research (env : start_env) (w : World) (business_name : str)
    : World * list ui_dict * submit_outcome :=
  let '(m, first) := announce (manager w) business_name in
  if negb (env_makedirs_ok env) then
    (mkWorld m (loop_tasks w), [first], SubmitRaised OtherException)
  else
    match env_llm_error env with
    | Some e => (mkWorld m (loop_tasks w), [first], SubmitRaised e)
    | None =>
        match env_init_error env with
        | Some error_text =>
            let '(m, failure) := report_failure m error_text in
            (mkWorld m (loop_tasks w), [first; failure], SubmitInitFailed)
        | None =>
            (* lines 934-949: a new agent, or the existing one with a new task *)
            let agent :=
              match vayner_agent m with
              | Some agent => agent
              | None => mkAgent (env_agent_has_stop env) false false
              end in
            let m := set_agent (Some agent) m in
            (* lines 952-954: asyncio.create_task *)
            let agent_task := length (loop_tasks w) in
            let m := set_current_task (Some agent_task) m in
            (mkWorld m (loop_tasks w ++ [TaskPending]), [first], SubmitStarted agent_task)
        end
    end.

(** [handle_submit(webui_manager, business_name)] up to the creation of the
    task: the world afterwards, the updates yielded so far, and how the start
    ended. *)
Definition handle_submit (env : start_env) (w : World) (business_name : str)
    : World * list ui_dict * submit_outcome :=
  if negb (PyStr.truthy (PyStr.strip business_name)) then
    (w, [∅], SubmitRejected)
  else
    let m := manager w in
    let m := set_current_business (PyStr.strip business_name) m in
    let m := set_screenshots [] m in
    let m := set_business_info [] m in
    let m := set_keyword_data [] m in
    let m := set_ranking_data [] m in
    let m := set_keyword_table_rows [] m in
    let report :=
      generate_live_report py_repr (PyStr.strip business_name) [] [] [] [] (Some []) PyNone in
    let m := set_pdf_report (Some report) m in
    let pdf_report_comp := get_component_by_id m pdf_report_id in
    let shown : ui_dict := {[ pdf_report_comp := mkUpdate (Some (UText report)) (Some true) None ]} in
    let m := set_update_queue [] m in
    let '(w', updates, outcome) :=
      run_vayner_research env (mkWorld m (loop_tasks w)) (PyStr.strip business_name) in
    let '(m', relayed) := relay_all (manager w') updates in
    (mkWorld m' (loop_tasks w'), shown :: relayed, outcome).

(** Lines 1069-1078: the cooperative stop of [handle_stop]; an exception of
    [agent.stop()] is logged and dropped. *)
Definition request_stop (env : stop_env) (agent : Agent) : Agent :=
  if agent_has_stop agent then
    match env_agent_stop env agent with
    | Some agent' => agent'
    | None => agent
    end
  else mkAgent (agent_has_stop agent) true false.

(** [handle_stop(webui_manager)]: the world afterwards and what the handler
    did. *)
Definition handle_stop (env : stop_env) (w : World) : World * handler_result :=
  let m := manager w in
  match vayner_agent m, vayner_current_task m with
  | Some agent, Some task =>
      if negb (done w task) then
        let m := set_agent (Some (request_stop env agent)) m in
        (* task.cancel(), then the wait *)
        let w := cancel_task task (mkWorld m (loop_tasks w)) in
        match wait_cancelled env task w with
        | (w, Some stopped) => (w, stopped)
        | (w, None) =>
            let run_button_comp := get_component_by_id m run_button_id in
            let stop_button_comp := get_component_by_id m stop_button_id in
            (w, Yielded (<[stop_button_comp := mkUpdate None None (Some false)]>
                           (<[run_button_comp :=
                                mkUpdate (Some (UText research_client_label)) None (Some true)]>
                              ∅)))
        end
      else (w, Yielded ∅)
  | _, _ => (w, Yielded ∅)
  end.

(** Line 1118, [except Exception] around the stop sequence of [handle_clear]:
    an [Exception] that the wait did not swallow is logged and the handler
    goes on. *)
Definition logged_by_clear (r : World * option handler_result)
    : World * option handler_result :=
  match r with
  | (w, Some (Raised e)) => if is_exception e then (w, None) else r
  | _ => r
  end.

(** Lines 1100-1119: the stop sequence of [handle_clear]. Here an exception
    of [agent.stop()] skips the cancellation of the task and the wait. The
    result says whether the handler goes on, and what left it otherwise. *)
Definition clear_task (env : stop_env) (w : World) : World * option handler_result :=
  let m := manager w in
  match vayner_current_task m with
  | Some task =>
      if negb (done w task) then
        match vayner_agent m with
        | Some agent =>
            if agent_has_stop agent then
              match env_agent_stop env agent with
              | Some agent' =>
                  logged_by_clear
                    (wait_cancelled env task
                       (cancel_task task
                          (mkWorld (set_agent (Some agent') m) (loop_tasks w))))
              | None => (w, None)
              end
            else
              logged_by_clear
                (wait_cancelled env task
                   (cancel_task task
                      (mkWorld (set_agent (Some (mkAgent (agent_has_stop agent) true false)) m)
                         (loop_tasks w))))
        | None => logged_by_clear (wait_cancelled env task (cancel_task task w))
        end
      else (w, None)
  | None => (w, None)
  end.

(** [handle_clear(webui_manager)]: the world afterwards and what the handler
    did. *)
Definition handle_clear (env : stop_env) (w : World) : World * handler_result :=
  match clear_task env w with
  | (w, Some stopped) => (w, stopped)
  | (w, None) =>
      let m := manager w in
      let m := set_chat_history [] m in
      let report := generate_live_report py_repr "Business Name" [] [] [] [] (Some []) PyNone in
      let m := set_pdf_report (Some report) m in
      let m := set_screenshots [] m in
      let m := set_business_info [] m in
      let m := set_keyword_data [] m in
      let m := set_ranking_data [] m in
      let m := set_keyword_table_rows [] m in
      let m := set_current_business "Business Name" m in
      let m := set_update_queue [] m in
      let chatbot_comp := get_component_by_id m chatbot_id in
      let run_button_comp := get_component_by_id m run_button_id in
      let stop_button_comp := get_component_by_id m stop_button_id in
      let browser_view_comp := get_component_by_id m browser_view_id in
      let business_name_comp := get_component_by_id m "vayner_client_research.business_name" in
      let pdf_report_comp := get_component_by_id m pdf_report_id in
      (mkWorld m (loop_tasks w),
       Yielded
         (<[pdf_report_comp := mkUpdate (Some (UText report)) (Some true) None]>
            (<[business_name_comp := mkUpdate (Some (UText [])) None None]>
               (<[browser_view_comp := mkUpdate (Some (UText browser_view_cleared)) None None]>
                  (<[stop_button_comp := mkUpdate None None (Some false)]>
                     (<[run_button_comp :=
                          mkUpdate (Some (UText research_client_label)) None (Some true)]>
                        (<[chatbot_comp := mkUpdate (Some (UChat [])) None None]> ∅)))))))
  end.

End Handlers.

(** [create_vayner_client_research_tab]: the registration of the components
    of the tab (lines 1204-1213), given the seven components just created. *)
Definition create_vayner_client_research_tab
    (chatbot business_name run_button stop_button clear_button browser_view pdf_report : Component)
    (m : WebuiManager) : WebuiManager :=
  add_components "vayner_client_research"
    [ ("chatbot", chatbot); ("business_name", business_name);
      ("run_button", run_button); ("stop_button", stop_button);
      ("clear_button", clear_button); ("browser_view", browser_view);
      ("pdf_report", pdf_report) ] m.

(** ** Predicates used in the statements *)

(** The two maps of the registry are mutual inverses. *)
Definition mutual_inverses (m : WebuiManager) : Prop :=
  forall (i : str) (c : Component),
    id_to_component m !! i = Some c <-> component_to_id m !! c = Some i.

(** No two rows have the same keyword up to case. *)
Definition unique_keywords (rows : list KeywordRow) : Prop :=
  NoDup (map (fun row => PyStr.lower (keyword row)) rows).

(** The markup of one row of the keyword table. *)
Definition keyword_row_markup (row : KeywordRow) : str :=
  Markup.keyword_row_open +:+ keyword row
    +:+ Markup.keyword_row_mid +:+ performance row
    +:+ Markup.keyword_row_mid +:+ sov row
    +:+ Markup.keyword_row_close.

(** ["".join(parts)] *)
Definition join (parts : list str) : str :=
  fold_right (@app N) [] parts.

(** The first two pages and the opening of the third one (lines 312-370). *)
Definition report_pages (business_name : str) : str :=
  (Markup.cover_page_open +:+ business_name +:+ Markup.cover_page_close)
    +:+ (Markup.second_page_open +:+ business_name +:+ Markup.second_page_close)
    +:+ Markup.third_page_open.


(** [m'] has the registry, the agent and the current task of [m]. *)
Definition same_session (m m' : WebuiManager) : Prop :=
  id_to_component m' = id_to_component m
  /\ component_to_id m' = component_to_id m
  /\ vayner_agent m' = vayner_agent m
  /\ vayner_current_task m' = vayner_current_task m.

(** [m'] has the report and the update queue of [m]. *)
Definition same_report (m m' : WebuiManager) : Prop :=
  update_queue m' = update_queue m
  /\ vayner_pdf_report m' = vayner_pdf_report m.

(** [rows'] keeps the rows of [rows], as they are and where they are, and is
    unique by keyword if [rows] is. *)
Definition grows (rows rows' : list KeywordRow) : Prop :=
  (unique_keywords rows -> unique_keywords rows') /\ rows `prefix_of` rows'.

Section Reachable.

Variable py_repr : py_value -> str.

Variable format_step_log : browser_state -> list action -> Z -> str.

(** The worlds a session can be in: the tabs register their components on a
    new manager, then the handlers and the callbacks run, and the event loop
    moves tasks from one state to another. *)
Inductive reachable : World -> Prop :=
  | reach_init calls :
      reachable (mkWorld (register_all calls new_manager) [])
  | reach_submit env w business_name :
      reachable w ->
      reachable (handle_submit py_repr env w business_name).1.1
  | reach_step w state actions step_num :
      reachable w ->
      reachable (mkWorld (step_callback py_repr format_step_log (manager w) state actions step_num).1
                   (loop_tasks w))
  | reach_done w history :
      reachable w ->
      reachable (mkWorld (done_callback py_repr (manager w) history) (loop_tasks w))
  | reach_loop w t st :
      reachable w ->
      reachable (set_task_state t st w)
  | reach_stop env w :
      reachable w ->
      reachable (handle_stop env w).1
  | reach_clear env w :
      reachable w ->
      reachable (handle_clear py_repr env w).1.

End Reachable.

(** *** A concrete session *)

(** The research tab registered on a new manager. *)
Definition tab_world : World :=
  mkWorld (create_vayner_client_research_tab 1 2 3 4 5 6 7 new_manager) [].

(** After a submit of "Acme Dental" that starts a task. *)
Definition started_world : World :=
  (handle_submit (fun _ => []) (mkStartEnv true None None true)
     tab_world "Acme Dental").1.1.


(** ** Further code of the manager and of the research tab *)

(** *** Saved settings ([save_config], [load_config]) *)

(** [getattr(comp, "interactive", True)]: the attribute can be missing,
    [None] or a boolean. *)
Inductive interactive_attr : Type :=
  | InteractiveAbsent
  | InteractiveNone
  | InteractiveBool (b : bool).

(** [str(getattr(comp, "interactive", True))] *)
Definition interactive_str (a : interactive_attr) : str :=
  match a with
  | InteractiveAbsent => "True"
  | InteractiveNone => "None"
  | InteractiveBool true => "True"
  | InteractiveBool false => "False"
  end.

(** What [save_config] reads of a component. *)
Record component_attrs : Type := mkAttrs {
  is_button : bool;                (* isinstance(comp, gr.Button) *)
  is_file : bool;                  (* isinstance(comp, gr.File) *)
  interactive : interactive_attr
}.

(** Lines 138-139: the test that decides whether a component is saved. *)
Definition saveable (a : component_attrs) : bool :=
  negb (is_button a) && negb (is_file a)
  && negb (PyStr.eqb (PyStr.lower (interactive_str (interactive a))) "false").

(** A [dict] with str keys and values, as the list of its items in
    insertion order; this is what [json.dump] writes and [json.load] reads
    back. *)
Abbreviation settings := (list (str * str)) (only parsing).

(** [d[k] = v]: the value of an existing key is replaced where it is, a new
    key goes to the end. *)
Fixpoint settings_set (k v : str) (d : settings) : settings :=
  match d with
  | [] => [(k, v)]
  | (k', v') :: d' =>
      if PyStr.eqb k' k then (k, v) :: d' else (k', v') :: settings_set k v d'
  end.

(** Lines 137-141: the loop of [save_config] over the items of [components];
    [get_id_by_component] raises [KeyError] for a component that is not
    registered. *)
Fixpoint save_loop (attrs : Component -> component_attrs) (m : WebuiManager)
    (components : list (Component * str)) (cur_settings : settings)
    : exn + settings :=
  match components with
  | [] => inr cur_settings
  | (comp, value) :: rest =>
      if saveable (attrs comp) then
        match get_id_by_component m comp with
        | inl e => inl e
        | inr comp_id => save_loop attrs m rest (settings_set comp_id value cur_settings)
        end
      else save_loop attrs m rest cur_settings
  end.

(** [s.endswith(p)] *)
Definition endswith (p s : str) : bool :=
  PyStr.startswith (PyStr.rev p) (PyStr.rev s).

(** [os.path.join(a, b)] on a POSIX system. *)
Definition path_join (a b : str) : str :=
  if PyStr.startswith "/" b then b
  else if negb (PyStr.truthy a) || endswith "/" a then a +:+ b
  else a +:+ "/" +:+ b.

(** [save_config(components)]: the path of the file and the settings written
    to it. [settings_save_dir] is the attribute set by [__init__] and
    [config_name] is [datetime.now().strftime("%Y%m%d-%H%M%S")]. *)
Definition save_config (attrs : Component -> component_attrs) (settings_save_dir : str)
    (config_name : str) (m : WebuiManager) (components : list (Component * str))
    : exn + (str * settings) :=
  match save_loop attrs m components [] with
  | inl e => inl e
  | inr cur_settings =>
      inr (path_join settings_save_dir (config_name +:+ ".json"), cur_settings)
  end.

Definition config_status_id : str := "load_save_config.config_status".

(** Lines 157-160: one item of the loaded settings. *)
Definition load_entry (m : WebuiManager) (update_components : gmap Component gr_update)
    (entry : str * str) : gmap Component gr_update :=
  match id_to_component m !! entry.1 with
  | Some comp => <[comp := mkUpdate (Some (UText entry.2)) None None]> update_components
  | None => update_components
  end.

(** [load_config(config_path)]: the one dictionary it yields, or the exception
    raised before. [file] is what [json.load] reads at the path, [None] when
    the file cannot be read. *)
Definition load_config (m : WebuiManager) (config_path : str) (file : option settings)
    : exn + gmap Component gr_update :=
  match file with
  | None => inl OtherException
  | Some ui_settings =>
      let update_components := fold_left (load_entry m) ui_settings ∅ in
      match id_to_component m !! config_status_id with
      | None => inl KeyError
      | Some config_status =>
          inr (<[config_status :=
                   mkUpdate (Some (UText ("Successfully loaded config: " +:+ config_path)))
                     None None]> update_components)
      end
  end.

(** *** The interface ([create_documentation_tab], [create_ui]) *)

(** [create_documentation_tab]: the registration of line 724; the tab has the
    one component [doc_tabs]. *)
Definition create_documentation_tab (doc_tabs : Component) (m : WebuiManager) : WebuiManager :=
  add_components "documentation" [("doc_tabs", doc_tabs)] m.

(** The manager [create_ui] builds: a new manager, the research tab, then the
    documentation tab (lines 60-79 of [interface.py]). *)
Definition create_ui
    (chatbot business_name run_button stop_button clear_button browser_view pdf_report
     doc_tabs : Component) : WebuiManager :=
  create_documentation_tab doc_tabs
    (create_vayner_client_research_tab chatbot business_name run_button stop_button
       clear_button browser_view pdf_report new_manager).

(** *** The language model ([llm_provider.get_llm_model]) *)



Section LanguageModel.

(** The type of the temperature, a [float], and [0.0]. *)
Variable temperature : Type.

Variable zero_temperature : temperature.




End LanguageModel.

(** *** The end of a research (lines 980-1013 of [run_vayner_research]) *)

(** After the polling loop: [await agent_task] returns or raises. An
    [Exception] is caught at line 999 ([error_text] is [str(e)]) and shown; a
    [CancelledError] is not an [Exception] and leaves the generator. The
    result is the manager, the updates yielded and the exception that left,
    if any. *)
Definition finish_research (error_text : exn -> str) (m : WebuiManager)
    (awaited : wait_outcome) : WebuiManager * list ui_dict * option exn :=
  let run_button_comp := get_component_by_id m run_button_id in
  let stop_button_comp := get_component_by_id m stop_button_id in
  let chatbot_comp := get_component_by_id m chatbot_id in
  let pdf_report_comp := get_component_by_id m pdf_report_id in
  match awaited with
  | WaitReturned =>
      let shown : ui_dict :=
        <[chatbot_comp := mkUpdate (Some (UChat (vayner_chat_history m))) None None]>
          (<[stop_button_comp := mkUpdate None None (Some false)]>
             (<[run_button_comp :=
                  mkUpdate (Some (UText research_client_label)) None (Some true)]> ∅)) in
      match vayner_pdf_report m with
      | Some report =>
          if PyStr.truthy report
          then (m, [<[pdf_report_comp := mkUpdate (Some (UText report)) (Some true) None]> shown],
                None)
          else (m, [shown], None)
      | None => (m, [shown], None)
      end
  | WaitRaised e =>
      if is_exception e then
        let '(m, failure) := report_failure m (error_text e) in
        (m, [failure], None)
      else (m, [], Some e)
  end.

(** *** The facts one step offers to the collections *)

(** [for x in candidates: if x not in l: l.append(x)] *)
Definition add_all (candidates l : list str) : list str :=
  fold_left (fun l x => append_new x l) candidates l.

(** The texts of an action that lines 620-622 and 639-641 offer to
    [vayner_business_info]. *)
Definition business_notes (a : action) : list str :=
  match a_thought a with
  | Some text =>
      if PyStr.truthy text then
        if PyStr.contains "business" (PyStr.lower text)
           && any_in ["name"; "address"; "info"; "details"; "about"] (PyStr.lower text)
        then [text] else []
      else []
  | None => []
  end
  ++
  match a_result a with
  | Some text =>
      if PyStr.truthy text then
        if PyStr.contains "business" (PyStr.lower text) && (10 <? PyStr.len text)
        then [text] else []
      else []
  | None => []
  end.

(** The texts lines 625-627 and 643-645 offer to [vayner_keyword_data]. *)
Definition keyword_notes (a : action) : list str :=
  match a_thought a with
  | Some text =>
      if PyStr.truthy text then
        if PyStr.contains "keyword" (PyStr.lower text)
           && any_in ["performance"; "score"; "data"] (PyStr.lower text)
        then [text] else []
      else []
  | None => []
  end
  ++
  match a_result a with
  | Some text =>
      if PyStr.truthy text then
        if PyStr.contains "keyword" (PyStr.lower text) && (10 <? PyStr.len text)
        then [text] else []
      else []
  | None => []
  end.

(** The texts lines 630-632 and 647-649 offer to [vayner_ranking_data]. *)
Definition ranking_notes (a : action) : list str :=
  match a_thought a with
  | Some text =>
      if PyStr.truthy text then
        if any_in ["ranking"; "rank"; "geography"; "location"] (PyStr.lower text)
        then [text] else []
      else []
  | None => []
  end
  ++
  match a_result a with
  | Some text =>
      if PyStr.truthy text then
        if PyStr.contains "rank" (PyStr.lower text) && (10 <? PyStr.len text)
        then [text] else []
      else []
  | None => []
  end.

(** Lines 652-655 on the list [vayner_business_info]. *)
Definition add_page_url (state : browser_state) (l : list str) : list str :=
  match st_url state with
  | Some page_url =>
      if PyStr.truthy page_url
         && PyStr.contains "business" (PyStr.lower page_url)
         && negb (existsb (fun info => PyStr.contains page_url info) l)
      then l ++ ["Page URL: " +:+ page_url]
      else l
  | None => l
  end.

(** Lines 658-662 on the list [vayner_keyword_data]. *)
Definition add_text_content (state : browser_state) (l : list str) : list str :=
  match st_text_content state with
  | Some text =>
      if PyStr.truthy text
         && PyStr.contains "keyword" (PyStr.lower text) && (20 <? PyStr.len text)
      then append_new text l
      else l
  | None => l
  end.

(** The screenshot lines 594-603 keep of a state, if any. *)
Definition kept_screenshot (state : browser_state) : list str :=
  match st_screenshot state with
  | Some screenshot_data =>
      if PyStr.truthy screenshot_data && (100 <? PyStr.len screenshot_data)
      then [screenshot_data] else []
  | None => []
  end.

(** The five collections the report is built from. *)
Definition collections (m : WebuiManager)
    : list str * list str * list str * list str * list KeywordRow :=
  (vayner_business_info m, vayner_keyword_data m, vayner_ranking_data m,
   vayner_screenshots m, vayner_keyword_table_rows m).

(** The notes and the rows of a manager. *)
Definition facts (m : WebuiManager)
    : list str * list str * list str * list KeywordRow :=
  (vayner_business_info m, vayner_keyword_data m, vayner_ranking_data m,
   vayner_keyword_table_rows m).

(** Every character of [s] satisfies [p]. *)
Fixpoint all_chars (p : N -> bool) (s : str) : bool :=
  match s with
  | [] => true
  | c :: s' => p c && all_chars p s'
  end.

(** The classes of the capturing groups of a pattern, in order. *)
Fixpoint group_classes (p : Re.pattern) : list (N -> bool) :=
  match p with
  | [] => []
  | Re.Group cls :: p' => cls :: group_classes p'
  | _ :: p' => group_classes p'
  end.

(** The four fact collections of [m'] extend those of [m]. *)
Definition facts_extend (m m' : WebuiManager) : Prop :=
  vayner_business_info m `prefix_of` vayner_business_info m'
  /\ vayner_keyword_data m `prefix_of` vayner_keyword_data m'
  /\ vayner_ranking_data m `prefix_of` vayner_ranking_data m'
  /\ vayner_screenshots m `prefix_of` vayner_screenshots m'.

(** A row with a performance and a sov. *)
Definition scored (row : KeywordRow) : Prop :=
  performance row <> [] /\ sov row <> [].

(** The note collections hold no text twice, every screenshot kept is longer
    than 100 characters, and no row has an empty performance or sov. *)
Definition facts_wellformed (m : WebuiManager) : Prop :=
  NoDup (vayner_business_info m)
  /\ NoDup (vayner_keyword_data m)
  /\ NoDup (vayner_ranking_data m)
  /\ Forall (fun shot => 100 < PyStr.len shot) (vayner_screenshots m)
  /\ Forall scored (vayner_keyword_table_rows m).

(** The world of [started_world] after a first step on a page of the
    business that reports one keyword row. *)
Definition stepped_world : World :=
  mkWorld
    (step_callback (fun _ => []) (fun _ _ _ => []) (manager started_world)
       (mkBrowserState None (Some "https://maps.example.com/business/acme-dental") None)
       [mkAction (Some "keyword: Teeth Whitening, performance: 88, sov: 2") None] 1%Z).1
    (loop_tasks started_world).

(** * Properties *)

(** ** Texts *)

Lemma str_eqb_eq (a b : str) : PyStr.eqb a b = true <-> a = b.
Proof.
  revert b. induction a as [|x a IH]; intros b; destruct b as [|y b]; simpl.
  - split; reflexivity.
  - split; [discriminate | intros H; inversion H].
  - split; [discriminate | intros H; inversion H].
  - rewrite andb_true_iff, N.eqb_eq, IH. split.
    + intros [Hx Ha]. subst. reflexivity.
    + intros H. inversion H. split; reflexivity.
Qed.

Lemma str_eqb_refl (a : str) : PyStr.eqb a a = true.
Proof. apply str_eqb_eq. reflexivity. Qed.

Lemma str_eqb_neq (a b : str) : PyStr.eqb a b = false <-> a <> b.
Proof.
  pose proof (str_eqb_eq a b) as H. destruct (PyStr.eqb a b).
  - split; [discriminate|]. intros Hne. exfalso. apply Hne, H. reflexivity.
  - split; [|reflexivity]. intros _ Heq. apply H in Heq. discriminate.
Qed.


(** ** Component registry *)

Section RegistryFacts.

Implicit Types (m : WebuiManager) (c : Component) (i tab name : str).

Lemma add_component_id tab m (e : str * Component) i :
  id_to_component (add_component tab m e) !! i
  = if decide (compose_id tab e.1 = i) then Some e.2 else id_to_component m !! i.
Proof.
  unfold add_component; simpl. rewrite lookup_insert. reflexivity.
Qed.

Lemma add_component_comp tab m (e : str * Component) c :
  component_to_id (add_component tab m e) !! c
  = if decide (e.2 = c) then Some (compose_id tab e.1) else component_to_id m !! c.
Proof.
  unfold add_component; simpl. rewrite lookup_insert. reflexivity.
Qed.

Lemma compose_id_inj tab name1 name2 :
  compose_id tab name1 = compose_id tab name2 -> name1 = name2.
Proof.
  unfold compose_id. intros H.
  apply app_inv_head in H. apply app_inv_head in H. exact H.
Qed.

Lemma add_components_snoc tab l (e : str * Component) m :
  add_components tab (l ++ [e]) m = add_component tab (add_components tab l m) e.
Proof. unfold add_components. rewrite fold_left_app. reflexivity. Qed.

(** A field that is not in the dictionary leaves its composed id alone. *)
Lemma add_components_id_other tab (l : list (str * Component)) m i :
  (forall e, e ∈ l -> compose_id tab e.1 ≠ i) ->
  id_to_component (add_components tab l m) !! i = id_to_component m !! i.
Proof.
  revert m. induction l as [|e l IH]; intros m Hne; [reflexivity|].
  change (add_components tab (e :: l) m) with (add_components tab l (add_component tab m e)).
  rewrite IH.
  - rewrite add_component_id. destruct (decide _) as [Heq|]; [|reflexivity].
    exfalso. apply (Hne e); [left | exact Heq].
  - intros e' He'. apply Hne. right. exact He'.
Qed.

Lemma add_components_comp_other tab (l : list (str * Component)) m c :
  (forall e, e ∈ l -> e.2 ≠ c) ->
  component_to_id (add_components tab l m) !! c = component_to_id m !! c.
Proof.
  revert m. induction l as [|e l IH]; intros m Hne; [reflexivity|].
  change (add_components tab (e :: l) m) with (add_components tab l (add_component tab m e)).
  rewrite IH.
  - rewrite add_component_comp. destruct (decide _) as [Heq|]; [|reflexivity].
    exfalso. apply (Hne e); [left | exact Heq].
  - intros e' He'. apply Hne. right. exact He'.
Qed.

Lemma add_component_inverses tab m (e : str * Component) :
  mutual_inverses m ->
  id_to_component m !! compose_id tab e.1 = None ->
  component_to_id m !! e.2 = None ->
  mutual_inverses (add_component tab m e).
Proof.
  intros Hinv Hid Hc i c.
  rewrite add_component_id, add_component_comp.
  destruct (decide (compose_id tab e.1 = i)) as [<-|Hi];
    destruct (decide (e.2 = c)) as [<-|Hcc].
  - split; reflexivity.
  - split; [congruence|]. intros H. apply Hinv in H. congruence.
  - split; [|congruence]. intros H. apply Hinv in H. congruence.
  - apply Hinv.
Qed.

Lemma add_components_inverses tab (l : list (str * Component)) m :
  NoDup (map (fun e => compose_id tab e.1) l) ->
  NoDup (map snd l) ->
  mutual_inverses m ->
  (forall e, e ∈ l -> id_to_component m !! compose_id tab e.1 = None) ->
  (forall e, e ∈ l -> component_to_id m !! e.2 = None) ->
  mutual_inverses (add_components tab l m).
Proof.
  revert m. induction l as [|e l IH]; intros m Hids Hcs Hinv Hfid Hfc; [exact Hinv|].
  change (add_components tab (e :: l) m) with (add_components tab l (add_component tab m e)).
  simpl in Hids, Hcs. apply NoDup_cons in Hids as [Hid1 Hids].
  apply NoDup_cons in Hcs as [Hc1 Hcs].
  apply IH; [exact Hids | exact Hcs | | |].
  - apply add_component_inverses; [exact Hinv | |]; [apply Hfid | apply Hfc]; left.
  - intros e' He'. rewrite add_component_id.
    destruct (decide _) as [Heq|]; [|apply Hfid; right; exact He'].
    exfalso. apply Hid1. rewrite Heq.
    apply (list_elem_of_fmap_2 (fun e => compose_id tab e.1)). exact He'.
  - intros e' He'. rewrite add_component_comp.
    destruct (decide _) as [Heq|]; [|apply Hfc; right; exact He'].
    exfalso. apply Hc1. rewrite Heq. apply (list_elem_of_fmap_2 snd). exact He'.
Qed.

(** Keys of the maps after a call are old keys or keys of the call. *)
Lemma add_components_id_dom tab (l : list (str * Component)) m i :
  is_Some (id_to_component (add_components tab l m) !! i) ->
  is_Some (id_to_component m !! i) \/ i ∈ map (fun e => compose_id tab e.1) l.
Proof.
  revert m. induction l as [|e l IH]; intros m H; [left; exact H|].
  change (add_components tab (e :: l) m) with (add_components tab l (add_component tab m e)) in H.
  apply IH in H as [H|H].
  - rewrite add_component_id in H. destruct (decide _) as [Heq|].
    + right. simpl. rewrite Heq. left.
    + left. exact H.
  - right. simpl. right. exact H.
Qed.

Lemma add_components_comp_dom tab (l : list (str * Component)) m c :
  is_Some (component_to_id (add_components tab l m) !! c) ->
  is_Some (component_to_id m !! c) \/ c ∈ map snd l.
Proof.
  revert m. induction l as [|e l IH]; intros m H; [left; exact H|].
  change (add_components tab (e :: l) m) with (add_components tab l (add_component tab m e)) in H.
  apply IH in H as [H|H].
  - rewrite add_component_comp in H. destruct (decide _) as [Heq|].
    + right. simpl. rewrite Heq. left.
    + left. exact H.
  - right. simpl. right. exact H.
Qed.

Lemma not_some_none {A} (o : option A) : ~ is_Some o -> o = None.
Proof. destruct o; [intros H; exfalso; apply H; eauto | reflexivity]. Qed.

Lemma register_all_inverses (calls : list (str * list (str * Component))) m :
  NoDup (registered_ids calls) ->
  NoDup (registered_components calls) ->
  mutual_inverses m ->
  (forall i, i ∈ registered_ids calls -> id_to_component m !! i = None) ->
  (forall c, c ∈ registered_components calls -> component_to_id m !! c = None) ->
  mutual_inverses (register_all calls m).
Proof.
  revert m. induction calls as [|[tab l] calls IH]; intros m Hids Hcs Hinv Hfid Hfc;
    [exact Hinv|].
  change (register_all ((tab, l) :: calls) m)
    with (register_all calls (add_components tab l m)).
  unfold registered_ids, registered_components in Hids, Hcs, Hfid, Hfc.
  simpl in Hids, Hcs, Hfid, Hfc.
  apply NoDup_app in Hids as (Hids1 & Hids2 & Hids3).
  apply NoDup_app in Hcs as (Hcs1 & Hcs2 & Hcs3).
  apply IH; [exact Hids3 | exact Hcs3 | | |].
  - apply add_components_inverses; [exact Hids1 | exact Hcs1 | exact Hinv | |].
    + intros e He. apply Hfid. apply elem_of_app. left.
      apply (list_elem_of_fmap_2 (fun e => compose_id tab e.1)). exact He.
    + intros e He. apply Hfc. apply elem_of_app. left.
      apply (list_elem_of_fmap_2 snd). exact He.
  - intros i Hi. apply not_some_none. intros Hsome.
    apply add_components_id_dom in Hsome as [Hsome|Hin].
    + rewrite Hfid in Hsome; [destruct Hsome; discriminate|].
      apply elem_of_app. right. exact Hi.
    + exact (Hids2 i Hin Hi).
  - intros c Hc. apply not_some_none. intros Hsome.
    apply add_components_comp_dom in Hsome as [Hsome|Hin].
    + rewrite Hfc in Hsome; [destruct Hsome; discriminate|].
      apply elem_of_app. right. exact Hc.
    + exact (Hcs2 c Hin Hc).
Qed.

End RegistryFacts.

(** C7, as stated, fails: registering the composed id ["tab.field"] a second
    time does not fail; the call returns and the entry of the id, which was
    component 1, is component 2 afterwards. *)
Lemma add_components_replaces_existing :
  let m1 := add_components "tab" [("field", 1%positive)] new_manager in
  let m2 := add_components "tab" [("field", 2%positive)] m1 in
  get_component_by_id m1 "tab.field" = Some 1%positive
  /\ get_component_by_id m2 "tab.field" = Some 2%positive.
Proof. split; vm_compute; reflexivity. Qed.

(** C7, amended: registering a tab's components (a dictionary, so with
    distinct field names, here of distinct components) stores each composed
    id "<tab>.<field>" with its handle and the inverse entry, whatever the
    registry held before: an existing entry of the id is replaced and nothing
    is raised. *)
Theorem add_components_stores tab (components_dict : list (str * Component))
    (m : WebuiManager) name (c : Component) :
  NoDup (map fst components_dict) ->
  NoDup (map snd components_dict) ->
  (name, c) ∈ components_dict ->
  get_component_by_id (add_components tab components_dict m) (compose_id tab name) = Some c
  /\ get_id_by_component (add_components tab components_dict m) c = inr (compose_id tab name).
Proof.
  unfold get_component_by_id, get_id_by_component.
  revert m. induction components_dict as [|e l IH]; intros m Hn Hc Hin.
  - inversion Hin.
  - change (add_components tab (e :: l) m) with (add_components tab l (add_component tab m e)).
    simpl in Hn, Hc. apply NoDup_cons in Hn as [Hn1 Hn]. apply NoDup_cons in Hc as [Hc1 Hc].
    apply elem_of_cons in Hin as [<-|Hin].
    + rewrite add_components_id_other, add_components_comp_other.
      * rewrite add_component_id, add_component_comp. simpl.
        rewrite !decide_True by reflexivity. split; reflexivity.
      * intros e' He' Heq. apply Hc1. simpl. rewrite <- Heq.
        apply (list_elem_of_fmap_2 snd). exact He'.
      * intros e' He' Heq. apply Hn1. simpl. apply compose_id_inj in Heq. rewrite <- Heq.
        apply (list_elem_of_fmap_2 fst). exact He'.
    + apply IH; assumption.
Qed.

Lemma add_components_stores_witness :
  get_component_by_id
    (add_components "tab" [("field", 2%positive)]
       (add_components "tab" [("field", 1%positive)] new_manager))
    (compose_id "tab" "field") = Some 2%positive
  /\ get_id_by_component
       (add_components "tab" [("field", 2%positive)]
          (add_components "tab" [("field", 1%positive)] new_manager))
       2%positive = inr (compose_id "tab" "field").
Proof.
  apply (add_components_stores "tab" [("field", 2%positive)]).
  - simpl. apply NoDup_singleton.
  - simpl. apply NoDup_singleton.
  - apply list_elem_of_singleton. reflexivity.
Defined.

(** C8, as stated, fails: after the id ["tab.field"] was registered for
    component 1 and then for component 2, [reverse] of component 1 is still
    the id, and [resolve] of that id is component 2: both sides are defined
    and resolve(reverse(1)) is not 1. *)
Lemma registry_not_inverse_after_reuse :
  let m := register_all [("tab", [("field", 1%positive)]); ("tab", [("field", 2%positive)])]
             new_manager in
  get_id_by_component m 1%positive = inr "tab.field"
  /\ get_component_by_id m "tab.field" = Some 2%positive.
Proof. split; vm_compute; reflexivity. Qed.

(** C8, amended: after any sequence of register operations on a fresh
    registry in which no composed id and no component is registered twice,
    the two maps are mutual inverses: resolve(id) is the component exactly
    when reverse(component) is the id. *)
Theorem registry_inverse_law (calls : list (str * list (str * Component)))
    (i : str) (c : Component) :
  NoDup (registered_ids calls) ->
  NoDup (registered_components calls) ->
  get_component_by_id (register_all calls new_manager) i = Some c
  <-> get_id_by_component (register_all calls new_manager) c = inr i.
Proof.
  intros Hids Hcs.
  assert (Hinv : mutual_inverses (register_all calls new_manager)).
  { apply register_all_inverses; [exact Hids | exact Hcs | | |].
    - intros i' c'. simpl. rewrite !lookup_empty. split; discriminate.
    - intros. apply lookup_empty.
    - intros. apply lookup_empty. }
  unfold get_component_by_id, get_id_by_component.
  specialize (Hinv i c). rewrite Hinv.
  destruct (component_to_id (register_all calls new_manager) !! c).
  - split; intros H; inversion H; reflexivity.
  - split; discriminate.
Qed.

Lemma registry_inverse_law_witness :
  get_component_by_id
    (register_all [("vayner_client_research", [("run_button", 3%positive); ("stop_button", 4%positive)]);
                   ("documentation", [("doc_tabs", 8%positive)])] new_manager)
    "vayner_client_research.stop_button" = Some 4%positive
  <-> get_id_by_component
        (register_all [("vayner_client_research", [("run_button", 3%positive); ("stop_button", 4%positive)]);
                       ("documentation", [("doc_tabs", 8%positive)])] new_manager)
        4%positive = inr "vayner_client_research.stop_button".
Proof.
  apply (registry_inverse_law
           [("vayner_client_research", [("run_button", 3%positive); ("stop_button", 4%positive)]);
            ("documentation", [("doc_tabs", 8%positive)])]).
  - apply (bool_decide_unpack _). vm_compute. exact I.
  - apply (bool_decide_unpack _). vm_compute. exact I.
Defined.

(** ** Update queue *)

Ltac fields :=
  cbn [id_to_component component_to_id vayner_chat_history vayner_pdf_report
       vayner_agent vayner_current_task vayner_screenshots vayner_business_info
       vayner_keyword_data vayner_ranking_data vayner_current_business
       vayner_keyword_table_rows update_queue
       set_id_to_component set_component_to_id set_chat_history set_pdf_report
       set_agent set_current_task set_screenshots set_business_info
       set_keyword_data set_ranking_data set_current_business
       set_keyword_table_rows set_update_queue manager loop_tasks fst snd] in *.

Lemma drain_all (queue popped : list ui_dict) (update : ui_dict) :
  drain queue popped update = ([], popped ++ queue, fold_left dict_update queue update).
Proof.
  revert popped update. induction queue as [|x queue IH]; intros popped update; simpl.
  - rewrite app_nil_r. reflexivity.
  - rewrite IH, <- app_assoc. reflexivity.
Qed.

Lemma pushes_append (fragments queue : list ui_dict) :
  fold_left (fun q fragment => push fragment q) fragments queue = queue ++ fragments.
Proof.
  revert queue. induction fragments as [|x fragments IH]; intros queue; simpl.
  - rewrite app_nil_r. reflexivity.
  - rewrite IH. unfold push. rewrite <- app_assoc. reflexivity.
Qed.

(** C6: whatever fragments are pushed on the update queue, the drain loop of
    [handle_submit] takes out everything queued in the order of the pushes,
    merges it in that order into the update it relays and leaves the queue
    empty; a drain that follows at once, and any drain of an empty queue,
    takes out nothing and returns. The same holds for the queue of the
    manager when [handle_submit] relays an update. *)
Theorem update_queue_fifo (queue0 fragments : list ui_dict) (update update' : ui_dict)
    (m : WebuiManager) :
  let queue := fold_left (fun q fragment => push fragment q) fragments queue0 in
  let first := drain queue [] update in
  first = ([], queue0 ++ fragments, fold_left dict_update (queue0 ++ fragments) update)
  /\ drain first.1.1 [] update' = ([], [], update')
  /\ drain [] [] update = ([], [], update)
  /\ update_queue (relay m update).1 = []
  /\ (relay m update).2 = fold_left dict_update (update_queue m) update
  /\ (relay (relay m update).1 update').2 = update'.
Proof.
  cbv zeta. rewrite pushes_append, drain_all. simpl.
  unfold relay. rewrite !drain_all. fields.
  repeat split; reflexivity.
Qed.

(** ** Task lifecycle *)

(** Under the inverse law a component has one id. *)
Lemma inverse_distinct (m : WebuiManager) (i1 i2 : str) (c : Component) :
  mutual_inverses m ->
  id_to_component m !! i1 = Some c ->
  id_to_component m !! i2 = Some c ->
  i1 = i2.
Proof. intros Hinv H1 H2. apply Hinv in H1. apply Hinv in H2. congruence. Qed.


Lemma same_session_trans m1 m2 m3 :
  same_session m1 m2 -> same_session m2 m3 -> same_session m1 m3.
Proof.
  intros (a1 & a2 & a3 & a4) (b1 & b2 & b3 & b4).
  repeat split; congruence.
Qed.




Section Lifecycle.

Variable py_repr : py_value -> str.

Variable format_step_log : browser_state -> list action -> Z -> str.






End Lifecycle.


(** ** The step callback and the report *)

Ltac frame :=
  repeat case_match; fields; repeat split; reflexivity.

Lemma collect_thought_frame m a :
  same_session m (collect_thought m a) /\ same_report m (collect_thought m a).
Proof. unfold collect_thought, same_session, same_report. frame. Qed.

Lemma collect_result_frame m a :
  same_session m (collect_result m a) /\ same_report m (collect_result m a).
Proof. unfold collect_result, same_session, same_report. frame. Qed.

Lemma collect_url_frame m state :
  same_session m (collect_url m state) /\ same_report m (collect_url m state).
Proof. unfold collect_url, same_session, same_report. frame. Qed.

Lemma collect_text_content_frame m state :
  same_session m (collect_text_content m state)
  /\ same_report m (collect_text_content m state).
Proof. unfold collect_text_content, same_session, same_report. frame. Qed.

Lemma collect_screenshot_frame m state :
  same_session m (collect_screenshot m state)
  /\ same_report m (collect_screenshot m state).
Proof. unfold collect_screenshot, same_session, same_report. frame. Qed.

Lemma same_report_trans m1 m2 m3 :
  same_report m1 m2 -> same_report m2 m3 -> same_report m1 m3.
Proof. intros (a1 & a2) (b1 & b2). split; congruence. Qed.

Lemma frame_trans m1 m2 m3 :
  same_session m1 m2 /\ same_report m1 m2 ->
  same_session m2 m3 /\ same_report m2 m3 ->
  same_session m1 m3 /\ same_report m1 m3.
Proof.
  intros [A B] [C D]. split;
    [eapply same_session_trans | eapply same_report_trans]; eassumption.
Qed.

Lemma collect_actions_frame actions m :
  let m' := fold_left (fun m a => collect_result (collect_thought m a) a) actions m in
  same_session m m' /\ same_report m m'.
Proof.
  revert m. induction actions as [|a actions IH]; intros m; simpl.
  - split; repeat split.
  - eapply frame_trans; [|apply IH].
    eapply frame_trans; [apply collect_thought_frame | apply collect_result_frame].
Qed.

Lemma aggregate_step_frame m state actions :
  same_session m (aggregate_step m state actions)
  /\ same_report m (aggregate_step m state actions).
Proof.
  unfold aggregate_step.
  eapply frame_trans; [apply collect_actions_frame|].
  eapply frame_trans; [apply collect_url_frame|].
  eapply frame_trans; [apply collect_text_content_frame|].
  split; repeat split.
Qed.

(** The name [history] is not bound where the body of [step_callback] runs. *)
Lemma history_unbound :
  eval_final_result step_callback_scope "history" = inl (NameError "history").
Proof. vm_compute. reflexivity. Qed.

Section StepCallback.

Variable py_repr : py_value -> str.

Variable format_step_log : browser_state -> list action -> Z -> str.

(** What a step callback does to the report, the queue and the rows. *)
Lemma step_callback_effect (m : WebuiManager) (state : browser_state)
    (actions : list action) (step_num : Z) :
  let r := step_callback py_repr format_step_log m state actions step_num in
  r.2 = Some (NameError "history")
  /\ update_queue r.1 = update_queue m
  /\ vayner_pdf_report r.1 = vayner_pdf_report m
  /\ vayner_keyword_table_rows r.1
     = fold_left extract_rows_of_action actions (vayner_keyword_table_rows m).
Proof.
  cbv zeta. unfold step_callback, step_callback_in, refresh_report.
  rewrite history_unbound. fields.
  pose proof (collect_screenshot_frame m state) as [_ [Q1 P1]].
  pose proof (aggregate_step_frame (collect_screenshot m state) state actions) as [_ [Q2 P2]].
  repeat split; [congruence | congruence |].
  unfold aggregate_step. fields.
  assert (Hrows : forall m0 (f : WebuiManager -> WebuiManager),
             (forall x, vayner_keyword_table_rows (f x) = vayner_keyword_table_rows x) ->
             vayner_keyword_table_rows (f m0) = vayner_keyword_table_rows m0)
    by (intros; auto).
  assert (Ha : forall acts m0,
             vayner_keyword_table_rows
               (fold_left (fun m a => collect_result (collect_thought m a) a) acts m0)
             = vayner_keyword_table_rows m0).
  { induction acts as [|a acts IH]; intros m0; simpl; [reflexivity|].
    rewrite IH. unfold collect_result, collect_thought. frame. }
  f_equal. unfold collect_text_content, collect_url.
  transitivity (vayner_keyword_table_rows
                  (fold_left (fun m a => collect_result (collect_thought m a) a) actions
                     (collect_screenshot m state))).
  - frame.
  - rewrite Ha. unfold collect_screenshot. frame.
Qed.

(** C2 (the code at every input): a step callback files the facts of the
    step, but the evaluation of [history.final_result()] raises [NameError]
    before [generate_live_report] is called; the error is logged, the report
    of the manager stays what it was and nothing is put on the update
    queue. *)
Theorem step_callback_never_refreshes (m : WebuiManager) (state : browser_state)
    (actions : list action) (step_num : Z) :
  let r := step_callback py_repr format_step_log m state actions step_num in
  r.2 = Some (NameError "history")
  /\ update_queue r.1 = update_queue m
  /\ vayner_pdf_report r.1 = vayner_pdf_report m
  /\ vayner_keyword_table_rows r.1
     = fold_left extract_rows_of_action actions (vayner_keyword_table_rows m).
Proof. exact (step_callback_effect m state actions step_num). Qed.

(** What the callback would do if [history] denoted the agent's history: with
    the report slot registered it stores the regenerated report and queues
    one fragment for the slot. *)
Lemma step_callback_with_history (sc : scope) (m : WebuiManager) (state : browser_state)
    (actions : list action) (step_num : Z) (final_result : py_value) (c : Component) :
  scope_lookup "history" sc = Some (HistoryObject final_result) ->
  get_component_by_id m pdf_report_id = Some c ->
  let m1 := aggregate_step (collect_screenshot m state) state actions in
  let report :=
    generate_live_report py_repr (vayner_current_business m1)
      (vayner_business_info m1) (vayner_keyword_data m1) (vayner_ranking_data m1)
      (vayner_screenshots m1) (Some (vayner_keyword_table_rows m1)) final_result in
  let r := step_callback_in py_repr format_step_log sc m state actions step_num in
  r.2 = None
  /\ vayner_pdf_report r.1 = Some report
  /\ update_queue r.1 = update_queue m ++ [report_fragment c report].
Proof.
  intros Hh Hc. cbv zeta.
  unfold step_callback_in, refresh_report, eval_final_result. rewrite Hh.
  pose proof (collect_screenshot_frame m state) as [(S1 & _) [Q1 P1]].
  pose proof (aggregate_step_frame (collect_screenshot m state) state actions)
    as [(S2 & _) [Q2 P2]].
  unfold get_component_by_id in *. fields.
  rewrite S2, S1, Hc. fields. unfold push.
  repeat split. congruence.
Qed.

End StepCallback.

(** ** Cancellation *)




Section Cancellation.

Variable py_repr : py_value -> str.

Variable format_step_log : browser_state -> list action -> Z -> str.



Lemma swallowed_always (e : exn) : swallowed_by_wait e = true.
Proof. destruct e; reflexivity. Qed.


Lemma cancel_task_manager t w : manager (cancel_task t w) = manager w.
Proof. unfold cancel_task. destruct (loop_tasks w !! t); reflexivity. Qed.

(** The wait never lets an exception out: the handler goes on when it ends
    and is blocked when it does not. *)
Lemma wait_cancelled_result env t w :
  (wait_cancelled env t w).2
  = match env_wait env with
    | WaitEnds _ => None
    | WaitNeverEnds => Some Blocked
    end
  /\ manager (wait_cancelled env t w).1 = manager w
  /\ loop_tasks (wait_cancelled env t w).1
     = match env_wait env with
       | WaitEnds how => <[t := task_after_wait how]> (loop_tasks w)
       | WaitNeverEnds => loop_tasks w
       end.
Proof.
  unfold wait_cancelled. destruct (env_wait env) as [[|e]|]; try (repeat split; reflexivity).
  rewrite swallowed_always. repeat split; reflexivity.
Qed.

Lemma logged_by_clear_wait env t w :
  logged_by_clear (wait_cancelled env t w) = wait_cancelled env t w.
Proof.
  unfold wait_cancelled. destruct (env_wait env) as [[|e]|]; try reflexivity.
  rewrite swallowed_always. reflexivity.
Qed.

(** [handle_stop] changes the agent of the manager at most. *)
Lemma handle_stop_manager env w :
  manager (handle_stop env w).1 = manager w
  \/ exists agent agent',
       vayner_agent (manager w) = Some agent
       /\ manager (handle_stop env w).1 = set_agent (Some agent') (manager w).
Proof.
  unfold handle_stop.
  destruct (vayner_agent (manager w)) as [agent|] eqn:Ea; [|left; reflexivity].
  destruct (vayner_current_task (manager w)) as [task|] eqn:Et; [|left; reflexivity].
  destruct (negb (done w task)); [|left; reflexivity].
  right. exists agent, (request_stop env agent). split; [reflexivity|].
  match goal with
  | |- context [wait_cancelled env task ?w0] =>
      destruct (wait_cancelled_result env task w0) as (_ & Hm & _);
      destruct (wait_cancelled env task w0) as [w1 [stopped|]]
  end; cbn [fst snd] in *; rewrite Hm, cancel_task_manager; reflexivity.
Qed.

(** So does the stop sequence of [handle_clear]. *)
Lemma clear_task_manager env w :
  manager (clear_task env w).1 = manager w
  \/ exists agent agent',
       vayner_agent (manager w) = Some agent
       /\ manager (clear_task env w).1 = set_agent (Some agent') (manager w).
Proof.
  unfold clear_task.
  destruct (vayner_current_task (manager w)) as [task|] eqn:Et; [|left; reflexivity].
  destruct (negb (done w task)); [|left; reflexivity].
  destruct (vayner_agent (manager w)) as [agent|] eqn:Ea.
  - destruct (agent_has_stop agent).
    + destruct (env_agent_stop env agent) as [agent'|]; [|left; reflexivity].
      right. exists agent, agent'. split; [reflexivity|].
      rewrite logged_by_clear_wait.
      match goal with
      | |- context [wait_cancelled env task ?w0] =>
          destruct (wait_cancelled_result env task w0) as (_ & Hm & _)
      end.
      rewrite Hm, cancel_task_manager. reflexivity.
    + right. eexists agent, _. split; [reflexivity|].
      rewrite logged_by_clear_wait.
      match goal with
      | |- context [wait_cancelled env task ?w0] =>
          destruct (wait_cancelled_result env task w0) as (_ & Hm & _)
      end.
      rewrite Hm, cancel_task_manager. reflexivity.
  - left. rewrite logged_by_clear_wait.
    match goal with
    | |- context [wait_cancelled env task ?w0] =>
        destruct (wait_cancelled_result env task w0) as (_ & Hm & _)
    end.
    rewrite Hm, cancel_task_manager. reflexivity.
Qed.








End Cancellation.

(** ** Keyword rows *)

Lemma grows_refl rows : grows rows rows.
Proof. split; [tauto | reflexivity]. Qed.

Lemma grows_trans rows1 rows2 rows3 :
  grows rows1 rows2 -> grows rows2 rows3 -> grows rows1 rows3.
Proof. intros [U1 P1] [U2 P2]. split; [tauto | etrans; eassumption]. Qed.

Lemma fold_left_grows {A} (f : list KeywordRow -> A -> list KeywordRow) :
  (forall rows a, grows rows (f rows a)) ->
  forall l rows, grows rows (fold_left f l rows).
Proof.
  intros Hf l. induction l as [|a l IH]; intros rows; simpl.
  - apply grows_refl.
  - eapply grows_trans; [apply Hf | apply IH].
Qed.

Lemma existsb_eqb_false {A} (f : A -> str) (x : str) (l : list A) :
  existsb (fun a => PyStr.eqb (f a) x) l = false -> x ∉ map f l.
Proof.
  induction l as [|a l IH]; simpl; intros H Hin.
  - inversion Hin.
  - apply orb_false_iff in H as [Ha Hl].
    apply elem_of_cons in Hin as [->|Hin].
    + rewrite str_eqb_refl in Ha. discriminate.
    + exact (IH Hl Hin).
Qed.

(** The rule of lines 679, 845, 858 and 871. *)
Lemma add_keyword_row_grows rows kw perf sv :
  grows rows (add_keyword_row rows kw perf sv).
Proof.
  unfold add_keyword_row.
  destruct (existsb _ rows) eqn:E; [apply grows_refl|].
  split.
  - unfold unique_keywords. intros Hu. rewrite map_app. simpl.
    apply NoDup_app. split; [exact Hu|]. split; [|apply NoDup_singleton].
    intros x Hx Hx'. apply list_elem_of_singleton in Hx'. subst x.
    exact (existsb_eqb_false (fun row => PyStr.lower (keyword row)) _ _ E Hx).
  - exists [mkRow kw perf sv]. reflexivity.
Qed.

Lemma extract_row_grows rows text : grows rows (extract_row rows text).
Proof.
  unfold extract_row. repeat case_match; try apply grows_refl.
  apply add_keyword_row_grows.
Qed.

Lemma extract_rows_of_action_grows rows a :
  grows rows (extract_rows_of_action rows a).
Proof.
  unfold extract_rows_of_action. apply fold_left_grows.
  intros rows' field. repeat case_match; try apply grows_refl. apply extract_row_grows.
Qed.

Lemma table_row_grows rows row : grows rows (table_row rows row).
Proof.
  unfold table_row. repeat case_match; try apply grows_refl.
  apply add_keyword_row_grows.
Qed.

Lemma table_pass_grows rows lines : grows rows (table_pass rows lines).
Proof.
  unfold table_pass. repeat case_match; try apply grows_refl.
  apply fold_left_grows. apply table_row_grows.
Qed.

Lemma list_item_row_grows rows item : grows rows (list_item_row rows item).
Proof.
  unfold list_item_row. repeat case_match; try apply grows_refl.
  apply add_keyword_row_grows.
Qed.

Lemma final_result_rows_grows rows final_result :
  grows rows (final_result_rows rows final_result).
Proof.
  unfold final_result_rows. repeat case_match; try apply grows_refl.
  - eapply grows_trans; [apply table_pass_grows|].
    apply fold_left_grows. apply extract_row_grows.
  - apply fold_left_grows. apply list_item_row_grows.
Qed.

Lemma add_components_rows tab l m :
  vayner_keyword_table_rows (add_components tab l m) = vayner_keyword_table_rows m.
Proof.
  revert m. induction l as [|e l IH]; intros m; [reflexivity|].
  change (add_components tab (e :: l) m) with (add_components tab l (add_component tab m e)).
  rewrite IH. reflexivity.
Qed.

Lemma register_all_rows calls m :
  vayner_keyword_table_rows (register_all calls m) = vayner_keyword_table_rows m.
Proof.
  revert m. induction calls as [|c calls IH]; intros m; [reflexivity|].
  change (register_all (c :: calls) m) with (register_all calls (add_components c.1 c.2 m)).
  rewrite IH. apply add_components_rows.
Qed.

Lemma relay_all_rows updates m :
  vayner_keyword_table_rows (relay_all m updates).1 = vayner_keyword_table_rows m.
Proof.
  unfold relay_all.
  assert (H : forall (acc : WebuiManager * list ui_dict),
             vayner_keyword_table_rows
               (fold_left
                  (fun (acc : WebuiManager * list ui_dict) update =>
                     let '(m, out) := relay acc.1 update in (m, acc.2 ++ [out]))
                  updates acc).1
             = vayner_keyword_table_rows acc.1).
  { induction updates as [|u updates IH]; intros acc; simpl; [reflexivity|].
    rewrite IH. unfold relay. rewrite drain_all. reflexivity. }
  apply (H (m, [])).
Qed.

Lemma run_vayner_research_rows env w business_name :
  vayner_keyword_table_rows (manager (run_vayner_research env w business_name).1.1)
  = vayner_keyword_table_rows (manager w).
Proof.
  unfold run_vayner_research, announce, report_failure. repeat case_match; reflexivity.
Qed.

Lemma handle_stop_rows env w :
  vayner_keyword_table_rows (manager (handle_stop env w).1)
  = vayner_keyword_table_rows (manager w).
Proof.
  destruct (handle_stop_manager env w) as [->|(agent & agent' & _ & ->)]; reflexivity.
Qed.

Lemma clear_task_rows env w :
  vayner_keyword_table_rows (manager (clear_task env w).1)
  = vayner_keyword_table_rows (manager w).
Proof.
  destruct (clear_task_manager env w) as [->|(agent & agent' & _ & ->)]; reflexivity.
Qed.

Section KeywordRows.

Variable py_repr : py_value -> str.

Variable format_step_log : browser_state -> list action -> Z -> str.

Lemma step_callback_rows m state actions step_num :
  grows (vayner_keyword_table_rows m)
    (vayner_keyword_table_rows (step_callback py_repr format_step_log m state actions step_num).1).
Proof.
  pose proof (step_callback_effect py_repr format_step_log m state actions step_num)
    as (_ & _ & _ & ->).
  apply fold_left_grows. apply extract_rows_of_action_grows.
Qed.

Lemma done_callback_rows m history :
  grows (vayner_keyword_table_rows m)
    (vayner_keyword_table_rows (done_callback py_repr m history)).
Proof. unfold done_callback. fields. apply final_result_rows_grows. Qed.

Lemma handle_submit_rows env w business_name :
  unique_keywords (vayner_keyword_table_rows (manager w)) ->
  unique_keywords
    (vayner_keyword_table_rows (manager (handle_submit py_repr env w business_name).1.1)).
Proof.
  intros H. unfold handle_submit.
  destruct (PyStr.truthy (PyStr.strip business_name)); cbn [negb]; [|exact H].
  match goal with
  | |- context [run_vayner_research env ?w0 ?n] =>
      pose proof (run_vayner_research_rows env w0 n) as Hr;
      destruct (run_vayner_research env w0 n) as [[w' updates] outcome]
  end.
  pose proof (relay_all_rows updates (manager w')) as Hq.
  destruct (relay_all (manager w') updates) as [m' relayed]. fields.
  rewrite Hq, Hr. apply NoDup_nil. exact I.
Qed.

Lemma reachable_unique w :
  reachable py_repr format_step_log w ->
  unique_keywords (vayner_keyword_table_rows (manager w)).
Proof.
  induction 1 as [calls | env w name _ IH | w state actions n _ IH | w history _ IH
                 | w t st _ IH | env w _ IH | env w _ IH].
  - fields. rewrite register_all_rows. apply NoDup_nil. exact I.
  - apply handle_submit_rows. exact IH.
  - fields. apply step_callback_rows. exact IH.
  - fields. apply done_callback_rows. exact IH.
  - exact IH.
  - rewrite handle_stop_rows. exact IH.
  - pose proof (clear_task_rows env w) as Hc. unfold handle_clear.
    destruct (clear_task env w) as [w1 [stopped|]]; cbn [fst snd] in *.
    + rewrite Hc. exact IH.
    + apply NoDup_nil. exact I.
Qed.

(** C5: in every state a session can reach, that is after every step
    callback and after the completion callback, the rows are unique by
    keyword up to case, and both callbacks leave the rows that are already
    there as they are and where they are (the first one seen wins). With no
    row yet, a step that reports Dentist/12/3 followed by a step that reports
    dentist/99/1 leaves the one row Dentist/12/3. *)
Theorem keyword_rows_unique (w : World) :
  reachable py_repr format_step_log w ->
  unique_keywords (vayner_keyword_table_rows (manager w))
  /\ (forall state actions step_num,
        vayner_keyword_table_rows (manager w) `prefix_of`
        vayner_keyword_table_rows
          (step_callback py_repr format_step_log (manager w) state actions step_num).1)
  /\ (forall history,
        vayner_keyword_table_rows (manager w) `prefix_of`
        vayner_keyword_table_rows (done_callback py_repr (manager w) history))
  /\ (forall state1 state2 n1 n2,
        let m0 := set_keyword_table_rows [] (manager w) in
        let m1 := (step_callback py_repr format_step_log m0 state1
                     [mkAction (Some "keyword: Dentist, performance: 12, sov: 3") None] n1).1 in
        let m2 := (step_callback py_repr format_step_log m1 state2
                     [mkAction None (Some "keyword: dentist, performance: 99, sov: 1")] n2).1 in
        vayner_keyword_table_rows m2 = [mkRow "Dentist" "12" "3"])
  /\ add_keyword_row (add_keyword_row [] "Dentist" "12" "3") "dentist" "99" "1"
     = [mkRow "Dentist" "12" "3"].
Proof.
  intros Hreach. split; [apply reachable_unique; exact Hreach|].
  split; [intros; apply step_callback_rows|].
  split; [intros; apply done_callback_rows|].
  split; [|vm_compute; reflexivity].
  intros state1 state2 n1 n2. cbv zeta.
  pose proof (step_callback_effect py_repr format_step_log) as H.
  cbv zeta in H.
  destruct (H (step_callback py_repr format_step_log (set_keyword_table_rows [] (manager w))
                 state1 [mkAction (Some "keyword: Dentist, performance: 12, sov: 3") None] n1).1
              state2 [mkAction None (Some "keyword: dentist, performance: 99, sov: 1")] n2)
    as (_ & _ & _ & ->).
  destruct (H (set_keyword_table_rows [] (manager w))
              state1 [mkAction (Some "keyword: Dentist, performance: 12, sov: 3") None] n1)
    as (_ & _ & _ & ->).
  fields. vm_compute. reflexivity.
Qed.

End KeywordRows.

(** ** The table of the final result *)

Lemma find_index_app {A} (p : A -> bool) (pre : list A) (x : A) (rest : list A) :
  Forall (fun a => p a = false) pre ->
  p x = true ->
  find_index p (pre ++ x :: rest) = Some (length pre).
Proof.
  intros Hpre Hx. induction Hpre as [|a pre Ha _ IH]; simpl.
  - rewrite Hx. reflexivity.
  - rewrite Ha, IH. reflexivity.
Qed.

Lemma skipn_header {A} (pre : list A) (header x : A) (data : list A) :
  skipn (length pre + 2) (pre ++ header :: x :: data) = data.
Proof. induction pre as [|a pre IH]; simpl; [reflexivity | exact IH]. Qed.

(** C4, as stated, fails: in a table without separator row the data row that
    follows the header yields no candidate. Of the two rows of the first table
    only the second arrives; with a separator row both do; a table of a header
    and one data row yields nothing. *)
Lemma table_without_separator_loses_first_row :
  final_result_rows []
    (PyStr ("| Keyword | Performance | SOV |" +:+ PyStr.nl
            +:+ "| a | 10 | 2 |" +:+ PyStr.nl
            +:+ "| b | 20 | 4 |"))
  = [mkRow "b" "20" "4"]
  /\ final_result_rows []
       (PyStr ("| Keyword | Performance | SOV |" +:+ PyStr.nl
               +:+ "|---|---|---|" +:+ PyStr.nl
               +:+ "| a | 10 | 2 |" +:+ PyStr.nl
               +:+ "| b | 20 | 4 |"))
     = [mkRow "a" "10" "2"; mkRow "b" "20" "4"]
  /\ final_result_rows []
       (PyStr ("| Keyword | Performance | SOV |" +:+ PyStr.nl
               +:+ "| a | 10 | 2 |"))
     = [].
Proof. repeat split; vm_compute; reflexivity. Qed.

(** C4, amended: the table pass finds the first line that matches the header
    pattern and always skips the line right after it, separator row or not:
    the rows are read from the second line after the header on, and a header
    that is the last line yields nothing. Each of these lines that starts with
    a pipe and has three non-empty leading cells is one candidate row for the
    rule of first-seen keywords; any other line is passed over: a line that
    does not start with a pipe, a line with fewer than three cells, and a
    line with an empty cell among the first three leave the rows as they
    are. *)
Theorem table_pass_skips_line_after_header (rows : list KeywordRow)
    (pre : list str) (header x : str) (data : list str) :
  Forall (fun line => is_table_header line = false) pre ->
  is_table_header header = true ->
  table_pass rows (pre ++ header :: x :: data) = fold_left table_row data rows
  /\ table_pass rows (pre ++ [header]) = rows
  /\ (forall rows' row kw perf sv rest,
        PyStr.startswith "|" row = true ->
        map PyStr.strip (PyStr.split PyStr.pipe (PyStr.strip_char PyStr.pipe row)) = kw :: perf :: sv :: rest ->
        PyStr.truthy kw && PyStr.truthy perf && PyStr.truthy sv = true ->
        table_row rows' row = add_keyword_row rows' kw perf sv)
  /\ (forall rows' row,
        PyStr.startswith "|" row = false -> table_row rows' row = rows')
  /\ (forall rows' row,
        length (PyStr.split PyStr.pipe (PyStr.strip_char PyStr.pipe row)) < 3 ->
        table_row rows' row = rows')
  /\ (forall rows' row kw perf sv rest,
        map PyStr.strip (PyStr.split PyStr.pipe (PyStr.strip_char PyStr.pipe row)) = kw :: perf :: sv :: rest ->
        PyStr.truthy kw && PyStr.truthy perf && PyStr.truthy sv = false ->
        table_row rows' row = rows').
Proof.
  intros Hpre Hh. unfold table_pass. rewrite !find_index_app by assumption.
  split; [|split; [|split; [|split; [|split]]]].
  - rewrite skipn_header, length_app. simpl.
    destruct data as [|d data]; simpl.
    + replace (length pre + 2 <? length pre + 2) with false; [reflexivity|].
      symmetry. apply Nat.ltb_ge. lia.
    + replace (length pre + 2 <? length pre + S (S (S (length data)))) with true; [reflexivity|].
      symmetry. apply Nat.ltb_lt. lia.
  - rewrite length_app. simpl.
    replace (length pre + 2 <? length pre + 1) with false; [reflexivity|].
    symmetry. apply Nat.ltb_ge. lia.
  - intros rows' row kw perf sv rest Hs Hc Ht. unfold table_row.
    rewrite Hs, Hc, Ht. reflexivity.
  - intros rows' row Hs. unfold table_row. rewrite Hs. reflexivity.
  - intros rows' row Hlen. unfold table_row.
    destruct (negb (PyStr.startswith "|" row)); [reflexivity|].
    rewrite <- (length_map PyStr.strip) in Hlen.
    destruct (map PyStr.strip (PyStr.split PyStr.pipe (PyStr.strip_char PyStr.pipe row)))
      as [|c1 [|c2 [|c3 cells]]]; try reflexivity.
    simpl in Hlen. lia.
  - intros rows' row kw perf sv rest Hc Ht. unfold table_row.
    rewrite Hc, Ht. destruct (negb (PyStr.startswith "|" row)); reflexivity.
Qed.

Lemma table_pass_skips_line_after_header_witness :
  table_pass [] (["Results:"] ++ "| Keyword | Performance | SOV |" :: "| a | 10 | 2 |" :: ["| b | 20 | 4 |"])
  = fold_left table_row ["| b | 20 | 4 |"] []
  /\ table_pass [] (["Results:"] ++ ["| Keyword | Performance | SOV |"]) = []
  /\ (forall rows' row kw perf sv rest,
        PyStr.startswith "|" row = true ->
        map PyStr.strip (PyStr.split PyStr.pipe (PyStr.strip_char PyStr.pipe row)) = kw :: perf :: sv :: rest ->
        PyStr.truthy kw && PyStr.truthy perf && PyStr.truthy sv = true ->
        table_row rows' row = add_keyword_row rows' kw perf sv)
  /\ (forall rows' row,
        PyStr.startswith "|" row = false -> table_row rows' row = rows')
  /\ (forall rows' row,
        length (PyStr.split PyStr.pipe (PyStr.strip_char PyStr.pipe row)) < 3 ->
        table_row rows' row = rows')
  /\ (forall rows' row kw perf sv rest,
        map PyStr.strip (PyStr.split PyStr.pipe (PyStr.strip_char PyStr.pipe row)) = kw :: perf :: sv :: rest ->
        PyStr.truthy kw && PyStr.truthy perf && PyStr.truthy sv = false ->
        table_row rows' row = rows').
Proof.
  apply (table_pass_skips_line_after_header [] ["Results:"]
           "| Keyword | Performance | SOV |" "| a | 10 | 2 |" ["| b | 20 | 4 |"]).
  - apply Forall_cons. split; [vm_compute; reflexivity | apply Forall_nil; exact I].
  - vm_compute. reflexivity.
Defined.

(** ** Live report *)

Lemma append_assoc (a b c : str) : (a +:+ b) +:+ c = a +:+ (b +:+ c).
Proof. symmetry. apply app_assoc. Qed.

Lemma append_empty_r (a : str) : a +:+ [] = a.
Proof. apply app_nil_r. Qed.

Lemma render_keyword_rows (rows : list KeywordRow) (html : str) :
  fold_left render_keyword_row rows html = html +:+ join (map keyword_row_markup rows).
Proof.
  revert html. induction rows as [|row rows IH]; intros html; simpl.
  - rewrite append_empty_r. reflexivity.
  - rewrite IH.
    change (render_keyword_row html row) with (html +:+ keyword_row_markup row).
    rewrite append_assoc. reflexivity.
Qed.

(** C3, as stated, fails: the report rendered for the rows a/10/2 and b/20/4
    has no row labelled Average; its keyword table is the head, the two rows
    and the closing markup, and no cell holds 15 or 3. *)
Lemma report_has_no_average_row :
  let rows := [mkRow "a" "10" "2"; mkRow "b" "20" "4"] in
  let report :=
    generate_live_report (fun _ => []) "Acme Dental" [] [] [] [] (Some rows) PyNone in
  PyStr.contains "Average" report = false
  /\ render_keyword_table [] rows
     = Markup.keyword_table_open
         +:+ keyword_row_markup (mkRow "a" "10" "2")
         +:+ keyword_row_markup (mkRow "b" "20" "4")
         +:+ Markup.keyword_table_close
  /\ PyStr.contains ">15<" (render_keyword_table [] rows) = false
  /\ PyStr.contains ">3<" (render_keyword_table [] rows) = false.
Proof. repeat split; vm_compute; reflexivity. Qed.

(** C3, amended: [generate_live_report] computes no Average row. When there
    is a keyword row, the keyword table of the report is its fixed head, one
    row of markup per KeywordRow with the three texts as they are, in
    insertion order, and its fixed closing markup; nothing else follows the
    results block. *)
Theorem keyword_table_is_rows_only (py_repr : py_value -> str) (business_name : str)
    (business_info keyword_data ranking_data screenshots : list str)
    (first_row : KeywordRow) (rows : list KeywordRow) (final_result : py_value) :
  generate_live_report py_repr business_name business_info keyword_data ranking_data
    screenshots (Some (first_row :: rows)) final_result
  = render_final_result py_repr (report_pages business_name) final_result
      +:+ Markup.keyword_table_open
      +:+ join (map keyword_row_markup (first_row :: rows))
      +:+ Markup.keyword_table_close
      +:+ "</div></div>".
Proof.
  unfold generate_live_report, render_keyword_table, report_pages.
  rewrite render_keyword_rows. rewrite !append_assoc. reflexivity.
Qed.

(** C10: the report does not depend on the business notes, the keyword notes,
    the ranking notes or the screenshots it is given, and an absent list of
    keyword rows is the empty list; the function is total. *)
Theorem report_ignores_note_collections (py_repr : py_value -> str) (business_name : str)
    (business_info keyword_data ranking_data screenshots : list str)
    (business_info' keyword_data' ranking_data' screenshots' : list str)
    (keyword_table_rows : option (list KeywordRow)) (final_result : py_value) :
  generate_live_report py_repr business_name business_info keyword_data ranking_data
    screenshots keyword_table_rows final_result
  = generate_live_report py_repr business_name business_info' keyword_data' ranking_data'
      screenshots' keyword_table_rows final_result
  /\ generate_live_report py_repr business_name business_info keyword_data ranking_data
       screenshots None final_result
     = generate_live_report py_repr business_name business_info' keyword_data' ranking_data'
         screenshots' (Some []) final_result.
Proof. split; reflexivity. Qed.

(** An Average row only appears when it is among the rows, for instance read
    from the table of the final result; it is shown with the texts it came
    with, whatever the other rows say. *)
Example average_row_is_not_computed :
  final_result_rows []
    (PyStr ("| Keyword | Performance | SOV |" +:+ PyStr.nl
            +:+ "|---|---|---|" +:+ PyStr.nl
            +:+ "| a | 10 | 2 |" +:+ PyStr.nl
            +:+ "| b | 20 | 4 |" +:+ PyStr.nl
            +:+ "| Average | 99 | 7 |"))
  = [mkRow "a" "10" "2"; mkRow "b" "20" "4"; mkRow "Average" "99" "7"].
Proof. vm_compute. reflexivity. Qed.

(** ** A session from start to stop *)

Lemma started_world_reachable :
  reachable (fun _ => []) (fun _ _ _ => []) started_world.
Proof.
  unfold started_world. apply reach_submit.
  apply (reach_init _ _ [("vayner_client_research",
                      [ ("chatbot", 1%positive); ("business_name", 2%positive);
                        ("run_button", 3%positive); ("stop_button", 4%positive);
                        ("clear_button", 5%positive); ("browser_view", 6%positive);
                        ("pdf_report", 7%positive) ])]).
Defined.



Lemma keyword_rows_unique_witness :
  unique_keywords (vayner_keyword_table_rows (manager started_world))
  /\ (forall state actions step_num,
        vayner_keyword_table_rows (manager started_world) `prefix_of`
        vayner_keyword_table_rows
          (step_callback (fun _ => []) (fun _ _ _ => [])
             (manager started_world) state actions step_num).1)
  /\ (forall history,
        vayner_keyword_table_rows (manager started_world) `prefix_of`
        vayner_keyword_table_rows
          (done_callback (fun _ => []) (manager started_world) history))
  /\ (forall state1 state2 n1 n2,
        let m0 := set_keyword_table_rows [] (manager started_world) in
        let m1 := (step_callback (fun _ => []) (fun _ _ _ => []) m0 state1
                     [mkAction (Some "keyword: Dentist, performance: 12, sov: 3") None] n1).1 in
        let m2 := (step_callback (fun _ => []) (fun _ _ _ => []) m1 state2
                     [mkAction None (Some "keyword: dentist, performance: 99, sov: 1")] n2).1 in
        vayner_keyword_table_rows m2 = [mkRow "Dentist" "12" "3"])
  /\ add_keyword_row (add_keyword_row [] "Dentist" "12" "3") "dentist" "99" "1"
     = [mkRow "Dentist" "12" "3"].
Proof.
  apply (keyword_rows_unique (fun _ => []) (fun _ _ _ => []) started_world).
  exact started_world_reachable.
Defined.

(** The scenario of the design document, as the code runs it: after a submit
    of "Acme Dental", a step that reports one keyword row files the row but
    queues nothing, so the next update relayed carries no report; the final
    result, a table with a separator row, adds its two rows, and the report
    made on completion lists the three rows and no Average row. *)
Example acme_dental_scenario :
  let py_repr := fun _ : py_value => [] in
  let m0 := manager started_world in
  let m1 := (step_callback py_repr (fun _ _ _ => []) m0
               (mkBrowserState None None None)
               [mkAction (Some "keyword: Teeth Whitening, performance: 88, sov: 2") None] 1%Z).1 in
  let table := "| Keyword | Performance | SOV |" +:+ PyStr.nl
               +:+ "|---|---|---|" +:+ PyStr.nl
               +:+ "| a | 10 | 2 |" +:+ PyStr.nl
               +:+ "| b | 20 | 4 |" in
  let m2 := done_callback py_repr m1 (mkHistory (PyStr table) [] "1.00" "[]") in
  vayner_keyword_table_rows m1 = [mkRow "Teeth Whitening" "88" "2"]
  /\ update_queue m1 = []
  /\ vayner_pdf_report m1 = vayner_pdf_report m0
  /\ vayner_keyword_table_rows m2
     = [mkRow "Teeth Whitening" "88" "2"; mkRow "a" "10" "2"; mkRow "b" "20" "4"]
  /\ match vayner_pdf_report m2 with
     | Some report => PyStr.contains "Average" report = false
     | None => False
     end.
Proof. vm_compute. repeat split. Qed.

(** * Further properties of the code *)

(** ** Registration and lookup *)

Lemma add_components_id_in tab (l : list (str * Component)) (m : WebuiManager) (i : str) :
  i ∈ map (fun e => compose_id tab e.1) l ->
  is_Some (id_to_component (add_components tab l m) !! i).
Proof.
  revert m. induction l as [|e l IH]; intros m Hin; [inversion Hin|].
  change (add_components tab (e :: l) m) with (add_components tab l (add_component tab m e)).
  destruct (decide (i ∈ map (fun e => compose_id tab e.1) l)) as [Hl|Hl].
  - apply IH. exact Hl.
  - rewrite add_components_id_other.
    + rewrite add_component_id. simpl in Hin. apply elem_of_cons in Hin as [->|Hin].
      * rewrite decide_True by reflexivity. eexists. reflexivity.
      * contradiction.
    + intros e' He' Heq. apply Hl. rewrite <- Heq.
      apply (list_elem_of_fmap_2 (fun e => compose_id tab e.1)). exact He'.
Qed.

Lemma add_components_comp_in tab (l : list (str * Component)) (m : WebuiManager)
    (c : Component) :
  c ∈ map snd l ->
  is_Some (component_to_id (add_components tab l m) !! c).
Proof.
  revert m. induction l as [|e l IH]; intros m Hin; [inversion Hin|].
  change (add_components tab (e :: l) m) with (add_components tab l (add_component tab m e)).
  destruct (decide (c ∈ map snd l)) as [Hl|Hl].
  - apply IH. exact Hl.
  - rewrite add_components_comp_other.
    + rewrite add_component_comp. simpl in Hin. apply elem_of_cons in Hin as [->|Hin].
      * rewrite decide_True by reflexivity. eexists. reflexivity.
      * contradiction.
    + intros e' He' Heq. apply Hl. rewrite <- Heq. apply (list_elem_of_fmap_2 snd). exact He'.
Qed.

(** X1: [add_components] removes nothing. Every id either keeps the entry it
    had, or is an id of the call and has an entry afterwards; the same holds
    for every component in the inverse map. *)
Theorem add_components_removes_nothing (tab : str) (components_dict : list (str * Component))
    (m : WebuiManager) (i : str) (c : Component) :
  (get_component_by_id (add_components tab components_dict m) i = get_component_by_id m i
   \/ (i ∈ map (fun e => compose_id tab e.1) components_dict
       /\ is_Some (get_component_by_id (add_components tab components_dict m) i)))
  /\ (get_id_by_component (add_components tab components_dict m) c = get_id_by_component m c
      \/ (c ∈ map snd components_dict
          /\ exists comp_id,
               get_id_by_component (add_components tab components_dict m) c = inr comp_id)).
Proof.
  unfold get_component_by_id, get_id_by_component. split.
  - destruct (decide (i ∈ map (fun e => compose_id tab e.1) components_dict)) as [Hin|Hout].
    + right. split; [exact Hin | apply add_components_id_in; exact Hin].
    + left. apply add_components_id_other. intros e He Heq. apply Hout. rewrite <- Heq.
      apply (list_elem_of_fmap_2 (fun e => compose_id tab e.1)). exact He.
  - destruct (decide (c ∈ map snd components_dict)) as [Hin|Hout].
    + right. split; [exact Hin|].
      destruct (add_components_comp_in tab components_dict m c Hin) as [comp_id ->].
      eexists. reflexivity.
    + left. rewrite add_components_comp_other; [reflexivity|].
      intros e He Heq. apply Hout. rewrite <- Heq. apply (list_elem_of_fmap_2 snd). exact He.
Qed.

Lemma add_components_id_mono tab (l : list (str * Component)) (m : WebuiManager) (i : str) :
  is_Some (id_to_component m !! i) ->
  is_Some (id_to_component (add_components tab l m) !! i).
Proof.
  intros H. destruct (decide (i ∈ map (fun e => compose_id tab e.1) l)) as [Hin|Hout].
  - apply add_components_id_in. exact Hin.
  - rewrite add_components_id_other; [exact H|].
    intros e He Heq. apply Hout. rewrite <- Heq.
    apply (list_elem_of_fmap_2 (fun e => compose_id tab e.1)). exact He.
Qed.

Lemma add_components_comp_mono tab (l : list (str * Component)) (m : WebuiManager)
    (c : Component) :
  is_Some (component_to_id m !! c) ->
  is_Some (component_to_id (add_components tab l m) !! c).
Proof.
  intros H. destruct (decide (c ∈ map snd l)) as [Hin|Hout].
  - apply add_components_comp_in. exact Hin.
  - rewrite add_components_comp_other; [exact H|].
    intros e He Heq. apply Hout. rewrite <- Heq. apply (list_elem_of_fmap_2 snd). exact He.
Qed.

Lemma register_all_id_dom calls (m : WebuiManager) (i : str) :
  is_Some (id_to_component (register_all calls m) !! i)
  <-> is_Some (id_to_component m !! i) \/ i ∈ registered_ids calls.
Proof.
  revert m. induction calls as [|[tab l] calls IH]; intros m.
  - unfold registered_ids. simpl. split; [tauto|]. intros [H|H]; [exact H | inversion H].
  - change (register_all ((tab, l) :: calls) m)
      with (register_all calls (add_components tab l m)).
    rewrite IH. unfold registered_ids. simpl. rewrite elem_of_app. split.
    + intros [H|H]; [|tauto].
      apply add_components_id_dom in H. tauto.
    + intros [H|[H|H]]; [left | left | tauto].
      * apply add_components_id_mono. exact H.
      * apply add_components_id_in. exact H.
Qed.

Lemma register_all_comp_dom calls (m : WebuiManager) (c : Component) :
  is_Some (component_to_id (register_all calls m) !! c)
  <-> is_Some (component_to_id m !! c) \/ c ∈ registered_components calls.
Proof.
  revert m. induction calls as [|[tab l] calls IH]; intros m.
  - unfold registered_components. simpl. split; [tauto|].
    intros [H|H]; [exact H | inversion H].
  - change (register_all ((tab, l) :: calls) m)
      with (register_all calls (add_components tab l m)).
    rewrite IH. unfold registered_components. simpl. rewrite elem_of_app. split.
    + intros [H|H]; [|tauto].
      apply add_components_comp_dom in H. tauto.
    + intros [H|[H|H]]; [left | left | tauto].
      * apply add_components_comp_mono. exact H.
      * apply add_components_comp_in. exact H.
Qed.

Lemma register_all_unregistered_id calls (i : str) :
  i ∉ registered_ids calls ->
  id_to_component (register_all calls new_manager) !! i = None.
Proof.
  intros Hout. apply not_some_none. intros Hsome.
  apply register_all_id_dom in Hsome as [Hsome|Hin]; [|contradiction].
  simpl in Hsome. rewrite lookup_empty in Hsome. destruct Hsome. discriminate.
Qed.

(** X2: on a registry filled from scratch, [get_component_by_id] returns
    [None] exactly for the ids no call registered, and [get_id_by_component]
    raises [KeyError] exactly for the components no call registered. *)
Theorem lookups_fail_exactly_when_unregistered
    (calls : list (str * list (str * Component))) (i : str) (c : Component) :
  (get_component_by_id (register_all calls new_manager) i = None
   <-> i ∉ registered_ids calls)
  /\ (get_id_by_component (register_all calls new_manager) c = inl KeyError
      <-> c ∉ registered_components calls).
Proof.
  unfold get_component_by_id, get_id_by_component. split.
  - pose proof (register_all_id_dom calls new_manager i) as H.
    assert (Hempty : ~ is_Some (id_to_component new_manager !! i))
      by (simpl; rewrite lookup_empty; intros [x Hx]; discriminate).
    destruct (id_to_component (register_all calls new_manager) !! i) as [x|].
    + split; [discriminate|]. intros Hn. exfalso.
      destruct H as [H _]. destruct H as [H|H]; [eexists; reflexivity | tauto | tauto].
    + split; [|reflexivity]. intros _ Hin.
      destruct H as [_ H]. destruct H as [x Hx]; [right; exact Hin | discriminate].
  - pose proof (register_all_comp_dom calls new_manager c) as H.
    assert (Hempty : ~ is_Some (component_to_id new_manager !! c))
      by (simpl; rewrite lookup_empty; intros [x Hx]; discriminate).
    destruct (component_to_id (register_all calls new_manager) !! c) as [x|].
    + split; [discriminate|]. intros Hn. exfalso.
      destruct H as [H _]. destruct H as [H|H]; [eexists; reflexivity | tauto | tauto].
    + split; [|reflexivity]. intros _ Hin.
      destruct H as [_ H]. destruct H as [x Hx]; [right; exact Hin | discriminate].
Qed.

(** ** The interface that [create_ui] builds *)

Lemma add_components_id_stored tab (l : list (str * Component)) (m : WebuiManager)
    (name : str) (c : Component) :
  NoDup (map fst l) ->
  (name, c) ∈ l ->
  id_to_component (add_components tab l m) !! compose_id tab name = Some c.
Proof.
  revert m. induction l as [|e l IH]; intros m Hn Hin; [inversion Hin|].
  change (add_components tab (e :: l) m) with (add_components tab l (add_component tab m e)).
  simpl in Hn. apply NoDup_cons in Hn as [Hn1 Hn].
  apply elem_of_cons in Hin as [<-|Hin]; [|apply IH; assumption].
  rewrite add_components_id_other.
  - rewrite add_component_id. simpl. rewrite decide_True by reflexivity. reflexivity.
  - intros e' He' Heq. apply Hn1. simpl. apply compose_id_inj in Heq. rewrite <- Heq.
    apply (list_elem_of_fmap_2 fst). exact He'.
Qed.

Lemma create_ui_calls
    (chatbot business_name run_button stop_button clear_button browser_view pdf_report
     doc_tabs : Component) :
  create_ui chatbot business_name run_button stop_button clear_button browser_view
    pdf_report doc_tabs
  = register_all
      [ ("vayner_client_research",
         [ ("chatbot", chatbot); ("business_name", business_name);
           ("run_button", run_button); ("stop_button", stop_button);
           ("clear_button", clear_button); ("browser_view", browser_view);
           ("pdf_report", pdf_report) ]);
        ("documentation", [("doc_tabs", doc_tabs)]) ]
      new_manager.
Proof. reflexivity. Qed.

(** X3: when the eight components of the interface are distinct objects, the
    registry [create_ui] builds obeys the inverse law, and the ids the
    handlers of the research tab look up resolve to the components of the
    tab. *)
Theorem create_ui_registry
    (chatbot business_name run_button stop_button clear_button browser_view pdf_report
     doc_tabs : Component) :
  NoDup [chatbot; business_name; run_button; stop_button; clear_button; browser_view;
         pdf_report; doc_tabs] ->
  let m := create_ui chatbot business_name run_button stop_button clear_button browser_view
             pdf_report doc_tabs in
  mutual_inverses m
  /\ get_component_by_id m chatbot_id = Some chatbot
  /\ get_component_by_id m run_button_id = Some run_button
  /\ get_component_by_id m stop_button_id = Some stop_button
  /\ get_component_by_id m browser_view_id = Some browser_view
  /\ get_component_by_id m pdf_report_id = Some pdf_report
  /\ get_id_by_component m doc_tabs = inr "documentation.doc_tabs".
Proof.
  intros Hnd. cbv zeta.
  set (tab := [ ("chatbot", chatbot); ("business_name", business_name);
                ("run_button", run_button); ("stop_button", stop_button);
                ("clear_button", clear_button); ("browser_view", browser_view);
                ("pdf_report", pdf_report) ]).
  assert (Hnames : NoDup (map fst tab))
    by (apply (bool_decide_unpack _); vm_compute; exact I).
  split.
  { rewrite create_ui_calls. apply register_all_inverses.
    - apply (bool_decide_unpack _). vm_compute. exact I.
    - exact Hnd.
    - intros i c. simpl. rewrite !lookup_empty. split; discriminate.
    - intros. apply lookup_empty.
    - intros. apply lookup_empty. }
  unfold create_ui, create_documentation_tab, create_vayner_client_research_tab.
  fold tab. unfold get_component_by_id, get_id_by_component.
  assert (Hget : forall name c,
             (name, c) ∈ tab ->
             id_to_component
               (add_components "documentation" [("doc_tabs", doc_tabs)]
                  (add_components "vayner_client_research" tab new_manager))
             !! compose_id "vayner_client_research" name = Some c).
  { intros name c Hin. rewrite add_components_id_other.
    - apply add_components_id_stored; assumption.
    - intros e _ Heq. apply (f_equal (PyStr.take 1)) in Heq. vm_compute in Heq. discriminate. }
  split; [apply (Hget "chatbot"); subst tab; apply list_elem_of_In; simpl; tauto|].
  split; [apply (Hget "run_button"); subst tab; apply list_elem_of_In; simpl; tauto|].
  split; [apply (Hget "stop_button"); subst tab; apply list_elem_of_In; simpl; tauto|].
  split; [apply (Hget "browser_view"); subst tab; apply list_elem_of_In; simpl; tauto|].
  split; [apply (Hget "pdf_report"); subst tab; apply list_elem_of_In; simpl; tauto|].
  change (add_components "documentation" [("doc_tabs", doc_tabs)]
            (add_components "vayner_client_research" tab new_manager))
    with (add_component "documentation"
            (add_components "vayner_client_research" tab new_manager)
            ("doc_tabs", doc_tabs)).
  rewrite add_component_comp. simpl. rewrite decide_True by reflexivity. reflexivity.
Qed.

Lemma create_ui_registry_witness :
  let m := create_ui 1 2 3 4 5 6 7 8 in
  mutual_inverses m
  /\ get_component_by_id m chatbot_id = Some 1%positive
  /\ get_component_by_id m run_button_id = Some 3%positive
  /\ get_component_by_id m stop_button_id = Some 4%positive
  /\ get_component_by_id m browser_view_id = Some 6%positive
  /\ get_component_by_id m pdf_report_id = Some 7%positive
  /\ get_id_by_component m 8%positive = inr "documentation.doc_tabs".
Proof.
  apply (create_ui_registry 1 2 3 4 5 6 7 8).
  apply (bool_decide_unpack _). vm_compute. exact I.
Defined.

(** ** Saved settings *)

Lemma settings_set_in (k v : str) (d : settings) : (k, v) ∈ settings_set k v d.
Proof.
  induction d as [|[k' v'] d IH]; simpl; [left|].
  destruct (PyStr.eqb k' k); [left | right; exact IH].
Qed.

Lemma settings_set_other (k v k' v' : str) (d : settings) :
  (k', v') ∈ d -> k' ≠ k -> (k', v') ∈ settings_set k v d.
Proof.
  intros Hin Hne. induction d as [|[k0 v0] d IH]; simpl; [inversion Hin|].
  apply elem_of_cons in Hin as [Heq|Hin].
  - inversion Heq; subst k0 v0.
    destruct (PyStr.eqb k' k) eqn:E; [apply str_eqb_eq in E; contradiction | left].
  - destruct (PyStr.eqb k0 k); right; [exact Hin | apply IH; exact Hin].
Qed.

Lemma settings_set_from (k v k' v' : str) (d : settings) :
  (k', v') ∈ settings_set k v d -> (k', v') = (k, v) \/ (k', v') ∈ d.
Proof.
  induction d as [|[k0 v0] d IH]; simpl.
  - intros Hin. apply list_elem_of_singleton in Hin. left. exact Hin.
  - destruct (PyStr.eqb k0 k); intros Hin.
    + apply elem_of_cons in Hin as [Hin|Hin]; [left; exact Hin | right; right; exact Hin].
    + apply elem_of_cons in Hin as [Hin|Hin]; [right; rewrite Hin; left|].
      apply IH in Hin as [Hin|Hin]; [left; exact Hin | right; right; exact Hin].
Qed.

Lemma save_loop_error attrs (m : WebuiManager) (components : list (Component * str))
    (cur : settings) (e : exn) :
  save_loop attrs m components cur = inl e ->
  e = KeyError
  /\ exists c v, (c, v) ∈ components /\ saveable (attrs c) = true
                 /\ get_id_by_component m c = inl KeyError.
Proof.
  revert cur. induction components as [|[c v] rest IH]; intros cur H; simpl in H;
    [discriminate|].
  destruct (saveable (attrs c)) eqn:Es.
  - destruct (get_id_by_component m c) as [e'|comp_id] eqn:Eg.
    + unfold get_id_by_component in Eg.
      destruct (component_to_id m !! c) eqn:El; [discriminate|].
      inversion Eg; subst e'. inversion H; subst e. split; [reflexivity|].
      exists c, v. split; [left|]. split; [exact Es|].
      unfold get_id_by_component. rewrite El. reflexivity.
    + apply IH in H as (He & c' & v' & Hin & Hs & Hk). split; [exact He|].
      exists c', v'. split; [right; exact Hin | tauto].
  - apply IH in H as (He & c' & v' & Hin & Hs & Hk). split; [exact He|].
    exists c', v'. split; [right; exact Hin | tauto].
Qed.

Lemma save_loop_unregistered attrs (m : WebuiManager) (components : list (Component * str))
    (cur : settings) (c : Component) (v : str) :
  (c, v) ∈ components ->
  saveable (attrs c) = true ->
  get_id_by_component m c = inl KeyError ->
  save_loop attrs m components cur = inl KeyError.
Proof.
  revert cur. induction components as [|[c' v'] rest IH]; intros cur Hin Hs Hk;
    [inversion Hin|].
  simpl. apply elem_of_cons in Hin as [Heq|Hin].
  - inversion Heq; subst c' v'. rewrite Hs, Hk. reflexivity.
  - destruct (saveable (attrs c')); [|apply IH; assumption].
    destruct (get_id_by_component m c') as [e|comp_id] eqn:Eg; [|apply IH; assumption].
    unfold get_id_by_component in Eg. destruct (component_to_id m !! c'); [discriminate|].
    inversion Eg. reflexivity.
Qed.

(** X4: [save_config] raises [KeyError], and nothing is written, exactly when
    one of the components it is given is to be saved (it is no button, no
    file and not marked non-interactive) and is not registered; a component
    that is not to be saved never makes it fail. *)
Theorem save_config_fails_exactly_on_unregistered attrs (settings_save_dir config_name : str)
    (m : WebuiManager) (components : list (Component * str)) :
  save_config attrs settings_save_dir config_name m components = inl KeyError
  <-> exists c v, (c, v) ∈ components /\ saveable (attrs c) = true
                  /\ get_id_by_component m c = inl KeyError.
Proof.
  unfold save_config. split.
  - destruct (save_loop attrs m components []) as [e|written] eqn:E; [|discriminate].
    intros _. apply save_loop_error in E. tauto.
  - intros (c & v & Hin & Hs & Hk).
    rewrite (save_loop_unregistered attrs m components [] c v Hin Hs Hk). reflexivity.
Qed.

Lemma save_loop_entries attrs (m : WebuiManager) (components : list (Component * str))
    (cur written : settings) (k v : str) :
  save_loop attrs m components cur = inr written ->
  (k, v) ∈ written ->
  (k, v) ∈ cur
  \/ exists c, (c, v) ∈ components /\ saveable (attrs c) = true
               /\ get_id_by_component m c = inr k.
Proof.
  revert cur. induction components as [|[c v0] rest IH]; intros cur H Hin; simpl in H.
  - inversion H; subst written. left. exact Hin.
  - destruct (saveable (attrs c)) eqn:Es.
    + destruct (get_id_by_component m c) as [e|comp_id] eqn:Eg; [discriminate|].
      destruct (IH _ H Hin) as [Hc|(c' & Hc' & Hs' & Hk')].
      * apply settings_set_from in Hc as [Hc|Hc]; [|left; exact Hc].
        inversion Hc; subst k v. right. exists c. split; [left | tauto].
      * right. exists c'. split; [right; exact Hc' | tauto].
    + destruct (IH _ H Hin) as [Hc|(c' & Hc' & Hs' & Hk')]; [left; exact Hc|].
      right. exists c'. split; [right; exact Hc' | tauto].
Qed.

(** X5: every entry [save_config] writes is the id and the value of one of
    the components it was given, and that component is registered under the
    id and is neither a button nor a file; the file is named after the clock
    inside the settings directory. *)
Theorem save_config_writes_saveable_only attrs (settings_save_dir config_name : str)
    (m : WebuiManager) (components : list (Component * str))
    (path : str) (written : settings) (k v : str) :
  save_config attrs settings_save_dir config_name m components = inr (path, written) ->
  (k, v) ∈ written ->
  path = path_join settings_save_dir (config_name +:+ ".json")
  /\ exists c, (c, v) ∈ components
               /\ get_id_by_component m c = inr k
               /\ is_button (attrs c) = false
               /\ is_file (attrs c) = false.
Proof.
  unfold save_config. intros H Hin.
  destruct (save_loop attrs m components []) as [e|written'] eqn:E; [discriminate|].
  inversion H; subst path written'. split; [reflexivity|].
  destruct (save_loop_entries attrs m components [] written k v E Hin)
    as [Hc|(c & Hc & Hs & Hk)]; [inversion Hc|].
  exists c. split; [exact Hc|]. split; [exact Hk|].
  unfold saveable in Hs. apply andb_true_iff in Hs as [Hs _].
  apply andb_true_iff in Hs as [Hb Hf].
  split; [apply negb_true_iff; exact Hb | apply negb_true_iff; exact Hf].
Qed.

Lemma save_config_writes_saveable_only_witness :
  "./tmp/webui_settings/20250101-120000.json"
  = path_join "./tmp/webui_settings" ("20250101-120000" +:+ ".json")
  /\ exists c, (c, "Acme Dental") ∈ [(3%positive, "run"); (2%positive, "Acme Dental")]
               /\ get_id_by_component (create_ui 1 2 3 4 5 6 7 8) c
                  = inr "vayner_client_research.business_name"
               /\ is_button (if Pos.eqb c 2 then mkAttrs false false InteractiveNone
                             else mkAttrs true false InteractiveAbsent) = false
               /\ is_file (if Pos.eqb c 2 then mkAttrs false false InteractiveNone
                           else mkAttrs true false InteractiveAbsent) = false.
Proof.
  apply (save_config_writes_saveable_only
           (fun c => if Pos.eqb c 2 then mkAttrs false false InteractiveNone
                     else mkAttrs true false InteractiveAbsent)
           "./tmp/webui_settings" "20250101-120000" (create_ui 1 2 3 4 5 6 7 8)
           [(3%positive, "run"); (2%positive, "Acme Dental")]
           "./tmp/webui_settings/20250101-120000.json"
           [("vayner_client_research.business_name", "Acme Dental")]
           "vayner_client_research.business_name" "Acme Dental").
  - vm_compute. reflexivity.
  - apply list_elem_of_singleton. reflexivity.
Defined.

(** *** Loading what was saved *)

Lemma load_fold_other (m : WebuiManager) (ui_settings : settings)
    (d : gmap Component gr_update) (c : Component) :
  (forall k v, (k, v) ∈ ui_settings -> id_to_component m !! k ≠ Some c) ->
  fold_left (load_entry m) ui_settings d !! c = d !! c.
Proof.
  revert d. induction ui_settings as [|[k v] rest IH]; intros d H; [reflexivity|].
  simpl. rewrite IH by (intros k' v' Hin; apply (H k' v'); right; exact Hin).
  unfold load_entry. simpl.
  destruct (id_to_component m !! k) as [c'|] eqn:E; [|reflexivity].
  apply lookup_insert_ne. intros ->. apply (H k v); [left | exact E].
Qed.

Lemma load_fold_entry (m : WebuiManager) (ui_settings : settings)
    (d : gmap Component gr_update) (c : Component) (k v : str) :
  (k, v) ∈ ui_settings ->
  id_to_component m !! k = Some c ->
  (forall k' v', (k', v') ∈ ui_settings -> id_to_component m !! k' = Some c -> v' = v) ->
  fold_left (load_entry m) ui_settings d !! c = Some (mkUpdate (Some (UText v)) None None).
Proof.
  induction ui_settings as [|[k0 v0] rest IH] using rev_ind; intros Hin Hk Huniq;
    [inversion Hin|].
  rewrite fold_left_app. simpl. unfold load_entry at 1. simpl.
  destruct (id_to_component m !! k0) as [c0|] eqn:E0.
  - destruct (decide (c0 = c)) as [->|Hne].
    + assert (v0 = v) as ->
        by (apply (Huniq k0 v0); [apply elem_of_app; right; left | exact E0]).
      apply lookup_insert_eq.
    + rewrite lookup_insert_ne by exact Hne.
      apply IH; [|exact Hk|].
      * apply elem_of_app in Hin as [Hin|Hin]; [exact Hin|].
        apply list_elem_of_singleton in Hin. inversion Hin; subst k0 v0. congruence.
      * intros k' v' H' Hk'. apply (Huniq k' v'); [apply elem_of_app; left; exact H' | exact Hk'].
  - apply IH; [|exact Hk|].
    + apply elem_of_app in Hin as [Hin|Hin]; [exact Hin|].
      apply list_elem_of_singleton in Hin. inversion Hin; subst k0 v0. congruence.
    + intros k' v' H' Hk'. apply (Huniq k' v'); [apply elem_of_app; left; exact H' | exact Hk'].
Qed.

Lemma save_loop_keeps attrs (m : WebuiManager) (components : list (Component * str))
    (cur written : settings) (k v : str) :
  save_loop attrs m components cur = inr written ->
  (k, v) ∈ cur ->
  (forall c v', (c, v') ∈ components -> saveable (attrs c) = true ->
                get_id_by_component m c ≠ inr k) ->
  (k, v) ∈ written.
Proof.
  revert cur. induction components as [|[c v0] rest IH]; intros cur H Hin Hne; simpl in H.
  - inversion H; subst written. exact Hin.
  - assert (Hrest : forall c' v', (c', v') ∈ rest -> saveable (attrs c') = true ->
                                  get_id_by_component m c' ≠ inr k)
      by (intros c' v' Hc'; apply (Hne c' v'); right; exact Hc').
    destruct (saveable (attrs c)) eqn:Es; [|apply (IH cur); assumption].
    destruct (get_id_by_component m c) as [e|comp_id] eqn:Eg; [discriminate|].
    apply (IH _ H); [|exact Hrest].
    apply settings_set_other; [exact Hin|].
    intros ->. apply (Hne c v0); [left | exact Es | exact Eg].
Qed.

Lemma save_loop_writes attrs (m : WebuiManager) (components : list (Component * str))
    (cur written : settings) (c : Component) (v : str) :
  mutual_inverses m ->
  NoDup (map fst components) ->
  save_loop attrs m components cur = inr written ->
  (c, v) ∈ components ->
  saveable (attrs c) = true ->
  exists k, get_id_by_component m c = inr k /\ (k, v) ∈ written.
Proof.
  intros Hinv. revert cur.
  induction components as [|[c0 v0] rest IH]; intros cur Hnd H Hin Hs; [inversion Hin|].
  simpl in Hnd. apply NoDup_cons in Hnd as [Hnew Hnd]. simpl in H.
  apply elem_of_cons in Hin as [Heq|Hin].
  - inversion Heq; subst c0 v0. rewrite Hs in H.
    destruct (get_id_by_component m c) as [e|k] eqn:Eg; [discriminate|].
    exists k. split; [reflexivity|].
    apply (save_loop_keeps attrs m rest _ written k v H); [apply settings_set_in|].
    intros c' v' Hc' _ Hk'. apply Hnew.
    assert (c' = c) as <-.
    { unfold get_id_by_component in Eg, Hk'.
      destruct (component_to_id m !! c) as [k1|] eqn:E1; [|discriminate].
      destruct (component_to_id m !! c') as [k2|] eqn:E2; [|discriminate].
      inversion Eg; inversion Hk'; subst k1 k2.
      apply Hinv in E1. apply Hinv in E2. congruence. }
    apply (list_elem_of_fmap_2 fst) in Hc'. exact Hc'.
  - destruct (saveable (attrs c0)); [|apply (IH cur); assumption].
    destruct (get_id_by_component m c0) as [e|k0]; [discriminate|].
    apply (IH _ Hnd H Hin Hs).
Qed.

Lemma nodup_keys_value {A B} (l : list (A * B)) (x : A) (y1 y2 : B) :
  NoDup (map fst l) -> (x, y1) ∈ l -> (x, y2) ∈ l -> y1 = y2.
Proof.
  induction l as [|[a b] l IH]; intros Hnd H1 H2; [inversion H1|].
  simpl in Hnd. apply NoDup_cons in Hnd as [Hnew Hnd].
  apply elem_of_cons in H1 as [H1|H1]; apply elem_of_cons in H2 as [H2|H2].
  - congruence.
  - inversion H1; subst a b. exfalso. apply Hnew.
    apply (list_elem_of_fmap_2 fst) in H2. exact H2.
  - inversion H2; subst a b. exfalso. apply Hnew.
    apply (list_elem_of_fmap_2 fst) in H1. exact H1.
  - apply IH; assumption.
Qed.

(** X6: saving and loading round-trips. On a registry that obeys the inverse
    law, when [save_config] succeeds on a dictionary of components, loading
    the settings it wrote yields, for every saved component other than the
    status field, an update that sets the value the component was saved with. *)
Theorem load_config_restores_saved attrs (settings_save_dir config_name : str)
    (m : WebuiManager) (components : list (Component * str))
    (path : str) (written : settings) (config_status c : Component) (v : str) :
  mutual_inverses m ->
  NoDup (map fst components) ->
  get_component_by_id m config_status_id = Some config_status ->
  save_config attrs settings_save_dir config_name m components = inr (path, written) ->
  (c, v) ∈ components ->
  saveable (attrs c) = true ->
  c ≠ config_status ->
  exists updates,
    load_config m path (Some written) = inr updates
    /\ updates !! c = Some (mkUpdate (Some (UText v)) None None)
    /\ updates !! config_status
       = Some (mkUpdate (Some (UText ("Successfully loaded config: " +:+ path))) None None).
Proof.
  intros Hinv Hnd Hstatus Hsave Hin Hs Hne.
  unfold save_config in Hsave.
  destruct (save_loop attrs m components []) as [e|written'] eqn:E; [discriminate|].
  inversion Hsave; subst path written'.
  unfold load_config. unfold get_component_by_id in Hstatus. rewrite Hstatus.
  eexists. split; [reflexivity|]. split; [|apply lookup_insert_eq].
  rewrite lookup_insert_ne by congruence.
  destruct (save_loop_writes attrs m components [] written c v Hinv Hnd E Hin Hs)
    as (k & Hk & Hw).
  assert (Hkc : id_to_component m !! k = Some c).
  { unfold get_id_by_component in Hk.
    destruct (component_to_id m !! c) as [k1|] eqn:E1; [|discriminate].
    inversion Hk; subst k1. apply Hinv. exact E1. }
  apply (load_fold_entry m written ∅ c k v Hw Hkc).
  intros k' v' Hw' Hk'.
  destruct (save_loop_entries attrs m components [] written k' v' E Hw')
    as [Hc|(c' & Hc' & _ & Hk'')]; [inversion Hc|].
  assert (c' = c) as ->.
  { unfold get_id_by_component in Hk''.
    destruct (component_to_id m !! c') as [k1|] eqn:E1; [|discriminate].
    inversion Hk''; subst k1. apply Hinv in E1. congruence. }
  exact (nodup_keys_value components c v' v Hnd Hc' Hin).
Qed.

(** X7: in the interface [create_ui] builds, [load_config] can only fail: the
    id "load_save_config.config_status" it subscripts is registered by no
    tab, so whatever file is loaded the call raises before it yields. *)
Theorem load_config_fails_in_create_ui
    (chatbot business_name run_button stop_button clear_button browser_view pdf_report
     doc_tabs : Component) (config_path : str) (file : option settings) :
  load_config
    (create_ui chatbot business_name run_button stop_button clear_button browser_view
       pdf_report doc_tabs)
    config_path file
  = inl (match file with Some _ => KeyError | None => OtherException end).
Proof.
  unfold load_config. destruct file as [ui_settings|]; [|reflexivity].
  assert (H : id_to_component
                (create_ui chatbot business_name run_button stop_button clear_button
                   browser_view pdf_report doc_tabs) !! config_status_id = None).
  { pose proof (register_all_unregistered_id
                  [ ("vayner_client_research",
                     [ ("chatbot", chatbot); ("business_name", business_name);
                       ("run_button", run_button); ("stop_button", stop_button);
                       ("clear_button", clear_button); ("browser_view", browser_view);
                       ("pdf_report", pdf_report) ]);
                    ("documentation", [("doc_tabs", doc_tabs)]) ]
                  config_status_id) as Haux.
    rewrite create_ui_calls. apply Haux.
    apply (bool_decide_unpack _). vm_compute. exact I. }
  rewrite H. reflexivity.
Qed.

(** A registry with the status field of the settings tab and one setting. *)
Lemma settings_registry_inverses :
  mutual_inverses
    (register_all [ ("load_save_config", [("config_status", 9%positive)]);
                    ("agent_settings", [("llm_model_name", 10%positive)]) ] new_manager).
Proof.
  apply register_all_inverses.
  - apply (bool_decide_unpack _). vm_compute. exact I.
  - apply (bool_decide_unpack _). vm_compute. exact I.
  - intros i c. simpl. rewrite !lookup_empty. split; discriminate.
  - intros. apply lookup_empty.
  - intros. apply lookup_empty.
Defined.

Lemma load_config_restores_saved_witness :
  exists updates,
    load_config
      (register_all [ ("load_save_config", [("config_status", 9%positive)]);
                      ("agent_settings", [("llm_model_name", 10%positive)]) ] new_manager)
      "./tmp/webui_settings/20250101-120000.json"
      (Some [("agent_settings.llm_model_name", "gpt-4o")]) = inr updates
    /\ updates !! 10%positive = Some (mkUpdate (Some (UText "gpt-4o")) None None)
    /\ updates !! 9%positive
       = Some (mkUpdate
                 (Some (UText ("Successfully loaded config: "
                               +:+ "./tmp/webui_settings/20250101-120000.json")))
                 None None).
Proof.
  apply (load_config_restores_saved
           (fun _ => mkAttrs false false InteractiveNone)
           "./tmp/webui_settings" "20250101-120000"
           (register_all [ ("load_save_config", [("config_status", 9%positive)]);
                           ("agent_settings", [("llm_model_name", 10%positive)]) ]
              new_manager)
           [(10%positive, "gpt-4o")]
           "./tmp/webui_settings/20250101-120000.json"
           [("agent_settings.llm_model_name", "gpt-4o")] 9%positive 10%positive "gpt-4o").
  - exact settings_registry_inverses.
  - simpl. apply NoDup_singleton.
  - vm_compute. reflexivity.
  - vm_compute. reflexivity.
  - apply list_elem_of_singleton. reflexivity.
  - reflexivity.
  - discriminate.
Defined.

(** ** The language model *)


(** ** The end of a research *)

(** X9: on a registry that obeys the inverse law and holds the run and stop
    buttons, a research that ends by returning, or by raising an [Exception],
    yields exactly one last update, and that update re-enables the run button
    and disables the stop button; a research that ends cancelled yields
    nothing more, and [CancelledError] leaves the generator. *)
Theorem finish_research_terminal_update (error_text : exn -> str) (m : WebuiManager)
    (awaited : wait_outcome) (run_button stop_button : Component) :
  mutual_inverses m ->
  get_component_by_id m run_button_id = Some run_button ->
  get_component_by_id m stop_button_id = Some stop_button ->
  match awaited with
  | WaitRaised CancelledError =>
      finish_research error_text m awaited = (m, [], Some CancelledError)
  | _ =>
      exists m' update,
        finish_research error_text m awaited = (m', [update], None)
        /\ update !! Some run_button
           = Some (mkUpdate (Some (UText research_client_label)) None (Some true))
        /\ update !! Some stop_button = Some (mkUpdate None None (Some false))
  end.
Proof.
  intros Hinv Hr Hs. unfold get_component_by_id in *.
  assert (Hrs : Some run_button ≠ Some stop_button).
  { intros Heq. inversion Heq; subst stop_button.
    pose proof (inverse_distinct m _ _ _ Hinv Hr Hs) as H. vm_compute in H. discriminate. }
  assert (Hc_r : id_to_component m !! chatbot_id ≠ Some run_button).
  { intros H. pose proof (inverse_distinct m _ _ _ Hinv Hr H) as H'.
    vm_compute in H'. discriminate. }
  assert (Hc_s : id_to_component m !! chatbot_id ≠ Some stop_button).
  { intros H. pose proof (inverse_distinct m _ _ _ Hinv Hs H) as H'.
    vm_compute in H'. discriminate. }
  assert (Hp_r : id_to_component m !! pdf_report_id ≠ Some run_button).
  { intros H. pose proof (inverse_distinct m _ _ _ Hinv Hr H) as H'.
    vm_compute in H'. discriminate. }
  assert (Hp_s : id_to_component m !! pdf_report_id ≠ Some stop_button).
  { intros H. pose proof (inverse_distinct m _ _ _ Hinv Hs H) as H'.
    vm_compute in H'. discriminate. }
  assert (Hok : forall m0, id_to_component m0 = id_to_component m ->
            forall (first : ui_dict) (pdf : gr_update) (with_pdf : bool),
              first = (<[id_to_component m0 !! chatbot_id :=
                           mkUpdate (Some (UChat (vayner_chat_history m0))) None None]>
                         (<[id_to_component m0 !! stop_button_id :=
                              mkUpdate None None (Some false)]>
                            (<[id_to_component m0 !! run_button_id :=
                                 mkUpdate (Some (UText research_client_label)) None (Some true)]>
                               ∅))) ->
              let update := if with_pdf
                            then <[id_to_component m0 !! pdf_report_id := pdf]> first
                            else first in
              update !! Some run_button
              = Some (mkUpdate (Some (UText research_client_label)) None (Some true))
              /\ update !! Some stop_button = Some (mkUpdate None None (Some false))).
  { intros m0 Hm0 first pdf with_pdf -> update. subst update. rewrite !Hm0, Hr, Hs.
    destruct with_pdf.
    - rewrite !(lookup_insert_ne _ (id_to_component m !! pdf_report_id)) by congruence.
      rewrite !(lookup_insert_ne _ (id_to_component m !! chatbot_id)) by congruence.
      split; [|apply lookup_insert_eq].
      rewrite lookup_insert_ne by congruence. apply lookup_insert_eq.
    - rewrite !(lookup_insert_ne _ (id_to_component m !! chatbot_id)) by congruence.
      split; [|apply lookup_insert_eq].
      rewrite lookup_insert_ne by congruence. apply lookup_insert_eq. }
  destruct awaited as [|e].
  - unfold finish_research, get_component_by_id.
    destruct (vayner_pdf_report m) as [report|].
    + destruct (PyStr.truthy report).
      * eexists _, _. split; [reflexivity|].
        exact (Hok m eq_refl _ (mkUpdate (Some (UText report)) (Some true) None) true eq_refl).
      * eexists _, _. split; [reflexivity|].
        exact (Hok m eq_refl _ (mkUpdate None None None) false eq_refl).
    + eexists _, _. split; [reflexivity|].
      exact (Hok m eq_refl _ (mkUpdate None None None) false eq_refl).
  - assert (Hexc : is_exception e = true ->
              exists m' update,
                finish_research error_text m (WaitRaised e) = (m', [update], None)
                /\ update !! Some run_button
                   = Some (mkUpdate (Some (UText research_client_label)) None (Some true))
                /\ update !! Some stop_button = Some (mkUpdate None None (Some false))).
    { intros He. unfold finish_research. rewrite He.
      unfold report_failure, get_component_by_id. fields.
      eexists _, _. split; [reflexivity|]. rewrite Hr, Hs.
      rewrite !(lookup_insert_ne _ (id_to_component m !! pdf_report_id)) by congruence.
      split; [|apply lookup_insert_eq].
      rewrite lookup_insert_ne by congruence. apply lookup_insert_eq. }
    destruct e; try (apply Hexc; reflexivity). reflexivity.
Qed.

Lemma finish_research_terminal_update_witness :
  exists m' update,
    finish_research (fun _ => "error") (create_ui 1 2 3 4 5 6 7 8) WaitReturned
    = (m', [update], None)
    /\ update !! Some 3%positive
       = Some (mkUpdate (Some (UText research_client_label)) None (Some true))
    /\ update !! Some 4%positive = Some (mkUpdate None None (Some false)).
Proof.
  apply (finish_research_terminal_update (fun _ => "error") (create_ui 1 2 3 4 5 6 7 8)
           WaitReturned 3%positive 4%positive).
  - rewrite create_ui_calls. apply register_all_inverses.
    + apply (bool_decide_unpack _). vm_compute. exact I.
    + apply (bool_decide_unpack _). vm_compute. exact I.
    + intros i c. simpl. rewrite !lookup_empty. split; discriminate.
    + intros. apply lookup_empty.
    + intros. apply lookup_empty.
  - vm_compute. reflexivity.
  - vm_compute. reflexivity.
Defined.

(** ** The fact collections *)

Lemma append_new_prefix (x : str) (l : list str) : l `prefix_of` append_new x l.
Proof. unfold append_new. destruct (existsb _ l); [reflexivity | exists [x]; reflexivity]. Qed.

Lemma existsb_eqb_elem (x : str) (l : list str) :
  existsb (PyStr.eqb x) l = true <-> x ∈ l.
Proof.
  induction l as [|y l IH]; simpl.
  - split; [discriminate | intros H; inversion H].
  - rewrite orb_true_iff, IH, elem_of_cons, str_eqb_eq. tauto.
Qed.

Lemma append_new_elem (x : str) (l : list str) : x ∈ append_new x l.
Proof.
  unfold append_new. destruct (existsb _ l) eqn:E.
  - apply existsb_eqb_elem. exact E.
  - apply elem_of_app. right. left.
Qed.

Lemma append_new_absorbed (x : str) (l : list str) : x ∈ l -> append_new x l = l.
Proof. intros H. unfold append_new. apply existsb_eqb_elem in H. rewrite H. reflexivity. Qed.

Lemma append_new_nodup (x : str) (l : list str) : NoDup l -> NoDup (append_new x l).
Proof.
  intros H. unfold append_new. destruct (existsb _ l) eqn:E; [exact H|].
  apply NoDup_app. split; [exact H|]. split; [|apply NoDup_singleton].
  intros y Hy Hy'. apply list_elem_of_singleton in Hy'. subst y.
  apply existsb_eqb_elem in Hy. congruence.
Qed.

Lemma prefix_elem {A} (l l' : list A) (x : A) : l `prefix_of` l' -> x ∈ l -> x ∈ l'.
Proof. intros [k ->] H. apply elem_of_app. left. exact H. Qed.

(** A loop of guarded appends does nothing on a list that already extends
    what the loop made of a shorter one. *)
Lemma fold_absorb {A X} (op : list A -> X -> list A) :
  (forall l x, l `prefix_of` op l x) ->
  (forall l x l', op l x `prefix_of` l' -> op l' x = l') ->
  forall xs l l', fold_left op xs l `prefix_of` l' -> fold_left op xs l' = l'.
Proof.
  intros Hext Habs xs. induction xs as [|x xs IH]; intros l l' H; simpl in *; [reflexivity|].
  assert (Hgrow : forall ys l0, l0 `prefix_of` fold_left op ys l0).
  { induction ys as [|y ys IHy]; intros l0; simpl; [reflexivity|].
    etrans; [apply Hext | apply IHy]. }
  rewrite (Habs l x l') by (etrans; [apply Hgrow | exact H]).
  apply (IH (op l x)). exact H.
Qed.

Lemma fold_extends {A X} (op : list A -> X -> list A) :
  (forall l x, l `prefix_of` op l x) ->
  forall xs l, l `prefix_of` fold_left op xs l.
Proof.
  intros Hext xs. induction xs as [|x xs IH]; intros l; simpl; [reflexivity|].
  etrans; [apply Hext | apply IH].
Qed.

Lemma add_all_prefix (cs l : list str) : l `prefix_of` add_all cs l.
Proof. apply (fold_extends (fun l x => append_new x l)). intros. apply append_new_prefix. Qed.

Lemma add_all_absorbed (cs l l' : list str) :
  add_all cs l `prefix_of` l' -> add_all cs l' = l'.
Proof.
  apply (fold_absorb (fun l x => append_new x l)).
  - intros. apply append_new_prefix.
  - intros l0 x l0' H. apply append_new_absorbed. eapply prefix_elem; [exact H|].
    apply append_new_elem.
Qed.

Lemma add_all_nodup (cs l : list str) : NoDup l -> NoDup (add_all cs l).
Proof.
  revert l. induction cs as [|x cs IH]; intros l H; simpl; [exact H|].
  apply IH. apply append_new_nodup. exact H.
Qed.

Lemma add_all_app (cs1 cs2 l : list str) :
  add_all (cs1 ++ cs2) l = add_all cs2 (add_all cs1 l).
Proof. unfold add_all. apply fold_left_app. Qed.

Lemma startswith_app (p s : str) : PyStr.startswith p (p +:+ s) = true.
Proof.
  induction p as [|c p IH]; [reflexivity|].
  simpl. rewrite N.eqb_refl. exact IH.
Qed.

Lemma contains_app_r (sub a b : str) :
  PyStr.contains sub b = true -> PyStr.contains sub (a +:+ b) = true.
Proof.
  intros H. induction a as [|c a IH]; [exact H|].
  simpl. rewrite IH. apply orb_true_r.
Qed.

Lemma contains_self_prefix (sub b : str) : PyStr.contains sub (sub +:+ b) = true.
Proof.
  assert (H : PyStr.startswith sub (sub +:+ b) = true) by apply startswith_app.
  destruct (sub +:+ b); simpl; rewrite H; reflexivity.
Qed.

Lemma contains_self (sub : str) : PyStr.contains sub sub = true.
Proof.
  pose proof (contains_self_prefix sub []) as H.
  rewrite append_empty_r in H. exact H.
Qed.

Lemma add_page_url_prefix state (l : list str) : l `prefix_of` add_page_url state l.
Proof.
  unfold add_page_url. repeat case_match; try reflexivity. eexists. reflexivity.
Qed.

Lemma add_page_url_absorbed state (l l' : list str) :
  add_page_url state l `prefix_of` l' -> add_page_url state l' = l'.
Proof.
  unfold add_page_url. destruct (st_url state) as [u|]; [|reflexivity].
  destruct (PyStr.truthy u && PyStr.contains "business" (PyStr.lower u)) eqn:E;
    [|reflexivity].
  cbn [andb].
  destruct (existsb (fun info => PyStr.contains u info) l) eqn:El; cbn [negb]; intros H.
  - assert (Hl' : existsb (fun info => PyStr.contains u info) l' = true).
    { apply existsb_exists in El as (info & Hin & Hc). apply existsb_exists.
      exists info. split; [|exact Hc]. apply list_elem_of_In.
      eapply prefix_elem; [exact H|]. apply list_elem_of_In. exact Hin. }
    rewrite Hl'. reflexivity.
  - assert (Hl' : existsb (fun info => PyStr.contains u info) l' = true).
    { apply existsb_exists. exists ("Page URL: " +:+ u). split.
      - apply list_elem_of_In. eapply prefix_elem; [exact H|].
        apply elem_of_app. right. left.
      - apply contains_app_r. apply contains_self. }
    rewrite Hl'. reflexivity.
Qed.

Lemma add_page_url_nodup state (l : list str) : NoDup l -> NoDup (add_page_url state l).
Proof.
  intros Hnd. unfold add_page_url. destruct (st_url state) as [u|]; [|exact Hnd].
  destruct (PyStr.truthy u && PyStr.contains "business" (PyStr.lower u)); [|exact Hnd].
  cbn [andb].
  destruct (existsb (fun info => PyStr.contains u info) l) eqn:El; cbn [negb]; [exact Hnd|].
  apply NoDup_app. split; [exact Hnd|]. split; [|apply NoDup_singleton].
  intros x Hx Hx'. apply list_elem_of_singleton in Hx'. subst x.
  assert (Hc : existsb (fun info => PyStr.contains u info) l = true); [|congruence].
  apply existsb_exists. exists ("Page URL: " +:+ u).
  split; [apply list_elem_of_In; exact Hx|]. apply contains_app_r. apply contains_self.
Qed.

Lemma add_text_content_prefix state (l : list str) : l `prefix_of` add_text_content state l.
Proof.
  unfold add_text_content. repeat case_match; try reflexivity. apply append_new_prefix.
Qed.

Lemma add_text_content_absorbed state (l l' : list str) :
  add_text_content state l `prefix_of` l' -> add_text_content state l' = l'.
Proof.
  unfold add_text_content. repeat case_match; try reflexivity.
  intros Hpre. apply append_new_absorbed. eapply prefix_elem; [exact Hpre|].
  apply append_new_elem.
Qed.

Lemma add_text_content_nodup state (l : list str) :
  NoDup l -> NoDup (add_text_content state l).
Proof.
  intros Hnd. unfold add_text_content. repeat case_match; try exact Hnd.
  apply append_new_nodup. exact Hnd.
Qed.

(** *** The collections after one step *)

Ltac split_ifs :=
  repeat match goal with
         | |- context [if ?b then _ else _] => destruct b
         end.

Lemma collect_action_business m a :
  vayner_business_info (collect_result (collect_thought m a) a)
  = add_all (business_notes a) (vayner_business_info m).
Proof.
  unfold collect_result, collect_thought, business_notes, add_all.
  destruct a as [[t|] [r|]]; cbn [a_thought a_result];
    split_ifs; fields; reflexivity.
Qed.

Lemma collect_action_keyword m a :
  vayner_keyword_data (collect_result (collect_thought m a) a)
  = add_all (keyword_notes a) (vayner_keyword_data m).
Proof.
  unfold collect_result, collect_thought, keyword_notes, add_all.
  destruct a as [[t|] [r|]]; cbn [a_thought a_result];
    split_ifs; fields; reflexivity.
Qed.

Lemma collect_action_ranking m a :
  vayner_ranking_data (collect_result (collect_thought m a) a)
  = add_all (ranking_notes a) (vayner_ranking_data m).
Proof.
  unfold collect_result, collect_thought, ranking_notes, add_all.
  destruct a as [[t|] [r|]]; cbn [a_thought a_result];
    split_ifs; fields; reflexivity.
Qed.

Lemma collect_thought_rest m a :
  vayner_screenshots (collect_thought m a) = vayner_screenshots m
  /\ vayner_keyword_table_rows (collect_thought m a) = vayner_keyword_table_rows m
  /\ vayner_chat_history (collect_thought m a) = vayner_chat_history m
  /\ vayner_current_business (collect_thought m a) = vayner_current_business m.
Proof.
  unfold collect_thought. destruct (a_thought a); split_ifs; fields;
    (split; [reflexivity|]); (split; [reflexivity|]); split; reflexivity.
Qed.

Lemma collect_result_rest m a :
  vayner_screenshots (collect_result m a) = vayner_screenshots m
  /\ vayner_keyword_table_rows (collect_result m a) = vayner_keyword_table_rows m
  /\ vayner_chat_history (collect_result m a) = vayner_chat_history m
  /\ vayner_current_business (collect_result m a) = vayner_current_business m.
Proof.
  unfold collect_result. destruct (a_result a); split_ifs; fields;
    (split; [reflexivity|]); (split; [reflexivity|]); split; reflexivity.
Qed.

Lemma collect_action_rest m a :
  vayner_screenshots (collect_result (collect_thought m a) a) = vayner_screenshots m
  /\ vayner_keyword_table_rows (collect_result (collect_thought m a) a)
     = vayner_keyword_table_rows m
  /\ vayner_chat_history (collect_result (collect_thought m a) a) = vayner_chat_history m
  /\ vayner_current_business (collect_result (collect_thought m a) a)
     = vayner_current_business m.
Proof.
  destruct (collect_result_rest (collect_thought m a) a) as (S & W & C & N).
  destruct (collect_thought_rest m a) as (S0 & W0 & C0 & N0).
  rewrite S, W, C, N. repeat split; assumption.
Qed.

Lemma collect_actions_facts actions m :
  let m' := fold_left (fun m a => collect_result (collect_thought m a) a) actions m in
  vayner_business_info m' = add_all (concat (map business_notes actions)) (vayner_business_info m)
  /\ vayner_keyword_data m' = add_all (concat (map keyword_notes actions)) (vayner_keyword_data m)
  /\ vayner_ranking_data m' = add_all (concat (map ranking_notes actions)) (vayner_ranking_data m)
  /\ vayner_screenshots m' = vayner_screenshots m
  /\ vayner_keyword_table_rows m' = vayner_keyword_table_rows m
  /\ vayner_chat_history m' = vayner_chat_history m
  /\ vayner_current_business m' = vayner_current_business m.
Proof.
  revert m. induction actions as [|a actions IH]; intros m; simpl.
  - repeat split; reflexivity.
  - destruct (IH (collect_result (collect_thought m a) a)) as (B & K & R & S & W & C & N).
    destruct (collect_action_rest m a) as (S0 & W0 & C0 & N0).
    rewrite B, K, R, S, W, C, N, !add_all_app,
      collect_action_business, collect_action_keyword, collect_action_ranking.
    repeat split; assumption.
Qed.

(** What [aggregate_step] makes of each collection. *)
Lemma aggregate_step_facts m state actions :
  let m' := aggregate_step m state actions in
  vayner_business_info m'
  = add_page_url state (add_all (concat (map business_notes actions)) (vayner_business_info m))
  /\ vayner_keyword_data m'
     = add_text_content state
         (add_all (concat (map keyword_notes actions)) (vayner_keyword_data m))
  /\ vayner_ranking_data m'
     = add_all (concat (map ranking_notes actions)) (vayner_ranking_data m)
  /\ vayner_keyword_table_rows m'
     = fold_left extract_rows_of_action actions (vayner_keyword_table_rows m)
  /\ vayner_screenshots m' = vayner_screenshots m
  /\ vayner_chat_history m' = vayner_chat_history m
  /\ vayner_current_business m' = vayner_current_business m.
Proof.
  cbv zeta. unfold aggregate_step.
  destruct (collect_actions_facts actions m) as (B & K & R & S & W & C & N).
  cbv zeta in B, K, R, S, W, C, N.
  set (m1 := fold_left (fun m a => collect_result (collect_thought m a) a) actions m) in *.
  fields.
  assert (U : vayner_business_info (collect_url m1 state)
              = add_page_url state (vayner_business_info m1)
              /\ vayner_keyword_data (collect_url m1 state) = vayner_keyword_data m1
              /\ vayner_ranking_data (collect_url m1 state) = vayner_ranking_data m1
              /\ vayner_keyword_table_rows (collect_url m1 state) = vayner_keyword_table_rows m1
              /\ vayner_screenshots (collect_url m1 state) = vayner_screenshots m1
              /\ vayner_chat_history (collect_url m1 state) = vayner_chat_history m1
              /\ vayner_current_business (collect_url m1 state) = vayner_current_business m1).
  { unfold collect_url, add_page_url. destruct (st_url state); split_ifs; fields;
      repeat split; reflexivity. }
  destruct U as (U1 & U2 & U3 & U4 & U5 & U6 & U7).
  set (m2 := collect_url m1 state) in *.
  assert (T : vayner_business_info (collect_text_content m2 state) = vayner_business_info m2
              /\ vayner_keyword_data (collect_text_content m2 state)
                 = add_text_content state (vayner_keyword_data m2)
              /\ vayner_ranking_data (collect_text_content m2 state) = vayner_ranking_data m2
              /\ vayner_keyword_table_rows (collect_text_content m2 state)
                 = vayner_keyword_table_rows m2
              /\ vayner_screenshots (collect_text_content m2 state) = vayner_screenshots m2
              /\ vayner_chat_history (collect_text_content m2 state) = vayner_chat_history m2
              /\ vayner_current_business (collect_text_content m2 state)
                 = vayner_current_business m2).
  { unfold collect_text_content, add_text_content. destruct (st_text_content state);
      split_ifs; fields; repeat split; reflexivity. }
  destruct T as (T1 & T2 & T3 & T4 & T5 & T6 & T7).
  rewrite T1, T2, T3, T4, T5, T6, T7, U1, U2, U3, U4, U5, U6, U7, B, K, R, S, W, C, N.
  repeat split; reflexivity.
Qed.

(** ** The line pattern and the keyword rows *)

Lemma give_back_some {A} (cont : nat -> option A) (lo k : nat) (r : A) :
  Re.give_back cont lo k = Some r ->
  exists j, j <= k /\ (j = k \/ lo <= j) /\ cont j = Some r.
Proof.
  induction k as [|k IH]; simpl.
  - destruct (cont 0) eqn:E; [|discriminate].
    intros H. exists 0. split; [lia|]. split; [left; reflexivity|]. congruence.
  - destruct (cont (S k)) eqn:E.
    + intros H. exists (S k). split; [lia|]. split; [left; reflexivity|]. congruence.
    + destruct (lo <=? k) eqn:L; [|discriminate].
      intros H. destruct (IH H) as (j & Hj & Hlo & Hc).
      exists j. split; [lia|]. split; [|exact Hc].
      right. apply Nat.leb_le in L. destruct Hlo; lia.
Qed.

Lemma repeat_from_some {A} (cls : N -> bool) (lo : nat) (s : str)
    (cont : nat -> option A) (r : A) :
  Re.repeat_from cls lo s cont = Some r ->
  exists j, lo <= j /\ j <= Re.run cls s /\ cont j = Some r.
Proof.
  unfold Re.repeat_from. destruct (lo <=? Re.run cls s) eqn:L; [|discriminate].
  intros H. apply give_back_some in H as (j & Hj & Hlo & Hc).
  apply Nat.leb_le in L. exists j. split; [destruct Hlo; lia|]. split; assumption.
Qed.

Lemma take_run (cls : N -> bool) (s : str) (j : nat) :
  j <= Re.run cls s -> all_chars cls (PyStr.take j s) = true.
Proof.
  revert j. induction s as [|c s IH]; intros j Hj; destruct j as [|j]; simpl in *;
    try reflexivity.
  destruct (cls c); [|lia]. simpl. apply IH. lia.
Qed.

Lemma take_nonempty (cls : N -> bool) (s : str) (j : nat) :
  1 <= j -> j <= Re.run cls s -> PyStr.take j s <> [].
Proof.
  intros H1 Hj. destruct j as [|j]; [lia|]. destruct s as [|c s]; simpl in *; [lia|].
  discriminate.
Qed.

(** Every group of a match is a non-empty text of the class of the group. *)
Lemma match_here_groups (p : Re.pattern) (s : str) (gs : list str) :
  Re.match_here p s = Some gs ->
  Forall2 (fun cls g => all_chars cls g = true /\ g <> []) (group_classes p) gs.
Proof.
  revert s gs. induction p as [|a p IH]; intros s gs; simpl.
  - intros H. inversion H. constructor.
  - destruct a as [l|c|cls|cls|cls]; simpl.
    + destruct (Re.eat_lit l s); [apply IH | discriminate].
    + destruct s as [|b s'].
      * apply IH.
      * destruct (b =? c)%N; [|apply IH].
        destruct (Re.match_here p s') eqn:E.
        -- intros H. inversion H; subst. apply (IH s'). exact E.
        -- apply IH.
    + intros H. apply repeat_from_some in H as (j & _ & _ & H). apply (IH _ _ H).
    + intros H. apply repeat_from_some in H as (j & _ & _ & H). apply (IH _ _ H).
    + intros H. apply repeat_from_some in H as (j & H1 & Hj & H).
      destruct (Re.match_here p (PyStr.drop j s)) eqn:E; [|discriminate].
      inversion H; subst. constructor.
      * split; [apply take_run; exact Hj | apply (take_nonempty cls); assumption].
      * apply (IH _ _ E).
Qed.

Lemma re_search_groups (p : Re.pattern) (s : str) (gs : list str) :
  Re.re_search p s = Some gs ->
  Forall2 (fun cls g => all_chars cls g = true /\ g <> []) (group_classes p) gs.
Proof.
  induction s as [|c s IH]; simpl.
  - destruct (Re.match_here p []) eqn:E; [|discriminate].
    intros H. inversion H; subst. apply (match_here_groups _ _ _ E).
  - destruct (Re.match_here p (c :: s)) eqn:E.
    + intros H. inversion H; subst. apply (match_here_groups _ _ _ E).
    + exact IH.
Qed.

Lemma all_chars_rev_onto (cls : N -> bool) (s acc : str) :
  all_chars cls (PyStr.rev_onto s acc) = all_chars cls s && all_chars cls acc.
Proof.
  revert acc. induction s as [|c s IH]; intros acc; simpl; [reflexivity|].
  rewrite IH. simpl. destruct (cls c), (all_chars cls s); reflexivity.
Qed.

Lemma all_chars_rev (cls : N -> bool) (s : str) :
  all_chars cls (PyStr.rev s) = all_chars cls s.
Proof. unfold PyStr.rev. rewrite all_chars_rev_onto. simpl. apply andb_true_r. Qed.

Lemma all_chars_lstrip (cls p : N -> bool) (s : str) :
  all_chars cls s = true -> all_chars cls (PyStr.lstrip_by p s) = true.
Proof.
  induction s as [|c s IH]; simpl; [reflexivity|].
  intros H. apply andb_true_iff in H as [Hc Hs].
  destruct (p c); [apply IH; exact Hs|]. simpl. rewrite Hc, Hs. reflexivity.
Qed.

Lemma all_chars_strip (cls p : N -> bool) (s : str) :
  all_chars cls s = true -> all_chars cls (PyStr.strip_by p s) = true.
Proof.
  intros H. unfold PyStr.strip_by. rewrite all_chars_rev. apply all_chars_lstrip.
  rewrite all_chars_rev. apply all_chars_lstrip. exact H.
Qed.

Lemma rev_onto_rev_onto (s acc acc' : str) :
  PyStr.rev_onto (PyStr.rev_onto s acc) acc' = PyStr.rev_onto acc (s +:+ acc').
Proof.
  revert acc acc'. induction s as [|c s IH]; intros acc acc'; simpl; [reflexivity|].
  rewrite IH. reflexivity.
Qed.

Lemma rev_rev (s : str) : PyStr.rev (PyStr.rev s) = s.
Proof.
  unfold PyStr.rev. rewrite rev_onto_rev_onto. simpl. apply append_empty_r.
Qed.

Lemma lstrip_outside (cls p : N -> bool) (s : str) :
  (forall c, cls c = true -> p c = false) ->
  all_chars cls s = true -> PyStr.lstrip_by p s = s.
Proof.
  intros Hp. destruct s as [|c s]; simpl; [reflexivity|].
  intros H. apply andb_true_iff in H as [Hc _]. rewrite (Hp c Hc). reflexivity.
Qed.

(** [strip] leaves a text alone that has none of the stripped characters. *)
Lemma strip_outside (cls p : N -> bool) (s : str) :
  (forall c, cls c = true -> p c = false) ->
  all_chars cls s = true -> PyStr.strip_by p s = s.
Proof.
  intros Hp H. unfold PyStr.strip_by.
  rewrite (lstrip_outside cls p s Hp H).
  rewrite (lstrip_outside cls p (PyStr.rev s) Hp) by (rewrite all_chars_rev; exact H).
  apply rev_rev.
Qed.

Lemma word_dash_dot_not_space (c : N) :
  Re.word_dash_dot c = true -> PyStr.isspace c = false.
Proof.
  intros H. destruct (PyStr.isspace c) eqn:E; [|reflexivity]. exfalso.
  unfold PyStr.isspace, Unicode.isspace in E.
  apply existsb_exists in E as (x & Hin & Heq). apply N.eqb_eq in Heq. subst x.
  assert (Hall : forallb (fun x => negb (Re.word_dash_dot x)) Unicode.whitespace = true)
    by (vm_compute; reflexivity).
  rewrite forallb_forall in Hall. specialize (Hall c Hin). rewrite H in Hall. discriminate.
Qed.

(** The three groups of a match of the line pattern. *)
Lemma row_pattern_groups (text : str) (gs : list str) :
  Re.re_search Re.row_pattern text = Some gs ->
  exists g1 g2 g3,
    gs = [g1; g2; g3]
    /\ all_chars Re.word_dash_blank g1 = true
    /\ all_chars Re.word_dash_dot g2 = true /\ g2 <> []
    /\ all_chars Re.word_dash_dot g3 = true /\ g3 <> [].
Proof.
  intros H. apply re_search_groups in H.
  change (group_classes Re.row_pattern)
    with [Re.word_dash_blank; Re.word_dash_dot; Re.word_dash_dot] in H.
  inversion H as [|c1 g1 l1 r1 [A1 _] H1]; subst.
  inversion H1 as [|c2 g2 l2 r2 [A2 N2] H2]; subst.
  inversion H2 as [|c3 g3 l3 r3 [A3 N3] H3]; subst.
  inversion H3; subst.
  exists g1, g2, g3. repeat split; assumption.
Qed.

(** What the line pattern offers as a row, if anything. *)
Lemma extract_row_offer (rows : list KeywordRow) (text : str) :
  extract_row rows text = rows
  \/ exists kw perf sv,
       extract_row rows text = add_keyword_row rows kw perf sv
       /\ all_chars Re.word_dash_blank kw = true
       /\ all_chars Re.word_dash_dot perf = true /\ perf <> []
       /\ all_chars Re.word_dash_dot sv = true /\ sv <> [].
Proof.
  unfold extract_row. destruct (Re.re_search Re.row_pattern text) as [gs|] eqn:E;
    [|left; reflexivity].
  apply row_pattern_groups in E as (g1 & g2 & g3 & -> & A1 & A2 & N2 & A3 & N3).
  right. exists (PyStr.strip g1), (PyStr.strip g2), (PyStr.strip g3).
  split; [reflexivity|].
  unfold PyStr.strip.
  rewrite (strip_outside Re.word_dash_dot PyStr.isspace g2 word_dash_dot_not_space A2).
  rewrite (strip_outside Re.word_dash_dot PyStr.isspace g3 word_dash_dot_not_space A3).
  split; [apply all_chars_strip; exact A1|]. repeat split; assumption.
Qed.

(** X10: when the line pattern adds a row, the row goes to the end, its
    keyword is new (compared in lower case) and is made of word characters,
    hyphens and blanks, and its performance and sov are non-empty texts of
    word characters, hyphens and dots. The keyword can be empty: the pattern
    path has no test for that. *)
Theorem extract_row_shape (rows : list KeywordRow) (text : str) :
  (extract_row rows text = rows
   \/ exists kw perf sv,
        extract_row rows text = rows ++ [mkRow kw perf sv]
        /\ existsb (fun row => PyStr.eqb (PyStr.lower (keyword row)) (PyStr.lower kw)) rows
           = false
        /\ all_chars Re.word_dash_blank kw = true
        /\ all_chars Re.word_dash_dot perf = true /\ perf <> []
        /\ all_chars Re.word_dash_dot sv = true /\ sv <> [])
  /\ extract_row rows "keyword:  , performance: 5, sov: 3"
     = add_keyword_row rows [] "5" "3".
Proof.
  split.
  2: { unfold extract_row.
       assert (E : Re.re_search Re.row_pattern "keyword:  , performance: 5, sov: 3"
                   = Some [" "; "5"; "3"]) by (vm_compute; reflexivity).
       rewrite E.
       assert (E1 : PyStr.strip " " = []) by (vm_compute; reflexivity).
       assert (E2 : PyStr.strip "5" = "5") by (vm_compute; reflexivity).
       assert (E3 : PyStr.strip "3" = "3") by (vm_compute; reflexivity).
       rewrite E1, E2, E3. reflexivity. }
  destruct (extract_row_offer rows text) as [H | (kw & perf & sv & H & A)];
    [left; exact H|].
  unfold add_keyword_row in H.
  destruct (existsb (fun row => PyStr.eqb (PyStr.lower (keyword row)) (PyStr.lower kw)) rows)
    eqn:E; [left; exact H|].
  right. exists kw, perf, sv. split; [exact H|]. split; [exact E | exact A].
Qed.

(** *** Rows that are already there *)

Lemma add_keyword_row_absorbed (rows rows' : list KeywordRow) (kw perf sv : str) :
  add_keyword_row rows kw perf sv `prefix_of` rows' ->
  add_keyword_row rows' kw perf sv = rows'.
Proof.
  intros H.
  assert (Hin : exists row, row ∈ add_keyword_row rows kw perf sv
                            /\ PyStr.eqb (PyStr.lower (keyword row)) (PyStr.lower kw) = true).
  { unfold add_keyword_row.
    destruct (existsb (fun row => PyStr.eqb (PyStr.lower (keyword row)) (PyStr.lower kw)) rows)
      eqn:E.
    - apply existsb_exists in E as (row & Hin & Hrow). exists row.
      split; [apply list_elem_of_In; exact Hin | exact Hrow].
    - exists (mkRow kw perf sv). split; [apply elem_of_app; right; left|].
      apply str_eqb_refl. }
  destruct Hin as (row & Hin & Hrow).
  unfold add_keyword_row at 1.
  assert (E : existsb (fun row => PyStr.eqb (PyStr.lower (keyword row)) (PyStr.lower kw)) rows'
              = true).
  { apply existsb_exists. exists row. split; [|exact Hrow].
    apply list_elem_of_In. eapply prefix_elem; [exact H | exact Hin]. }
  rewrite E. reflexivity.
Qed.

Lemma extract_row_absorbed (rows rows' : list KeywordRow) (text : str) :
  extract_row rows text `prefix_of` rows' -> extract_row rows' text = rows'.
Proof.
  unfold extract_row. destruct (Re.re_search Re.row_pattern text) as [gs|]; [|reflexivity].
  destruct gs as [|g1 [|g2 [|g3 [|g4 gs]]]]; try reflexivity.
  apply add_keyword_row_absorbed.
Qed.

Lemma extract_rows_of_action_absorbed (rows rows' : list KeywordRow) (a : action) :
  extract_rows_of_action rows a `prefix_of` rows' -> extract_rows_of_action rows' a = rows'.
Proof.
  unfold extract_rows_of_action. apply fold_absorb.
  - intros l [text|]; [|reflexivity].
    destruct (PyStr.truthy text); [apply extract_row_grows | reflexivity].
  - intros l [text|] l'; [|reflexivity].
    destruct (PyStr.truthy text); [apply extract_row_absorbed | reflexivity].
Qed.

Lemma extract_rows_absorbed (actions : list action) (rows rows' : list KeywordRow) :
  fold_left extract_rows_of_action actions rows `prefix_of` rows' ->
  fold_left extract_rows_of_action actions rows' = rows'.
Proof.
  apply fold_absorb.
  - intros l a. apply extract_rows_of_action_grows.
  - intros l a l'. apply extract_rows_of_action_absorbed.
Qed.

(** *** Rows with a performance and a sov *)

Lemma truthy_nonempty (s : str) : PyStr.truthy s = true -> s <> [].
Proof. destruct s; [discriminate | intros _; discriminate]. Qed.

Lemma add_keyword_row_scored rows kw perf sv :
  perf <> [] -> sv <> [] ->
  Forall scored rows -> Forall scored (add_keyword_row rows kw perf sv).
Proof.
  intros Hp Hs H. unfold add_keyword_row. destruct (existsb _ rows); [exact H|].
  apply Forall_app. split; [exact H|]. constructor; [|constructor]. split; assumption.
Qed.

Lemma extract_row_scored rows text :
  Forall scored rows -> Forall scored (extract_row rows text).
Proof.
  intros H. destruct (extract_row_offer rows text) as [-> | (kw & perf & sv & -> & A)];
    [exact H|].
  destruct A as (_ & _ & Np & _ & Ns). apply add_keyword_row_scored; assumption.
Qed.

Lemma extract_rows_of_action_scored rows a :
  Forall scored rows -> Forall scored (extract_rows_of_action rows a).
Proof.
  intros H. unfold extract_rows_of_action. simpl.
  assert (Hf : forall rows0 field, Forall scored rows0 ->
             Forall scored match field with
                           | Some text => if PyStr.truthy text then extract_row rows0 text
                                          else rows0
                           | None => rows0
                           end).
  { intros rows0 [text|] H0; [|exact H0].
    destruct (PyStr.truthy text); [apply extract_row_scored|]; exact H0. }
  apply Hf. apply Hf. exact H.
Qed.

Lemma fold_left_preserves {A X} (P : A -> Prop) (f : A -> X -> A) :
  (forall a x, P a -> P (f a x)) -> forall xs a, P a -> P (fold_left f xs a).
Proof.
  intros Hf xs. induction xs as [|x xs IH]; intros a Ha; simpl; [exact Ha|].
  apply IH. apply Hf. exact Ha.
Qed.

Lemma table_row_scored rows row : Forall scored rows -> Forall scored (table_row rows row).
Proof.
  intros H. unfold table_row. destruct (negb _); [exact H|].
  destruct (map PyStr.strip _) as [|kw [|perf [|sv rest]]]; try exact H.
  destruct (PyStr.truthy kw); [|exact H]. cbn [andb].
  destruct (PyStr.truthy perf) eqn:Ep; [|exact H]. cbn [andb].
  destruct (PyStr.truthy sv) eqn:Es; [|exact H].
  apply add_keyword_row_scored; [apply truthy_nonempty .. | exact H]; assumption.
Qed.

Lemma list_item_row_scored rows item :
  Forall scored rows -> Forall scored (list_item_row rows item).
Proof.
  intros H. unfold list_item_row. destruct item; try exact H.
  repeat case_match; try exact H.
  repeat match goal with
         | Hc : _ && _ = true |- _ => apply andb_true_iff in Hc; destruct Hc
         end.
  apply add_keyword_row_scored; [apply truthy_nonempty .. | exact H]; assumption.
Qed.

Lemma final_result_rows_scored rows final_result :
  Forall scored rows -> Forall scored (final_result_rows rows final_result).
Proof.
  intros H. unfold final_result_rows. destruct (py_truthy final_result); [|exact H].
  destruct final_result; try exact H.
  - apply fold_left_preserves; [intros; apply extract_row_scored; assumption|].
    unfold table_pass. repeat case_match; try exact H.
    apply fold_left_preserves; [intros; apply table_row_scored; assumption | exact H].
  - apply fold_left_preserves; [intros; apply list_item_row_scored; assumption | exact H].
Qed.

(** ** The step callback and the collections *)

Lemma collect_screenshot_collections m state :
  vayner_business_info (collect_screenshot m state) = vayner_business_info m
  /\ vayner_keyword_data (collect_screenshot m state) = vayner_keyword_data m
  /\ vayner_ranking_data (collect_screenshot m state) = vayner_ranking_data m
  /\ vayner_keyword_table_rows (collect_screenshot m state) = vayner_keyword_table_rows m
  /\ vayner_screenshots (collect_screenshot m state)
     = vayner_screenshots m ++ kept_screenshot state
  /\ vayner_chat_history (collect_screenshot m state) = vayner_chat_history m
  /\ vayner_current_business (collect_screenshot m state) = vayner_current_business m.
Proof.
  unfold collect_screenshot, kept_screenshot. destruct (st_screenshot state) as [d|].
  - destruct (PyStr.truthy d && (100 <? PyStr.len d)); fields;
      rewrite ?app_nil_r; repeat split; reflexivity.
  - rewrite app_nil_r. repeat split; reflexivity.
Qed.

Lemma add_components_collections tab l m :
  collections (add_components tab l m) = collections m.
Proof.
  revert m. induction l as [|e l IH]; intros m; [reflexivity|].
  change (add_components tab (e :: l) m) with (add_components tab l (add_component tab m e)).
  rewrite IH. reflexivity.
Qed.

Lemma register_all_collections calls m :
  collections (register_all calls m) = collections m.
Proof.
  revert m. induction calls as [|c calls IH]; intros m; [reflexivity|].
  change (register_all (c :: calls) m) with (register_all calls (add_components c.1 c.2 m)).
  rewrite IH. apply add_components_collections.
Qed.

Lemma relay_all_state updates m :
  collections (relay_all m updates).1 = collections m
  /\ vayner_chat_history (relay_all m updates).1 = vayner_chat_history m
  /\ vayner_current_business (relay_all m updates).1 = vayner_current_business m
  /\ vayner_pdf_report (relay_all m updates).1 = vayner_pdf_report m.
Proof.
  unfold relay_all.
  assert (H : forall (acc : WebuiManager * list ui_dict),
             let r := (fold_left
                         (fun (acc : WebuiManager * list ui_dict) update =>
                            let '(m, out) := relay acc.1 update in (m, acc.2 ++ [out]))
                         updates acc).1 in
             collections r = collections acc.1
             /\ vayner_chat_history r = vayner_chat_history acc.1
             /\ vayner_current_business r = vayner_current_business acc.1
             /\ vayner_pdf_report r = vayner_pdf_report acc.1).
  { induction updates as [|u updates IH]; intros acc; simpl; [repeat split; reflexivity|].
    destruct (IH (let '(m0, out) := relay acc.1 u in (m0, acc.2 ++ [out]))) as (A & B & C & D).
    rewrite A, B, C, D. unfold relay. rewrite drain_all. repeat split; reflexivity. }
  apply (H (m, [])).
Qed.

Lemma run_vayner_research_collections env w business_name :
  collections (manager (run_vayner_research env w business_name).1.1)
  = collections (manager w).
Proof.
  unfold run_vayner_research, announce, report_failure. repeat case_match; reflexivity.
Qed.

Lemma run_vayner_research_chat env w business_name :
  vayner_chat_history (manager w)
    `prefix_of` vayner_chat_history (manager (run_vayner_research env w business_name).1.1)
  /\ vayner_current_business (manager (run_vayner_research env w business_name).1.1)
     = vayner_current_business (manager w).
Proof.
  unfold run_vayner_research, announce, report_failure.
  repeat case_match; fields; (split; [|reflexivity]);
    try (eexists; reflexivity).
  rewrite <- app_assoc. eexists; reflexivity.
Qed.

Lemma run_vayner_research_report env w business_name :
  vayner_pdf_report (manager (run_vayner_research env w business_name).1.1)
  = vayner_pdf_report (manager w).
Proof.
  unfold run_vayner_research, announce, report_failure. repeat case_match; reflexivity.
Qed.

Lemma handle_stop_collections env w :
  collections (manager (handle_stop env w).1) = collections (manager w).
Proof.
  destruct (handle_stop_manager env w) as [->|(agent & agent' & _ & ->)]; reflexivity.
Qed.

Lemma clear_task_collections env w :
  collections (manager (clear_task env w).1) = collections (manager w).
Proof.
  destruct (clear_task_manager env w) as [->|(agent & agent' & _ & ->)]; reflexivity.
Qed.

Section StepFacts.

Variable py_repr : py_value -> str.

Variable format_step_log : browser_state -> list action -> Z -> str.

(** What a step callback makes of the collections and of the chat. *)
Lemma step_callback_collections (m : WebuiManager) (state : browser_state)
    (actions : list action) (step_num : Z) :
  let m' := (step_callback py_repr format_step_log m state actions step_num).1 in
  vayner_business_info m'
  = add_page_url state (add_all (concat (map business_notes actions)) (vayner_business_info m))
  /\ vayner_keyword_data m'
     = add_text_content state
         (add_all (concat (map keyword_notes actions)) (vayner_keyword_data m))
  /\ vayner_ranking_data m'
     = add_all (concat (map ranking_notes actions)) (vayner_ranking_data m)
  /\ vayner_keyword_table_rows m'
     = fold_left extract_rows_of_action actions (vayner_keyword_table_rows m)
  /\ vayner_screenshots m' = vayner_screenshots m ++ kept_screenshot state
  /\ vayner_chat_history m'
     = vayner_chat_history m
         ++ [mkMessage "assistant" (format_step_log state actions (step_num - 1)%Z)]
  /\ vayner_current_business m' = vayner_current_business m.
Proof.
  cbv zeta. unfold step_callback, step_callback_in, refresh_report.
  rewrite history_unbound. fields.
  destruct (aggregate_step_facts (collect_screenshot m state) state actions)
    as (B & K & R & W & S & C & N).
  destruct (collect_screenshot_collections m state) as (B0 & K0 & R0 & W0 & S0 & C0 & N0).
  cbv zeta in B, K, R, W, S, C, N.
  rewrite B, K, R, W, S, C, N, B0, K0, R0, W0, S0, C0, N0.
  repeat split; reflexivity.
Qed.

(** X11: a step callback that is given the same state and the same actions a
    second time adds no note and no row: the three note collections and the
    keyword rows are what they were after the first call. The screenshot of
    the state, if it is kept, is stored once more, and the chat gets one more
    entry. *)
Theorem step_callback_repeat_adds_no_fact (m : WebuiManager) (state : browser_state)
    (actions : list action) (step_num step_num' : Z) :
  let m1 := (step_callback py_repr format_step_log m state actions step_num).1 in
  let m2 := (step_callback py_repr format_step_log m1 state actions step_num').1 in
  facts m2 = facts m1
  /\ vayner_screenshots m2
     = vayner_screenshots m ++ kept_screenshot state ++ kept_screenshot state
  /\ length (vayner_chat_history m2) = 2 + length (vayner_chat_history m).
Proof.
  cbv zeta.
  destruct (step_callback_collections m state actions step_num)
    as (B & K & R & W & S & C & _).
  destruct (step_callback_collections
              (step_callback py_repr format_step_log m state actions step_num).1
              state actions step_num')
    as (B' & K' & R' & W' & S' & C' & _).
  cbv zeta in *. unfold facts.
  rewrite B', K', R', W', S', C'. clear B' K' R' W' S' C'.
  split; [|split].
  - f_equal; [f_equal; [f_equal|]|].
    + rewrite B.
      rewrite (add_all_absorbed _ (vayner_business_info m)) by apply add_page_url_prefix.
      apply (add_page_url_absorbed state
               (add_all (concat (map business_notes actions)) (vayner_business_info m))).
      reflexivity.
    + rewrite K.
      rewrite (add_all_absorbed _ (vayner_keyword_data m)) by apply add_text_content_prefix.
      apply (add_text_content_absorbed state
               (add_all (concat (map keyword_notes actions)) (vayner_keyword_data m))).
      reflexivity.
    + rewrite R. apply (add_all_absorbed _ (vayner_ranking_data m)). reflexivity.
    + rewrite W. apply (extract_rows_absorbed actions (vayner_keyword_table_rows m)).
      reflexivity.
  - rewrite S, <- app_assoc. reflexivity.
  - rewrite C, !length_app. simpl. lia.
Qed.

(** X12: a step callback only appends: each of the five collections of the
    manager is a prefix of what it is after the call, the chat history gets
    exactly one entry, of the assistant, and the business name under research
    is left alone. *)
Theorem step_callback_only_appends (m : WebuiManager) (state : browser_state)
    (actions : list action) (step_num : Z) :
  let m' := (step_callback py_repr format_step_log m state actions step_num).1 in
  facts_extend m m'
  /\ vayner_keyword_table_rows m `prefix_of` vayner_keyword_table_rows m'
  /\ (exists entry,
        vayner_chat_history m' = vayner_chat_history m ++ [entry]
        /\ role entry = "assistant")
  /\ vayner_current_business m' = vayner_current_business m.
Proof.
  cbv zeta.
  destruct (step_callback_collections m state actions step_num)
    as (B & K & R & W & S & C & N).
  cbv zeta in *. unfold facts_extend. rewrite B, K, R, W, S, C, N.
  split; [split; [|split; [|split]]|split; [|split]].
  - etrans; [apply add_all_prefix | apply add_page_url_prefix].
  - etrans; [apply add_all_prefix | apply add_text_content_prefix].
  - apply add_all_prefix.
  - eexists; reflexivity.
  - apply (fold_extends extract_rows_of_action). intros. apply extract_rows_of_action_grows.
  - eexists. split; reflexivity.
  - reflexivity.
Qed.

Lemma done_callback_state m history :
  vayner_business_info (done_callback py_repr m history) = vayner_business_info m
  /\ vayner_keyword_data (done_callback py_repr m history) = vayner_keyword_data m
  /\ vayner_ranking_data (done_callback py_repr m history) = vayner_ranking_data m
  /\ vayner_screenshots (done_callback py_repr m history) = vayner_screenshots m
  /\ vayner_keyword_table_rows (done_callback py_repr m history)
     = final_result_rows (vayner_keyword_table_rows m) (h_final_result history).
Proof. unfold done_callback. fields. repeat split; reflexivity. Qed.

Lemma handle_submit_collections env w business_name :
  collections (manager (handle_submit py_repr env w business_name).1.1)
  = (if PyStr.truthy (PyStr.strip business_name)
     then ([], [], [], [], [])
     else collections (manager w)).
Proof.
  unfold handle_submit.
  destruct (PyStr.truthy (PyStr.strip business_name)); cbn [negb]; [|reflexivity].
  match goal with
  | |- context [run_vayner_research env ?w0 ?n] =>
      pose proof (run_vayner_research_collections env w0 n) as Hr;
      destruct (run_vayner_research env w0 n) as [[w' updates] outcome]
  end.
  pose proof (relay_all_state updates (manager w')) as (Hq & _).
  destruct (relay_all (manager w') updates) as [m' relayed]. fields.
  rewrite Hq, Hr. reflexivity.
Qed.

(** [handle_clear] empties the collections, unless it is blocked before. *)
Lemma handle_clear_collections env w :
  collections (manager (handle_clear py_repr env w).1) = ([], [], [], [], [])
  \/ collections (manager (handle_clear py_repr env w).1) = collections (manager w).
Proof.
  pose proof (clear_task_collections env w) as Hc. unfold handle_clear.
  destruct (clear_task env w) as [w1 [stopped|]]; cbn [fst snd] in *.
  - right. exact Hc.
  - left. reflexivity.
Qed.

Lemma facts_wellformed_empty (m : WebuiManager) :
  collections m = ([], [], [], [], []) -> facts_wellformed m.
Proof.
  unfold collections, facts_wellformed. intros H. injection H as B K R S W.
  rewrite B, K, R, S, W. repeat split; try apply NoDup_nil_2; constructor.
Qed.

Lemma facts_wellformed_same (m m' : WebuiManager) :
  collections m' = collections m -> facts_wellformed m -> facts_wellformed m'.
Proof.
  unfold collections, facts_wellformed. intros H. injection H as B K R S W.
  rewrite B, K, R, S, W. tauto.
Qed.

(** X13: in every world a session can reach, the three note collections hold
    no text twice, every stored screenshot is longer than 100 characters, and
    every keyword row has a non-empty performance and a non-empty sov. *)
Theorem session_collections_wellformed (w : World) :
  reachable py_repr format_step_log w ->
  NoDup (vayner_business_info (manager w))
  /\ NoDup (vayner_keyword_data (manager w))
  /\ NoDup (vayner_ranking_data (manager w))
  /\ Forall (fun shot => 100 < PyStr.len shot) (vayner_screenshots (manager w))
  /\ Forall scored (vayner_keyword_table_rows (manager w)).
Proof.
  intros Hreach. change (facts_wellformed (manager w)).
  induction Hreach as [calls | env w name _ IH | w state actions n _ IH | w history _ IH
                      | w t st _ IH | env w _ IH | env w _ IH].
  - apply facts_wellformed_empty. cbn [manager]. rewrite register_all_collections. reflexivity.
  - pose proof (handle_submit_collections env w name) as H.
    destruct (PyStr.truthy (PyStr.strip name)).
    + apply facts_wellformed_empty. exact H.
    + apply (facts_wellformed_same (manager w)); assumption.
  - cbn [manager].
    destruct (step_callback_collections (manager w) state actions n)
      as (B & K & R & W & S & _).
    cbv zeta in *. destruct IH as (NB & NK & NR & FS & FW).
    unfold facts_wellformed. rewrite B, K, R, W, S.
    split; [|split; [|split; [|split]]].
    + apply add_page_url_nodup, add_all_nodup, NB.
    + apply add_text_content_nodup, add_all_nodup, NK.
    + apply add_all_nodup, NR.
    + apply Forall_app. split; [exact FS|].
      unfold kept_screenshot. destruct (st_screenshot state) as [d|]; [|constructor].
      destruct (PyStr.truthy d); cbn [andb]; [|constructor].
      destruct (100 <? PyStr.len d) eqn:L; constructor; [|constructor].
      apply Nat.ltb_lt. exact L.
    + apply fold_left_preserves; [|exact FW].
      intros. apply extract_rows_of_action_scored. assumption.
  - cbn [manager].
    destruct (done_callback_state (manager w) history) as (B & K & R & S & W).
    destruct IH as (NB & NK & NR & FS & FW).
    unfold facts_wellformed. rewrite B, K, R, S, W.
    repeat (split; [assumption|]). apply final_result_rows_scored. exact FW.
  - exact IH.
  - apply (facts_wellformed_same (manager w)); [apply handle_stop_collections | exact IH].
  - destruct (handle_clear_collections env w) as [H|H].
    + apply facts_wellformed_empty. exact H.
    + apply (facts_wellformed_same (manager w)); assumption.
Qed.

(** X14: the completion callback adds no note and no screenshot; it only
    extends the keyword rows, appends one entry of the assistant to the chat,
    and stores the report rendered from the collections it leaves and from
    the final result. *)
Theorem done_callback_only_adds_rows (m : WebuiManager) (history : History) :
  let m' := done_callback py_repr m history in
  vayner_business_info m' = vayner_business_info m
  /\ vayner_keyword_data m' = vayner_keyword_data m
  /\ vayner_ranking_data m' = vayner_ranking_data m
  /\ vayner_screenshots m' = vayner_screenshots m
  /\ vayner_keyword_table_rows m `prefix_of` vayner_keyword_table_rows m'
  /\ vayner_chat_history m'
     = vayner_chat_history m ++ [mkMessage "assistant" (final_summary py_repr history)]
  /\ vayner_pdf_report m'
     = Some (generate_live_report py_repr (vayner_current_business m')
               (vayner_business_info m') (vayner_keyword_data m') (vayner_ranking_data m')
               (vayner_screenshots m') (Some (vayner_keyword_table_rows m'))
               (h_final_result history)).
Proof.
  cbv zeta. destruct (done_callback_state m history) as (B & K & R & S & W).
  rewrite B, K, R, S, W.
  repeat (split; [reflexivity|]).
  split; [apply final_result_rows_grows|].
  unfold done_callback. fields. split; reflexivity.
Qed.

End StepFacts.

Lemma stepped_world_reachable :
  reachable (fun _ => []) (fun _ _ _ => []) stepped_world.
Proof. unfold stepped_world. apply reach_step. exact started_world_reachable. Defined.

Lemma session_collections_wellformed_witness :
  NoDup (vayner_business_info (manager stepped_world))
  /\ NoDup (vayner_keyword_data (manager stepped_world))
  /\ NoDup (vayner_ranking_data (manager stepped_world))
  /\ Forall (fun shot => 100 < PyStr.len shot) (vayner_screenshots (manager stepped_world))
  /\ Forall scored (vayner_keyword_table_rows (manager stepped_world)).
Proof.
  apply (session_collections_wellformed (fun _ => []) (fun _ _ _ => [])
           stepped_world).
  exact stepped_world_reachable.
Defined.

(** ** Clear and submit *)

Section ClearSubmit.

Variable py_repr : py_value -> str.

(** The stop sequence of [handle_clear] either lets the handler go on or
    blocks it. *)
Lemma clear_task_result env w :
  (clear_task env w).2 = None \/ (clear_task env w).2 = Some Blocked.
Proof.
  unfold clear_task.
  repeat case_match; try (left; reflexivity);
    rewrite logged_by_clear_wait;
    match goal with
    | |- context [wait_cancelled env ?t ?w0] =>
        destruct (wait_cancelled_result env t w0) as (-> & _ & _)
    end;
    destruct (env_wait env); tauto.
Qed.

(** It reads the registry, the agent, the current task and the loop tasks
    only. *)
Lemma clear_task_same_session env w1 w2 :
  same_session (manager w1) (manager w2) ->
  loop_tasks w1 = loop_tasks w2 ->
  (clear_task env w1).2 = (clear_task env w2).2
  /\ loop_tasks (clear_task env w1).1 = loop_tasks (clear_task env w2).1
  /\ same_session (manager (clear_task env w1).1) (manager (clear_task env w2).1).
Proof.
  destruct w1 as [m1 tasks1], w2 as [m2 tasks2]. fields.
  intros Hs ->. pose proof Hs as (Hi & Hc & Ha & Ht).
  unfold clear_task, done. fields. rewrite Ha, Ht.
  destruct (vayner_current_task m1) as [task|] eqn:Et1; [|repeat split; fields; first [reflexivity | assumption | congruence]].
  destruct (tasks2 !! task) as [st|] eqn:Est; cbn [negb]; [|repeat split; fields; first [reflexivity | assumption | congruence]].
  destruct (task_done st); cbn [negb]; [repeat split; fields; first [reflexivity | assumption | congruence]|].
  assert (Hwait : forall a,
            let r1 := wait_cancelled env task
                        (cancel_task task (mkWorld (set_agent a m1) tasks2)) in
            let r2 := wait_cancelled env task
                        (cancel_task task (mkWorld (set_agent a m2) tasks2)) in
            r1.2 = r2.2 /\ loop_tasks r1.1 = loop_tasks r2.1
            /\ same_session (manager r1.1) (manager r2.1)).
  { intros a. cbv zeta. unfold wait_cancelled, cancel_task. fields. rewrite Est.
    destruct (env_wait env) as [[|e]|]; rewrite ?swallowed_always;
      unfold set_task_state; fields; repeat split; fields; first [reflexivity | assumption | congruence]. }
  destruct (vayner_agent m1) as [agent|] eqn:Ea1.
  - destruct (agent_has_stop agent).
    + destruct (env_agent_stop env agent) as [agent'|]; [|repeat split; fields; first [reflexivity | assumption | congruence]].
      rewrite !logged_by_clear_wait. apply Hwait.
    + rewrite !logged_by_clear_wait. apply Hwait.
  - rewrite !logged_by_clear_wait.
    unfold wait_cancelled, cancel_task. fields. rewrite Est.
    destruct (env_wait env) as [[|e]|]; rewrite ?swallowed_always;
      unfold set_task_state; fields; repeat split; fields; first [reflexivity | assumption | congruence].
Qed.

(** X15: when the agent of a running research has a [stop] method and the
    call of it raises an [Exception], [handle_clear] does not cancel the
    task: it goes on to reset the collections and yields, the tasks of the
    loop are what they were and the session still has a live task.
    [handle_stop] in the same situation does cancel the task: afterwards the
    task has ended when the wait for it ended, and stays asked to cancel when
    it never ends; it is never left running without a request to cancel. *)
Theorem handle_clear_keeps_task_when_stop_raises (env : stop_env) (w : World)
    (agent : Agent) (task : Task) :
  vayner_current_task (manager w) = Some task ->
  done w task = false ->
  vayner_agent (manager w) = Some agent ->
  agent_has_stop agent = true ->
  env_agent_stop env agent = None ->
  (exists update, (handle_clear py_repr env w).2 = Yielded update)
  /\ loop_tasks (handle_clear py_repr env w).1 = loop_tasks w
  /\ running (handle_clear py_repr env w).1 = true
  /\ collections (manager (handle_clear py_repr env w).1) = ([], [], [], [], [])
  /\ loop_tasks (handle_stop env w).1 !! task
     = Some (match env_wait env with
             | WaitEnds how => task_after_wait how
             | WaitNeverEnds => TaskCancelling
             end)
  /\ loop_tasks (handle_stop env w).1 !! task <> Some TaskPending.
Proof.
  intros Ht Hd Ha Hs He.
  assert (Hc : clear_task env w = (w, None)).
  { unfold clear_task. rewrite Ht, Hd, Ha, Hs, He. reflexivity. }
  assert (Hstop : loop_tasks (handle_stop env w).1 !! task
                  = Some (match env_wait env with
                          | WaitEnds how => task_after_wait how
                          | WaitNeverEnds => TaskCancelling
                          end)).
  { unfold handle_stop. rewrite Ha, Ht, Hd. cbn [negb].
    unfold done in Hd. destruct (loop_tasks w !! task) as [st|] eqn:Est; [|discriminate].
    assert (Hlt : task < length (loop_tasks w)) by (eapply lookup_lt_Some; exact Est).
    match goal with
    | |- context [wait_cancelled env task ?w0] =>
        destruct (wait_cancelled_result env task w0) as (Hr & _ & Hl);
        destruct (wait_cancelled env task w0) as [w1 [stopped|]]
    end; cbn [fst snd] in *; rewrite Hl; unfold cancel_task; fields; rewrite Est;
      unfold set_task_state; fields;
      destruct (env_wait env) as [how|]; try discriminate.
    - replace (task_cancel st) with TaskCancelling by (destruct st; try discriminate; reflexivity).
      apply list_lookup_insert_eq. exact Hlt.
    - apply list_lookup_insert_eq. rewrite length_insert. exact Hlt. }
  split; [|split; [|split; [|split; [|split]]]].
  - unfold handle_clear. rewrite Hc. eexists. reflexivity.
  - unfold handle_clear. rewrite Hc. reflexivity.
  - unfold handle_clear, running, done. rewrite Hc. fields. rewrite Ht.
    unfold done in Hd. rewrite Hd. reflexivity.
  - unfold handle_clear. rewrite Hc. reflexivity.
  - exact Hstop.
  - rewrite Hstop. destruct (env_wait env) as [[|[]]|]; discriminate.
Qed.

(** X16: [handle_clear] carries nothing over: two worlds with the same
    registry, agent, current task and loop tasks do the same, whatever their
    chat histories, reports, collections, business names and update queues
    are. When the handler yields, the worlds and the updates are the same;
    when the wait for the task never ends, both are blocked with the same
    tasks, registry, agent and current task. *)
Theorem handle_clear_forgets (env : stop_env) (w1 w2 : World) :
  same_session (manager w1) (manager w2) ->
  loop_tasks w1 = loop_tasks w2 ->
  (handle_clear py_repr env w1).2 = (handle_clear py_repr env w2).2
  /\ loop_tasks (handle_clear py_repr env w1).1 = loop_tasks (handle_clear py_repr env w2).1
  /\ same_session (manager (handle_clear py_repr env w1).1)
       (manager (handle_clear py_repr env w2).1)
  /\ ((handle_clear py_repr env w1).2 <> Blocked ->
      handle_clear py_repr env w1 = handle_clear py_repr env w2).
Proof.
  intros Hs Hl.
  destruct (clear_task_same_session env w1 w2 Hs Hl) as (H2 & Ht & (Hi & Hc & Ha & Hk)).
  pose proof (clear_task_result env w1) as Hr1.
  unfold handle_clear, get_component_by_id.
  destruct (clear_task env w1) as [[m1 tasks1] [stopped1|]],
           (clear_task env w2) as [[m2 tasks2] [stopped2|]];
    cbn [fst snd] in *; fields; try discriminate.
  - inversion H2; subst stopped2. destruct Hr1 as [Hr1|Hr1]; [discriminate|].
    inversion Hr1; subst stopped1.
    split; [reflexivity|]. split; [exact Ht|]. split; [repeat split; assumption|].
    intros Hne. exfalso. apply Hne. reflexivity.
  - subst tasks2.
    split; [rewrite ?Hi; reflexivity|]. split; [reflexivity|].
    split; [repeat split; fields; assumption|].
    intros _. clear Hs Hl H2 Hr1. destruct m1, m2. fields. subst. reflexivity.
Qed.

(** X17: a submit with a name that is not blank starts from nothing: whatever
    the start of the research runs into, the five collections are empty
    afterwards, the business under research is the stripped name, the stored
    report is the one rendered for that name from empty collections, and the
    first update yielded shows it. The chat history is not reset: what was
    there stays in front. *)
Theorem handle_submit_starts_afresh (env : start_env) (w : World) (business_name : str) :
  PyStr.truthy (PyStr.strip business_name) = true ->
  let r := handle_submit py_repr env w business_name in
  let report :=
    generate_live_report py_repr (PyStr.strip business_name) [] [] [] [] (Some []) PyNone in
  collections (manager r.1.1) = ([], [], [], [], [])
  /\ vayner_current_business (manager r.1.1) = PyStr.strip business_name
  /\ vayner_pdf_report (manager r.1.1) = Some report
  /\ vayner_chat_history (manager w) `prefix_of` vayner_chat_history (manager r.1.1)
  /\ head r.1.2
     = Some {[ get_component_by_id (manager w) pdf_report_id
               := mkUpdate (Some (UText report)) (Some true) None ]}.
Proof.
  intros Hname. cbv zeta.
  pose proof (handle_submit_collections py_repr env w business_name) as Hcol.
  rewrite Hname in Hcol. split; [exact Hcol|]. clear Hcol.
  unfold handle_submit. rewrite Hname. cbn [negb].
  match goal with
  | |- context [run_vayner_research env ?w0 ?n] =>
      pose proof (run_vayner_research_chat env w0 n) as (Hchat & Hbus);
      pose proof (run_vayner_research_report env w0 n) as Hpdf;
      destruct (run_vayner_research env w0 n) as [[w' updates] outcome]
  end.
  pose proof (relay_all_state updates (manager w')) as (_ & Hc & Hb & Hp).
  destruct (relay_all (manager w') updates) as [m' relayed]. fields.
  rewrite Hc, Hb, Hp, Hbus, Hpdf.
  repeat split; [exact Hchat].
Qed.

End ClearSubmit.

Lemma handle_clear_keeps_task_when_stop_raises_witness :
  let env := mkStopEnv (fun _ => None) (WaitEnds (WaitRaised CancelledError)) in
  (exists update, (handle_clear (fun _ => []) env started_world).2 = Yielded update)
  /\ loop_tasks (handle_clear (fun _ => []) env started_world).1 = loop_tasks started_world
  /\ running (handle_clear (fun _ => []) env started_world).1 = true
  /\ collections (manager (handle_clear (fun _ => []) env started_world).1)
     = ([], [], [], [], [])
  /\ loop_tasks (handle_stop env started_world).1 !! 0
     = Some (task_after_wait (WaitRaised CancelledError))
  /\ loop_tasks (handle_stop env started_world).1 !! 0 <> Some TaskPending.
Proof.
  apply (handle_clear_keeps_task_when_stop_raises (fun _ => [])
           (mkStopEnv (fun _ => None) (WaitEnds (WaitRaised CancelledError))) started_world
           (mkAgent true false false) 0).
  - vm_compute. reflexivity.
  - vm_compute. reflexivity.
  - vm_compute. reflexivity.
  - reflexivity.
  - reflexivity.
Defined.

Lemma handle_clear_forgets_witness :
  let env := mkStopEnv (fun agent => Some agent) (WaitEnds (WaitRaised CancelledError)) in
  let running_manager :=
    set_current_task (Some 0) (set_agent (Some (mkAgent true false false)) new_manager) in
  let w1 := mkWorld running_manager [TaskPending] in
  let w2 :=
    mkWorld
      (set_chat_history [mkMessage "user" "Research business: Acme Dental"]
         (set_business_info ["Business name: Acme Dental"] running_manager))
      [TaskPending] in
  (handle_clear (fun _ => []) env w1).2 = (handle_clear (fun _ => []) env w2).2
  /\ loop_tasks (handle_clear (fun _ => []) env w1).1
     = loop_tasks (handle_clear (fun _ => []) env w2).1
  /\ same_session (manager (handle_clear (fun _ => []) env w1).1)
       (manager (handle_clear (fun _ => []) env w2).1)
  /\ ((handle_clear (fun _ => []) env w1).2 <> Blocked ->
      handle_clear (fun _ => []) env w1 = handle_clear (fun _ => []) env w2).
Proof.
  apply (handle_clear_forgets (fun _ => [])
           (mkStopEnv (fun agent => Some agent) (WaitEnds (WaitRaised CancelledError)))
           (mkWorld
              (set_current_task (Some 0)
                 (set_agent (Some (mkAgent true false false)) new_manager))
              [TaskPending])
           (mkWorld
              (set_chat_history [mkMessage "user" "Research business: Acme Dental"]
                 (set_business_info ["Business name: Acme Dental"]
                    (set_current_task (Some 0)
                       (set_agent (Some (mkAgent true false false)) new_manager))))
              [TaskPending])).
  - split; [reflexivity|]. split; [reflexivity|]. split; reflexivity.
  - reflexivity.
Defined.

Lemma handle_submit_starts_afresh_witness :
  let r := handle_submit (fun _ => []) (mkStartEnv true None None true)
             stepped_world "  Bright Smiles " in
  let report :=
    generate_live_report (fun _ => []) (PyStr.strip "  Bright Smiles ")
      [] [] [] [] (Some []) PyNone in
  collections (manager r.1.1) = ([], [], [], [], [])
  /\ vayner_current_business (manager r.1.1) = PyStr.strip "  Bright Smiles "
  /\ vayner_pdf_report (manager r.1.1) = Some report
  /\ vayner_chat_history (manager stepped_world) `prefix_of` vayner_chat_history (manager r.1.1)
  /\ head r.1.2
     = Some {[ get_component_by_id (manager stepped_world) pdf_report_id
               := mkUpdate (Some (UText report)) (Some true) None ]}.
Proof.
  apply (handle_submit_starts_afresh (fun _ => []) (mkStartEnv true None None true)
           stepped_world "  Bright Smiles ").
  reflexivity.
Defined.

(** ** The blocks of the report *)

Lemma append_empty_l (a : str) : [] +:+ a = a.
Proof. reflexivity. Qed.

(** A loop whose turns only append gives the same text after any start. *)
Lemma fold_left_join {A} (step : str -> A -> str) :
  (forall h x, step h x = h +:+ step [] x) ->
  forall l h, fold_left step l h = h +:+ join (map (step []) l).
Proof.
  intros Hstep l. induction l as [|x l IH]; intros h; simpl.
  - rewrite append_empty_r. reflexivity.
  - rewrite IH, (Hstep h x), append_assoc. reflexivity.
Qed.

Section ReportBlocks.

Variable py_repr : py_value -> str.

Lemma render_table_appends (html final_result : str) :
  render_table html final_result = html +:+ render_table [] final_result.
Proof.
  unfold render_table. cbv zeta.
  destruct (find_index is_header_row _) as [header_row_index|].
  - match goal with
    | |- context [fold_left ?rowstep (skipn ?k ?l) _] =>
        assert (Hrow : forall h x, rowstep h x = h +:+ rowstep [] x)
    end.
    { intros h x. cbv beta. destruct (PyStr.contains "|" x.2); [|symmetry; apply append_empty_r].
      match goal with
      | |- context [fold_left ?cellstep ?cells _] =>
          rewrite !(fold_left_join cellstep (fun h0 c => eq_refl))
      end.
      rewrite !append_assoc. reflexivity. }
    match goal with
    | |- context [fold_left ?rowstep (skipn ?k ?l) _] =>
        rewrite !(fold_left_join rowstep Hrow)
    end.
    match goal with
    | |- context [fold_left ?cellstep (row_cells ?header) _] =>
        rewrite !(fold_left_join cellstep (fun h0 c => eq_refl))
    end.
    rewrite !append_assoc. reflexivity.
  - rewrite !append_assoc. reflexivity.
Qed.

Lemma render_text_appends (html : str) (final_result : py_value) :
  render_text py_repr html final_result
  = html +:+ render_text py_repr [] final_result.
Proof.
  unfold render_text. cbv zeta. destruct final_result as [|s|items|entries|truth].
  - rewrite !append_assoc. reflexivity.
  - match goal with
    | |- context [fold_left ?step (PyStr.split_blank s) _] =>
        assert (Hstep : forall h x, step h x = h +:+ step [] x)
    end.
    { intros h x. cbv beta. destruct (PyStr.truthy (PyStr.strip x));
        [reflexivity | symmetry; apply append_empty_r]. }
    match goal with
    | |- context [fold_left ?step (PyStr.split_blank s) _] =>
        rewrite !(fold_left_join step Hstep)
    end.
    rewrite !append_assoc. reflexivity.
  - match goal with
    | |- context [fold_left ?step items _] =>
        rewrite !(fold_left_join step (fun h0 c => eq_refl))
    end.
    rewrite !append_assoc. reflexivity.
  - match goal with
    | |- context [fold_left ?step entries _] =>
        rewrite !(fold_left_join step (fun h0 c => eq_refl))
    end.
    rewrite !append_assoc. reflexivity.
  - rewrite !append_assoc. reflexivity.
Qed.

Lemma render_final_result_appends (html : str) (final_result : py_value) :
  render_final_result py_repr html final_result
  = html +:+ render_final_result py_repr [] final_result.
Proof.
  unfold render_final_result. destruct (py_truthy final_result); [|reflexivity].
  destruct final_result as [|s|items|entries|truth]; try apply render_text_appends.
  destruct (looks_like_table s); [apply render_table_appends | apply render_text_appends].
Qed.

Lemma render_keyword_table_appends (html : str) (rows : list KeywordRow) :
  render_keyword_table html rows = html +:+ render_keyword_table [] rows.
Proof.
  unfold render_keyword_table. destruct rows as [|row rows]; [symmetry; apply append_empty_r|].
  rewrite !render_keyword_rows, !append_assoc. reflexivity.
Qed.

(** X18: the report is a concatenation of blocks that do not depend on one
    another: the three page openings with the business name, the results
    block rendered from the final result alone, the keyword table rendered
    from the rows alone, and the closing tags; each block is the same text
    whatever markup precedes it. *)
Theorem report_is_concatenation_of_blocks (business_name : str)
    (business_info keyword_data ranking_data screenshots : list str)
    (keyword_table_rows : option (list KeywordRow)) (final_result : py_value)
    (html : str) :
  generate_live_report py_repr business_name business_info keyword_data ranking_data
    screenshots keyword_table_rows final_result
  = report_pages business_name
      +:+ render_final_result py_repr [] final_result
      +:+ render_keyword_table []
            (match keyword_table_rows with Some rows => rows | None => [] end)
      +:+ "</div></div>"
  /\ render_final_result py_repr html final_result
     = html +:+ render_final_result py_repr [] final_result
  /\ render_keyword_table html
       (match keyword_table_rows with Some rows => rows | None => [] end)
     = html +:+ render_keyword_table []
                  (match keyword_table_rows with Some rows => rows | None => [] end).
Proof.
  split; [|split].
  - unfold generate_live_report. cbv zeta.
    rewrite render_keyword_table_appends, render_final_result_appends.
    unfold report_pages. rewrite !append_assoc. reflexivity.
  - apply render_final_result_appends.
  - apply render_keyword_table_appends.
Qed.

End ReportBlocks.
(** ** Sanity checks of the str and pattern primitives *)

Example re_row_1 :
  Re.re_search Re.row_pattern "keyword: Teeth Whitening, performance: 88, sov: 2"
  = Some ["Teeth Whitening"; "88"; "2"].
Proof. vm_compute. reflexivity. Qed.

Example re_row_2 :
  Re.re_search Re.row_pattern "Found KEYWORD dentist near me ; Performance: 7.5  SOV 3-1 rest"
  = Some ["dentist near me "; "7.5"; "3-1"].
Proof. vm_compute. reflexivity. Qed.

Example re_row_3 :
  Re.re_search Re.row_pattern "keyword: a performance: 1 sov: 2" = Some ["a"; "1"; "2"].
Proof. vm_compute. reflexivity. Qed.

Example re_header_1 :
  Re.re_match Re.header_pattern "| Keyword | Performance | SOV |" = Some [].
Proof. vm_compute. reflexivity. Qed.

Example re_header_2 :
  Re.re_match Re.header_pattern "| a | 10 | 2 |" = None.
Proof. vm_compute. reflexivity. Qed.

Example splitlines_1 :
  PyStr.splitlines ("a" +:+ (PyStr.CR :: PyStr.nl) +:+ PyStr.nl +:+ "b" +:+ PyStr.nl)
  = ["a"; ""; "b"].
Proof. vm_compute. reflexivity. Qed.

Example strip_1 : PyStr.strip "  a b  " = "a b".
Proof. vm_compute. reflexivity. Qed.

(** Characters outside ASCII: the lower case of any letter, the white space
    of any script, and the alphanumeric characters [\w] matches. *)
Example lower_1 : PyStr.lower "ÉCLAIR ΟΔΟΣ İstanbul" = "éclair οδος i̇stanbul".
Proof. vm_compute. reflexivity. Qed.

Example strip_2 : PyStr.strip ([160; 12288] ++ "Acme" ++ [8195; 133])%N = "Acme".
Proof. vm_compute. reflexivity. Qed.

Example re_row_4 :
  Re.re_search Re.row_pattern "KEYWORD: Café 中文, performance: ٣, ſov: ½"
  = Some ["Café 中文"; "٣"; "½"].
Proof. vm_compute. reflexivity. Qed.

Example extract_row_1 :
  extract_row [] "keyword: Café, performance: 5, sov: 3" = [mkRow "Café" "5" "3"].
Proof. vm_compute. reflexivity. Qed.

Example add_keyword_row_1 :
  add_keyword_row (add_keyword_row [] "ÉCLAIR" "1" "2") "éclair" "3" "4"
  = [mkRow "ÉCLAIR" "1" "2"].
Proof. vm_compute. reflexivity. Qed.

(** A name of no-break spaces is blank: the submit is rejected. *)
Example handle_submit_1 :
  handle_submit (fun _ => []) (mkStartEnv true None None true) started_world [160; 160]%N
  = (started_world, [∅], SubmitRejected).
Proof. vm_compute. reflexivity. Qed.
